(** * NetMonitor Pro: reachability prober, discovery sweep, device store and
    tiered host metrics

    A shallow embedding of [app.py] and [backup_monitor.py] and the
    properties of the specification checked against it.

    Conventions of the embedding.
    - Python [str] is [string]; only ASCII whitespace is treated as
      whitespace by [split()] and [strip()].
    - Python [int] is [Z]. Python [float] is idealised as a rational [Q]
      (no rounding error, no infinities or NaN); comparisons of numbers are
      stated with [Qle] and [Qeq].
    - [int(s)] and [float(s)] are the builtins of the interpreter: the
      model takes them as parameters [py_int] and [py_float] wherever the
      source calls them, so a result holds whatever they accept.
    - A call that leaves the program (psutil, subprocess, sockets, files,
      the clock) reads its outcome from a [World] record: either a value or
      a raised exception. Exceptions are instances of Python's [Exception],
      the class that both [except Exception] and a bare [except] catch.
    - SQLite tables are lists of rows in insertion order together with the
      AUTOINCREMENT counter; [CURRENT_TIMESTAMP] and [time.time()] are read
      from the world, one reading after the other.
    - The agent of [raspberry-pi/monitor.py] is embedded as far as its
      loop, its two requests and its metrics go; the lines it writes with
      its logger are kept in the log like printed lines.
    - Requests are routed as Flask routes them: by the [@app.route] rules
      of [app.py], 405 where a rule matches the path and none answers the
      method, 404 where no rule matches. *)

From Stdlib Require Import ZArith QArith Qround Qminmax Lqa String Ascii List Lia.
From Stdlib Require Import Sorted Permutation.
From stdpp Require Import base option list gmap strings pretty.

Local Open Scope string_scope.
Local Open Scope list_scope.
Local Open Scope Z_scope.

(** ** Python string methods *)

Module PyStr.

(** [str.isspace] on one ASCII character. *)
Definition isspace (c : ascii) : bool :=
  let n := N_of_ascii c in
  ((9 <=? n) && (n <=? 13) || (28 <=? n) && (n <=? 32))%N.

(** [s.startswith(p)] *)
Definition startswith (p s : string) : bool := String.prefix p s.

(** [s.endswith(p)] *)
Definition endswith (p s : string) : bool :=
  String.prefix (String.rev p) (String.rev s).

(** [p in s] *)
Fixpoint contains (p s : string) : bool :=
  String.prefix p s ||
  match s with
  | EmptyString => false
  | String _ s' => contains p s'
  end.

(** [s.split(sep)] for a non-empty separator: [cur] is the piece being
    read, [skip] the characters of a separator still to be passed. *)
Fixpoint split_go (sep : string) (skip : nat) (cur : string) (s : string)
  : list string :=
  match s with
  | EmptyString => [cur]
  | String c s' =>
      match skip with
      | S k => split_go sep k cur s'
      | O =>
          if String.prefix sep s
          then cur :: split_go sep (String.length sep - 1) EmptyString s'
          else split_go sep O (cur +:+ String c EmptyString) s'
      end
  end.

Definition split (sep s : string) : list string :=
  split_go sep O EmptyString s.

(** [s.split()] : pieces between runs of whitespace, none of them empty. *)
Fixpoint split_ws_go (cur : string) (s : string) : list string :=
  match s with
  | EmptyString => if String.eqb cur EmptyString then [] else [cur]
  | String c s' =>
      if isspace c
      then (if String.eqb cur EmptyString then [] else [cur])
             ++ split_ws_go EmptyString s'
      else split_ws_go (cur +:+ String c EmptyString) s'
  end.

Definition split_ws (s : string) : list string := split_ws_go EmptyString s.

(** [s.lstrip()], [s.rstrip()], [s.strip()] *)
Fixpoint lstrip (s : string) : string :=
  match s with
  | String c s' => if isspace c then lstrip s' else s
  | EmptyString => EmptyString
  end.

Definition rstrip (s : string) : string :=
  String.rev (lstrip (String.rev s)).

Definition strip (s : string) : string := rstrip (lstrip s).

(** [s.rstrip(c)] for a one-character [c]. *)
Fixpoint lstrip_char (c : ascii) (s : string) : string :=
  match s with
  | String a s' => if Ascii.eqb a c then lstrip_char c s' else s
  | EmptyString => EmptyString
  end.

Definition rstrip_char (c : ascii) (s : string) : string :=
  String.rev (lstrip_char c (String.rev s)).

Definition isdigit (c : ascii) : bool :=
  let n := N_of_ascii c in ((48 <=? n) && (n <=? 57))%N.

(** The longest prefix of characters satisfying [p], and the rest. *)
Fixpoint span (p : ascii -> bool) (s : string) : string * string :=
  match s with
  | String a s' =>
      if p a then let (x, y) := span p s' in (String a x, y)
      else (EmptyString, s)
  | EmptyString => (EmptyString, EmptyString)
  end.

(** [re.search(r'(\d+)\s+day', s)]: group 1 of the leftmost match. *)
Definition match_days_here (s : string) : option string :=
  let (digits, rest) := span isdigit s in
  let (spaces, rest') := span isspace rest in
  if negb (String.eqb digits EmptyString)
     && negb (String.eqb spaces EmptyString)
     && String.prefix "day" rest'
  then Some digits else None.

Fixpoint search_days (s : string) : option string :=
  match match_days_here s with
  | Some g => Some g
  | None =>
      match s with
      | String _ s' => search_days s'
      | EmptyString => None
      end
  end.

(** [re.search(r'(\d+):(\d+)', s)]: groups 1 and 2 of the leftmost
    match. *)
Definition match_clock_here (s : string) : option (string * string) :=
  let (h, rest) := span isdigit s in
  match rest with
  | String ":" rest' =>
      let (m, _) := span isdigit rest' in
      if negb (String.eqb h EmptyString) && negb (String.eqb m EmptyString)
      then Some (h, m) else None
  | _ => None
  end.

Fixpoint search_clock (s : string) : option (string * string) :=
  match match_clock_here s with
  | Some g => Some g
  | None =>
      match s with
      | String _ s' => search_clock s'
      | EmptyString => None
      end
  end.

(** [s.replace(old, new)] for a non-empty [old]. *)
Definition replace (old new s : string) : string :=
  String.concat new (split old s).

(** [s.lower()] on ASCII letters. *)
Definition lower_char (c : ascii) : ascii :=
  let n := N_of_ascii c in
  if ((65 <=? n) && (n <=? 90))%N then ascii_of_N (n + 32) else c.

Fixpoint lower (s : string) : string :=
  match s with
  | EmptyString => EmptyString
  | String c s' => String (lower_char c) (lower s')
  end.

(** The one-character string of a line feed. *)
Definition nl : string := String "010"%char EmptyString.

(** [str(n)] and the [{n}] of an f-string, for an [int]. *)
Definition of_int (n : Z) : string := pretty n.

End PyStr.

(** ** Numbers *)

(** Nearest integer, ties to the even one, as Python's [round]. *)
Definition round_half_even (q : Q) : Z :=
  let f := Qfloor q in
  match Qcompare (q - inject_Z f) (1 # 2) with
  | Lt => f
  | Gt => f + 1
  | Eq => if Z.even f then f else f + 1
  end.

(** [round(x, 1)] *)
Definition round1 (q : Q) : Q := Qmake (round_half_even (q * 10)) 10.

(** [max(0, min(100, x))] *)
Definition clamp_0_100 (x : Q) : Q := Qmax 0 (Qmin 100 x).


(** ** Exceptions, effects and the outside world *)

(** An instance of [Exception]: its class and its [str()]. *)
Record exn := Exn { exn_class : string; exn_str : string }.

Inductive result (A : Type) : Type :=
| Ok (a : A)
| Raise (e : exn).
Arguments Ok {A} a.
Arguments Raise {A} e.

(** What a run leaves behind besides its result: the calls that left the
    program, in order, and the lines printed. *)
Inductive event :=
| Called (name : string)
| Printed (line : string).

(** The [devices] table. *)
Record Device := {
  dev_id : Z;
  dev_name : string;
  dev_ip : string;
  dev_mac : option string;
  dev_type : option string;
  dev_status : string;
  dev_last_seen : Z;
  dev_latency : option Q;
  dev_created_at : Z
}.

(** The [raspberry_pi_nodes] table. *)
Record PiNode := {
  node_id : Z;
  node_name : string;
  node_ip : string;
  node_location : option string;
  node_is_online : bool;
  node_last_heartbeat : option Z;
  node_system_stats : option string;
  node_created_at : Z
}.

(** The program state: the two tables with their AUTOINCREMENT counters
    (the largest id handed out so far), how often each clock has been
    read, and the log. *)
Record State := {
  st_devices : list Device;
  st_devices_seq : Z;
  st_nodes : list PiNode;
  st_nodes_seq : Z;
  st_time_reads : nat;
  st_sql_reads : nat;
  st_log : list event
}.

(** JSON values of a request body. *)
#[warnings="-register-all"]
Inductive json :=
| JNull
| JBool (b : bool)
| JNum (q : Q)
| JStr (s : string)
| JArr (l : list json)
| JObj (l : list (string * json)).

Inductive AddrFamily := AF_INET | AF_OTHER.

(** One entry of [psutil.net_if_addrs()]. *)
Record Addr := {
  addr_family : AddrFamily;
  addr_address : string;
  addr_netmask : option string
}.

(** [subprocess.CompletedProcess] *)
Record Completed := { returncode : Z; stdout : string }.

(** [os.statvfs] *)
Record StatVfs := { f_blocks : Z; f_frsize : Z; f_bavail : Z }.

(** The interpreter and the SQL engine: [int()], [float()], [json.dumps],
    [isoformat()] of a clock reading, [str()] of a number, and the
    conversion SQLite applies to a text compared with an INTEGER column. *)
Record Interp := {
  in_int : string -> option Z;
  in_float : string -> option Q;
  in_json_dumps : json -> string;
  in_isoformat : Q -> string;
  in_str_num : Q -> string;
  in_sql_numeric : string -> option Z
}.

(** The n-th reading of [time.time()] and of [CURRENT_TIMESTAMP]. *)
Record Clocks := {
  ck_time : nat -> Q;
  ck_sql_now : nat -> Z
}.

(** Processes, files and modules. A file that opens is given by its
    lines, each with its line ending. *)
Record Os := {
  os_platform_system : string;
  os_subprocess_run : list string -> result Completed;
  os_open : string -> result (list string);
  os_path_exists : string -> bool;
  os_statvfs : string -> result StatVfs;
  os_import : string -> result unit;
  os_sqlite_connect : string -> result unit;
  os_write_json : string -> result unit
}.

(** Sockets and HTTP: [connect_ex] to a host and port, the raw ICMP
    socket with its [sendto], [gethostbyname], and the exchange behind
    [urlopen] (an error, or the status code of the final response). *)
Record Sockets := {
  sk_tcp_connect_ex : string -> Z -> result Z;
  sk_raw_icmp_send : string -> result unit;
  sk_gethostbyname : string -> result string;
  sk_http_exchange : string -> result Z
}.

Record Psutil := {
  ps_cpu_percent : result Q;
  ps_virtual_memory_percent : result Q;
  ps_disk_usage_percent : string -> result Q;
  ps_net_if_addrs : result (list (string * list Addr));
  ps_boot_time : result Q
}.

(** Everything the program reads from outside itself. *)
Record World := {
  w_interp : Interp;
  w_clocks : Clocks;
  w_os : Os;
  w_sockets : Sockets;
  w_psutil : Psutil
}.

Definition py_int (w : World) := in_int (w_interp w).
Definition py_float (w : World) := in_float (w_interp w).
Definition py_json_dumps (w : World) := in_json_dumps (w_interp w).
Definition py_isoformat (w : World) := in_isoformat (w_interp w).
Definition py_str_num (w : World) := in_str_num (w_interp w).
Definition sql_numeric (w : World) := in_sql_numeric (w_interp w).
Definition w_time (w : World) := ck_time (w_clocks w).
Definition w_sql_now (w : World) := ck_sql_now (w_clocks w).
Definition w_platform_system (w : World) := os_platform_system (w_os w).
Definition w_subprocess_run (w : World) := os_subprocess_run (w_os w).
Definition w_open (w : World) := os_open (w_os w).
Definition w_path_exists (w : World) := os_path_exists (w_os w).
Definition w_statvfs (w : World) := os_statvfs (w_os w).
Definition w_import (w : World) := os_import (w_os w).
Definition w_sqlite_connect (w : World) := os_sqlite_connect (w_os w).
Definition w_write_json (w : World) := os_write_json (w_os w).
Definition w_tcp_connect_ex (w : World) := sk_tcp_connect_ex (w_sockets w).
Definition w_raw_icmp_send (w : World) := sk_raw_icmp_send (w_sockets w).
Definition w_gethostbyname (w : World) := sk_gethostbyname (w_sockets w).
Definition w_http_exchange (w : World) := sk_http_exchange (w_sockets w).
Definition w_cpu_percent (w : World) := ps_cpu_percent (w_psutil w).
Definition w_virtual_memory_percent (w : World) :=
  ps_virtual_memory_percent (w_psutil w).
Definition w_disk_usage_percent (w : World) :=
  ps_disk_usage_percent (w_psutil w).
Definition w_net_if_addrs (w : World) := ps_net_if_addrs (w_psutil w).
Definition w_boot_time (w : World) := ps_boot_time (w_psutil w).

Definition M (A : Type) : Type := State -> result A * State.

Definition ret {A} (a : A) : M A := fun s => (Ok a, s).

Definition raise {A} (e : exn) : M A := fun s => (Raise e, s).

Definition bind {A B} (m : M A) (k : A -> M B) : M B :=
  fun s =>
    match m s with
    | (Ok a, s') => k a s'
    | (Raise e, s') => (Raise e, s')
    end.

(** [try: m  except Exception as e: h e] *)
Definition try_except {A} (m : M A) (h : exn -> M A) : M A :=
  fun s =>
    match m s with
    | (Ok a, s') => (Ok a, s')
    | (Raise e, s') => h e s'
    end.

Declare Scope py_scope.
Delimit Scope py_scope with py.
Notation "x <- m ;; k" := (bind m (fun x => k))
  (at level 100, m at next level, right associativity) : py_scope.
Notation "m ;; k" := (bind m (fun _ => k))
  (at level 100, right associativity) : py_scope.
Local Open Scope py_scope.

Definition set_log (l : list event) (s : State) : State :=
  {| st_devices := st_devices s; st_devices_seq := st_devices_seq s;
     st_nodes := st_nodes s; st_nodes_seq := st_nodes_seq s;
     st_time_reads := st_time_reads s; st_sql_reads := st_sql_reads s;
     st_log := l |}.

Definition set_time_reads (n : nat) (s : State) : State :=
  {| st_devices := st_devices s; st_devices_seq := st_devices_seq s;
     st_nodes := st_nodes s; st_nodes_seq := st_nodes_seq s;
     st_time_reads := n; st_sql_reads := st_sql_reads s;
     st_log := st_log s |}.

Definition set_sql_reads (n : nat) (s : State) : State :=
  {| st_devices := st_devices s; st_devices_seq := st_devices_seq s;
     st_nodes := st_nodes s; st_nodes_seq := st_nodes_seq s;
     st_time_reads := st_time_reads s; st_sql_reads := n;
     st_log := st_log s |}.

Definition set_devices (d : list Device) (q : Z) (s : State) : State :=
  {| st_devices := d; st_devices_seq := q;
     st_nodes := st_nodes s; st_nodes_seq := st_nodes_seq s;
     st_time_reads := st_time_reads s; st_sql_reads := st_sql_reads s;
     st_log := st_log s |}.

Definition set_nodes (d : list PiNode) (q : Z) (s : State) : State :=
  {| st_devices := st_devices s; st_devices_seq := st_devices_seq s;
     st_nodes := d; st_nodes_seq := q;
     st_time_reads := st_time_reads s; st_sql_reads := st_sql_reads s;
     st_log := st_log s |}.

Definition emit (e : event) : M unit :=
  fun s => (Ok tt, set_log (st_log s ++ [e]) s).

(** [print(line)] *)
Definition print (line : string) : M unit := emit (Printed line).

(** A call that leaves the program: logged, then its outcome is the
    world's. *)
Definition extern {A} (name : string) (outcome : result A) : M A :=
  fun s => (outcome, set_log (st_log s ++ [Called name]) s).

(** [time.time()] *)
Definition time_time (w : World) : M Q :=
  fun s => (Ok (w_time w (st_time_reads s)),
            set_time_reads (S (st_time_reads s)) s).

(** [CURRENT_TIMESTAMP], once per SQL statement. *)
Definition current_timestamp (w : World) : M Z :=
  fun s => (Ok (w_sql_now w (st_sql_reads s)),
            set_sql_reads (S (st_sql_reads s)) s).

(** [datetime.now().isoformat()] *)
Definition datetime_now_isoformat (w : World) : M string :=
  (t <- time_time w ;; ret (py_isoformat w t)).

(** [l[i]] *)
Definition index {A} (l : list A) (i : nat) : M A :=
  match nth_error l i with
  | Some a => ret a
  | None => raise (Exn "IndexError" "list index out of range")
  end.

(** [int(s)] and [float(s)] *)
Definition int_ (w : World) (s : string) : M Z :=
  match py_int w s with
  | Some n => ret n
  | None => raise (Exn "ValueError" "invalid literal for int()")
  end.

Definition float_ (w : World) (s : string) : M Q :=
  match py_float w s with
  | Some x => ret x
  | None => raise (Exn "ValueError" "could not convert string to float")
  end.

(** ** Reachability prober: [NetworkMonitor.ping_host] *)

(** [(success, latency)] *)
Definition ProbeResult : Type := bool * option Q.

(** The argument string built for the platform's ping utility. *)
Definition ping_command (w : World) (target : string) (count : Z) : string :=
  if String.eqb (PyStr.lower (w_platform_system w)) "windows"
  then "ping -n " +:+ PyStr.of_int count +:+ " " +:+ target
  else "ping -c " +:+ PyStr.of_int count +:+ " " +:+ target.

(** [float(line.split('time=')[1].split('ms')[0])] *)
Definition parse_time_field (w : World) (line : string) : M Q :=
  a <- index (PyStr.split "time=" line) 1 ;;
  b <- index (PyStr.split "ms" a) 0 ;;
  float_ w b.

(** The loop over the lines of the output. [Some l] is
    [return True, l] from inside the loop, [None] is the loop running to
    its end. *)
Fixpoint scan_time_lines (w : World) (lines : list string) : M (option Q) :=
  match lines with
  | [] => ret None
  | line :: rest =>
      if PyStr.contains "time=" line
      then
        r <- try_except
               (latency <- parse_time_field w line ;; ret (Some latency))
               (fun _ => ret None) ;;
        match r with
        | Some latency => ret (Some latency)
        | None => scan_time_lines w rest
        end
      else scan_time_lines w rest
  end.

(** Each method yields [Some r] when it executes [return r] and [None] when
    control falls through to the next method. *)

(** Method 1: the ping command. *)
Definition ping_method1 (w : World) (target : string) (count : Z)
  : M (option ProbeResult) :=
  try_except
    (result <- extern "subprocess.run"
                 (w_subprocess_run w
                    (PyStr.split_ws (ping_command w target count))) ;;
     if returncode result =? 0
     then
       let output := stdout result in
       if PyStr.contains "time=" output
       then
         r <- scan_time_lines w (PyStr.split PyStr.nl output) ;;
         match r with
         | Some latency => ret (Some (true, Some latency))
         | None => ret (Some (true, None))
         end
       else ret (Some (true, None))
     else ret (Some (false, None)))
    (fun e =>
       print ("Standard ping failed for " +:+ target +:+ ": " +:+ exn_str e) ;;
       ret None).

(** Method 2: TCP connect to port 80 and, when the connect is refused, a
    raw ICMP socket. *)
Definition ping_method2 (w : World) (target : string)
  : M (option ProbeResult) :=
  try_except
    (start_time <- time_time w ;;
     result <- extern "socket.connect_ex" (w_tcp_connect_ex w target 80) ;;
     if result =? 0
     then
       t <- time_time w ;;
       ret (Some (true, Some (round1 ((t - start_time) * 1000))))
     else
       try_except
         (extern "socket.sendto" (w_raw_icmp_send w target) ;;
          t <- time_time w ;;
          ret (Some (true, Some (round1 ((t - start_time) * 1000)))))
         (fun _ => ret None))
    (fun e =>
       print ("Socket ping failed for " +:+ target +:+ ": " +:+ exn_str e) ;;
       ret None).

(** Method 3: name resolution. *)
Definition ping_method3 (w : World) (target : string)
  : M (option ProbeResult) :=
  try_except
    (start_time <- time_time w ;;
     extern "socket.gethostbyname" (w_gethostbyname w target) ;;
     t <- time_time w ;;
     ret (Some (true, Some (round1 ((t - start_time) * 1000)))))
    (fun e =>
       print ("DNS lookup failed for " +:+ target +:+ ": " +:+ exn_str e) ;;
       ret None).

(** [urllib.request.urlopen(url, timeout=5)]. The world gives the outcome
    of the exchange: an error before any response, or the status code of
    the final response. The library returns a response object only for a
    status in 200..299 and raises [HTTPError] for any other. *)
Definition urlopen (w : World) (url : string) : M Z :=
  status <- extern "urllib.request.urlopen" (w_http_exchange w url) ;;
  if (200 <=? status) && (status <? 300)
  then ret status
  else raise (Exn "HTTPError" ("HTTP Error " +:+ PyStr.of_int status)).

(** Method 4: HTTP request. *)
Definition ping_method4 (w : World) (target : string)
  : M (option ProbeResult) :=
  try_except
    (start_time <- time_time w ;;
     urlopen w ("http://" +:+ target) ;;
     t <- time_time w ;;
     ret (Some (true, Some (round1 ((t - start_time) * 1000)))))
    (fun _ => ret None).

Definition ping_host (w : World) (target : string) (count : Z)
  : M ProbeResult :=
  r1 <- ping_method1 w target count ;;
  match r1 with
  | Some r => ret r
  | None =>
      r2 <- ping_method2 w target ;;
      match r2 with
      | Some r => ret r
      | None =>
          r3 <- ping_method3 w target ;;
          match r3 with
          | Some r => ret r
          | None =>
              r4 <- ping_method4 w target ;;
              match r4 with
              | Some r => ret r
              | None => ret (false, None)
              end
          end
      end
  end.

(** ** The device store *)

(** Reading and replacing the [devices] table inside [M]. *)
Definition get_devices : M (list Device) := fun s => (Ok (st_devices s), s).

Definition put_devices (rows : list Device) (seq : Z) : M unit :=
  fun s => (Ok tt, set_devices rows seq s).

Definition get_devices_seq : M Z := fun s => (Ok (st_devices_seq s), s).

Definition has_ip (ip : string) (d : Device) : bool := String.eqb (dev_ip d) ip.

(** [SELECT id FROM devices WHERE ip_address = ?] and [fetchone()]. *)
Definition select_device_id (ip : string) : M (option Z) :=
  rows <- get_devices ;;
  ret (dev_id <$> List.find (has_ip ip) rows).

(** The row after
    [SET status = 'online', latency = ?, last_seen = CURRENT_TIMESTAMP]. *)
Definition mark_online (latency : option Q) (now : Z) (d : Device) : Device :=
  {| dev_id := dev_id d; dev_name := dev_name d; dev_ip := dev_ip d;
     dev_mac := dev_mac d; dev_type := dev_type d;
     dev_status := "online"; dev_last_seen := now;
     dev_latency := latency; dev_created_at := dev_created_at d |}.

(** [UPDATE devices SET ... WHERE ip_address = ?] *)
Definition update_device_online (w : World) (latency : option Q) (ip : string)
  : M unit :=
  now <- current_timestamp w ;;
  rows <- get_devices ;;
  seq <- get_devices_seq ;;
  put_devices
    (map (fun d => if has_ip ip d then mark_online latency now d else d) rows)
    seq.

(** [INSERT [OR IGNORE] INTO devices (name, ip_address, mac_address,
    device_type, status, latency) VALUES (...)]: the id comes from the
    AUTOINCREMENT counter, [last_seen] and [created_at] default to
    [CURRENT_TIMESTAMP], and [ip_address] is UNIQUE. *)
Definition insert_device (w : World) (or_ignore : bool)
    (name ip : string) (mac : option string) (type : string)
    (status : string) (latency : option Q) : M unit :=
  now <- current_timestamp w ;;
  rows <- get_devices ;;
  seq <- get_devices_seq ;;
  if existsb (has_ip ip) rows
  then
    if or_ignore then ret tt
    else raise (Exn "IntegrityError"
                  "UNIQUE constraint failed: devices.ip_address")
  else
    put_devices
      (rows ++ [ {| dev_id := seq + 1; dev_name := name; dev_ip := ip;
                    dev_mac := mac; dev_type := Some type;
                    dev_status := status; dev_last_seen := now;
                    dev_latency := latency; dev_created_at := now |} ])
      (seq + 1).

(** [l[-1]] *)
Definition index_last {A} (l : list A) : M A :=
  match List.last (map Some l) None with
  | Some a => ret a
  | None => raise (Exn "IndexError" "list index out of range")
  end.

Definition update_or_add_device (w : World) (ip_address : string)
    (latency : option Q) : M unit :=
  result <- select_device_id ip_address ;;
  match result with
  | Some _ => update_device_online w latency ip_address
  | None =>
      suffix <- index_last (PyStr.split "." ip_address) ;;
      if PyStr.endswith ".1" ip_address || PyStr.endswith ".254" ip_address
      then insert_device w false ("Gateway " +:+ suffix) ip_address None
             "Router" "online" latency
      else insert_device w false ("Device " +:+ suffix) ip_address None
             "Network Device" "online" latency
  end.

(** [(name, ip_address, mac_address, device_type, status, latency)] *)
Definition sample_devices
  : list (string * string * string * string * string * Q) :=
  [ ("Main Router", "192.168.1.1", "00:11:22:33:44:55", "Router", "online",
     152 # 10);
    ("Network Switch", "192.168.1.2", "00:11:22:33:44:56", "Switch", "online",
     85 # 10);
    ("WiFi Access Point", "192.168.1.3", "00:11:22:33:44:57", "Access Point",
     "warning", 251 # 10) ].

(** [for x in xs: body x] *)
Fixpoint for_each {A} (xs : list A) (body : A -> M unit) : M unit :=
  match xs with
  | [] => ret tt
  | x :: rest => body x ;; for_each rest body
  end.

Definition add_sample_data (w : World) : M unit :=
  for_each sample_devices
    (fun '(name, ip, mac, type, status, latency) =>
       insert_device w true name ip (Some mac) type status (Some latency)).

(** [CREATE TABLE IF NOT EXISTS] keeps the rows of a table that exists and
    gives an empty one otherwise, which is what [State] holds from the
    start; the sample rows are then added. *)
Definition init_database (w : World) : M unit := add_sample_data w.

(** The store before the program has ever run. *)
Definition fresh_state : State :=
  {| st_devices := []; st_devices_seq := 0; st_nodes := []; st_nodes_seq := 0;
     st_time_reads := 0; st_sql_reads := 0; st_log := [] |}.

(** [ORDER BY name]: byte order of the names, rows of equal name in
    insertion order. *)
Fixpoint insert_by_name (d : Device) (l : list Device) : list Device :=
  match l with
  | [] => [d]
  | x :: rest =>
      if String.leb (dev_name d) (dev_name x)
      then d :: x :: rest
      else x :: insert_by_name d rest
  end.

Definition order_by_name (l : list Device) : list Device :=
  fold_right insert_by_name [] l.

(** [GET /api/network-devices] *)
Definition get_network_devices : M (list Device) :=
  rows <- get_devices ;;
  ret (order_by_name rows).

(** ** Raspberry Pi nodes *)

(** The JSON body of the small answers:
    [jsonify({'success': ..., 'message' or 'error': ...}), status]. *)
Record Answer := {
  ans_status : Z;
  ans_success : bool;
  ans_text : string
}.

Definition get_nodes : M (list PiNode) := fun s => (Ok (st_nodes s), s).

Definition get_nodes_seq : M Z := fun s => (Ok (st_nodes_seq s), s).

Definition put_nodes (rows : list PiNode) (seq : Z) : M unit :=
  fun s => (Ok tt, set_nodes rows seq s).

(** [data.get(key, default)] on the body of a request. *)
Definition dict_get {V} (key : string) (default : V) (data : gmap string V)
  : V :=
  match data !! key with
  | Some v => v
  | None => default
  end.

(** [WHERE id = ?] with the text of the URL as parameter: the engine
    converts it to a number where it can and compares. *)
Definition id_matches (w : World) (param : string) (n : PiNode) : bool :=
  match sql_numeric w param with
  | Some i => node_id n =? i
  | None => false
  end.

(** The row after
    [SET is_online = 1, last_heartbeat = CURRENT_TIMESTAMP, system_stats = ?]. *)
Definition stamp_heartbeat (now : Z) (stats : string) (n : PiNode) : PiNode :=
  {| node_id := node_id n; node_name := node_name n; node_ip := node_ip n;
     node_location := node_location n; node_is_online := true;
     node_last_heartbeat := Some now; node_system_stats := Some stats;
     node_created_at := node_created_at n |}.

(** [POST /api/raspberry-pi/<node_id>/heartbeat], for a request whose body
    is a JSON object. *)
Definition raspberry_pi_heartbeat (w : World) (node_id : string)
    (data : gmap string json) : M Answer :=
  let system_stats := dict_get "systemStats" (JObj []) data in
  now <- current_timestamp w ;;
  rows <- get_nodes ;;
  seq <- get_nodes_seq ;;
  put_nodes
    (map (fun n =>
            if id_matches w node_id n
            then stamp_heartbeat now (py_json_dumps w system_stats) n
            else n) rows)
    seq ;;
  ret {| ans_status := 200; ans_success := true;
         ans_text := "Heartbeat received" |}.

(** ** Subnet discovery: [NetworkMonitor.discover_network_devices] *)

(** [f"{ip_parts[0]}.{ip_parts[1]}.{ip_parts[2]}"] of [address.split('.')] *)
Definition subnet_of (address : string) : M string :=
  let ip_parts := PyStr.split "." address in
  p0 <- index ip_parts 0 ;;
  p1 <- index ip_parts 1 ;;
  p2 <- index ip_parts 2 ;;
  ret (p0 +:+ "." +:+ p1 +:+ "." +:+ p2).

Definition is_inet (a : Addr) : bool :=
  match addr_family a with
  | AF_INET => true
  | AF_OTHER => false
  end.

(** The inner loop over the addresses of one interface. *)
Fixpoint nets_of_addrs (addrs : list Addr) : M (list string) :=
  match addrs with
  | [] => ret []
  | addr :: rest =>
      if is_inet addr && negb (PyStr.startswith "127." (addr_address addr))
      then
        subnet <- subnet_of (addr_address addr) ;;
        more <- nets_of_addrs rest ;;
        ret (subnet :: more)
      else nets_of_addrs rest
  end.

(** The outer loop over [interfaces.items()]. *)
Fixpoint nets_of_interfaces (ifs : list (string * list Addr))
  : M (list string) :=
  match ifs with
  | [] => ret []
  | (_, addrs) :: rest =>
      here <- nets_of_addrs addrs ;;
      more <- nets_of_interfaces rest ;;
      ret (here ++ more)%list
  end.

(** [common_ips] *)
Definition common_ips : list Z := [1; 254; 100; 101; 102].

(** The body of the loop over [common_ips] for one subnet. *)
Definition probe_suffix (w : World) (subnet : string) (last_octet : Z)
  : M unit :=
  let target_ip := subnet +:+ "." +:+ PyStr.of_int last_octet in
  r <- ping_host w target_ip 1 ;;
  let '(success, latency) := r in
  if success then update_or_add_device w target_ip latency else ret tt.

(** Python leaves the order in which [set(local_nets)] is iterated open;
    the model visits the distinct subnets in the order of [remove_dups]. *)
Definition discover_network_devices (w : World) : M unit :=
  try_except
    (interfaces <- extern "psutil.net_if_addrs" (w_net_if_addrs w) ;;
     local_nets <- nets_of_interfaces interfaces ;;
     for_each (remove_dups local_nets)
       (fun subnet => for_each common_ips (probe_suffix w subnet)))
    (fun e => print ("Network discovery error: " +:+ exn_str e)).

(** ** Primary collector: [NetworkMonitor.get_system_stats] *)

Record Interface := {
  if_name : string;
  if_ip : string;
  if_netmask : option string
}.

Record SystemStats := {
  ss_cpu_usage : Q;
  ss_memory_usage : Q;
  ss_disk_usage : Q;
  ss_uptime_hours : Q;
  ss_interfaces : list Interface;
  ss_timestamp : string
}.

(** The inner loop of the interface listing: the first IPv4 address of the
    interface, then [break]. *)
Definition first_inet (interface : string) (addrs : list Addr)
  : list Interface :=
  match List.find is_inet addrs with
  | Some addr => [ {| if_name := interface; if_ip := addr_address addr;
                      if_netmask := addr_netmask addr |} ]
  | None => []
  end.

Definition list_interfaces (ifs : list (string * list Addr))
  : list Interface :=
  flat_map (fun '(interface, addrs) =>
              if PyStr.startswith "lo" interface then []
              else first_inet interface addrs) ifs.

Definition get_system_stats (w : World) : M SystemStats :=
  try_except
    (cpu_percent <- extern "psutil.cpu_percent" (w_cpu_percent w) ;;
     memory_percent <- extern "psutil.virtual_memory"
                         (w_virtual_memory_percent w) ;;
     disk_percent <- extern "psutil.disk_usage"
                       (w_disk_usage_percent w "/") ;;
     ifs <- extern "psutil.net_if_addrs" (w_net_if_addrs w) ;;
     let interfaces := list_interfaces ifs in
     boot_time <- extern "psutil.boot_time" (w_boot_time w) ;;
     t <- time_time w ;;
     let uptime_seconds := (t - boot_time)%Q in
     let uptime_hours := (uptime_seconds / 3600)%Q in
     timestamp <- datetime_now_isoformat w ;;
     ret {| ss_cpu_usage := round1 cpu_percent;
            ss_memory_usage := round1 memory_percent;
            ss_disk_usage := round1 disk_percent;
            ss_uptime_hours := round1 uptime_hours;
            ss_interfaces := interfaces;
            ss_timestamp := timestamp |})
    (fun e =>
       print ("Error getting system stats: " +:+ exn_str e) ;;
       timestamp <- datetime_now_isoformat w ;;
       ret {| ss_cpu_usage := 0; ss_memory_usage := 0; ss_disk_usage := 0;
              ss_uptime_hours := 0; ss_interfaces := [];
              ss_timestamp := timestamp |}).

(** ** Backup collector: [backup_monitor.BackupMonitor] *)

Definition is_linux (w : World) : bool :=
  String.eqb (w_platform_system w) "Linux".

(** [f.readline()] on a file just opened. *)
Definition readline (lines : list string) : string :=
  match lines with
  | line :: _ => line
  | [] => EmptyString
  end.

(** [[f(x) for x in xs]] *)
Fixpoint map_m {A B} (f : A -> M B) (xs : list A) : M (list B) :=
  match xs with
  | [] => ret []
  | x :: rest =>
      y <- f x ;;
      ys <- map_m f rest ;;
      ret (y :: ys)
  end.

Definition sum_z (l : list Z) : Z := fold_right Z.add 0 l.

(** [a / b] on two [int]s. *)
Definition truediv (a b : Z) : M Q :=
  if b =? 0
  then raise (Exn "ZeroDivisionError" "division by zero")
  else ret (inject_Z a / inject_Z b)%Q.

(** [l[i]] where [i] may be negative. *)
Definition index_z {A} (l : list A) (i : Z) : M A :=
  if i <? 0
  then
    if 0 <=? i + Z.of_nat (length l)
    then index l (Z.to_nat (i + Z.of_nat (length l)))
    else raise (Exn "IndexError" "list index out of range")
  else index l (Z.to_nat i).

(** [BackupMonitor.__init__]: [init_backup_database] opens the backup
    database and creates its tables. *)
Definition BackupMonitor_init (w : World) : M unit :=
  extern "sqlite3.connect" (w_sqlite_connect w "backup_monitor.db").

(** The loop over the fields of a line of [top]. *)
Fixpoint scan_top_parts (w : World) (parts : list string) (rest : list string)
    (i : Z) : M (option Q) :=
  match rest with
  | [] => ret None
  | part :: rest' =>
      if PyStr.contains "us" part || PyStr.contains "user" part
      then
        r <- try_except
               (field <- index_z parts (i - 1) ;;
                x <- float_ w (PyStr.replace "%" "" field) ;;
                ret (Some x))
               (fun _ => ret None) ;;
        match r with
        | Some x => ret (Some x)
        | None => scan_top_parts w parts rest' (i + 1)
        end
      else scan_top_parts w parts rest' (i + 1)
  end.

(** The loop over the lines of [top]. *)
Fixpoint scan_top_lines (w : World) (lines : list string) : M (option Q) :=
  match lines with
  | [] => ret None
  | line :: rest =>
      if PyStr.contains "Cpu(s)" line || PyStr.contains "%Cpu" line
      then
        let parts := PyStr.split_ws line in
        r <- scan_top_parts w parts parts 0 ;;
        match r with
        | Some x => ret (Some x)
        | None => scan_top_lines w rest
        end
      else scan_top_lines w rest
  end.

Definition get_cpu_usage_basic (w : World) : M Q :=
  r <- try_except
         (if is_linux w
          then
            f <- extern "open" (w_open w "/proc/stat") ;;
            let line := readline f in
            cpu_times <- map_m (int_ w) (tail (PyStr.split_ws line)) ;;
            idle_time <- index cpu_times 3 ;;
            let total_time := sum_z cpu_times in
            ratio <- truediv idle_time total_time ;;
            let cpu_usage := (100 * (1 - ratio))%Q in
            ret (Some (clamp_0_100 cpu_usage))
          else
            result <- extern "subprocess.run"
                        (w_subprocess_run w ["top"; "-bn1"]) ;;
            scan_top_lines w (PyStr.split PyStr.nl (stdout result)))
         (fun e =>
            print ("CPU usage error: " +:+ exn_str e) ;;
            ret (Some 0%Q)) ;;
  match r with
  | Some x => ret x
  | None => ret 0%Q
  end.

(** [{'total': ..., 'used': ..., 'percent': ...}] *)
Record Usage := {
  u_total : Z;
  u_used : Z;
  u_percent : Q
}.

(** The loop that fills the [meminfo] dictionary; each value is multiplied
    by [factor] (1024 in the backup collector, 1 in the failsafe). *)
Fixpoint read_meminfo (w : World) (factor : Z) (lines : list string)
    (meminfo : gmap string Z) : M (gmap string Z) :=
  match lines with
  | [] => ret meminfo
  | line :: rest =>
      match PyStr.split ":" line with
      | [key; value] =>
          field <- index (PyStr.split_ws value) 0 ;;
          n <- int_ w field ;;
          read_meminfo w factor rest
            (<[PyStr.strip key := n * factor]> meminfo)
      | _ => raise (Exn "ValueError" "wrong number of values to unpack")
      end
  end.

(** [meminfo.get('MemAvailable', meminfo.get('MemFree', 0))] *)
Definition mem_available (meminfo : gmap string Z) : Z :=
  dict_get "MemAvailable" (dict_get "MemFree" 0 meminfo) meminfo.

(** [(used / total * 100) if total > 0 else 0] *)
Definition percent_used (used total : Z) : Q :=
  if 0 <? total then (inject_Z used / inject_Z total * 100)%Q else 0%Q.

Definition no_usage : Usage := {| u_total := 0; u_used := 0; u_percent := 0 |}.

Definition get_memory_usage_basic (w : World) : M Usage :=
  r <- try_except
         (if is_linux w
          then
            f <- extern "open" (w_open w "/proc/meminfo") ;;
            meminfo <- read_meminfo w 1024 f ∅ ;;
            let total := dict_get "MemTotal" 0 meminfo in
            let available := mem_available meminfo in
            let used := total - available in
            let percent := percent_used used total in
            ret (Some {| u_total := total; u_used := used;
                         u_percent := round1 percent |})
          else
            result <- extern "subprocess.run"
                        (w_subprocess_run w ["free"; "-b"]) ;;
            let lines := PyStr.split PyStr.nl (stdout result) in
            if (2 <=? length lines)%nat
            then
              line1 <- index lines 1 ;;
              let mem_line := PyStr.split_ws line1 in
              f1 <- index mem_line 1 ;;
              total <- int_ w f1 ;;
              f2 <- index mem_line 2 ;;
              used <- int_ w f2 ;;
              let percent := percent_used used total in
              ret (Some {| u_total := total; u_used := used;
                           u_percent := round1 percent |})
            else ret None)
         (fun e =>
            print ("Memory usage error: " +:+ exn_str e) ;;
            ret None) ;;
  match r with
  | Some u => ret u
  | None => ret no_usage
  end.

Definition get_disk_usage_basic (w : World) : M Usage :=
  r <- try_except
         (if is_linux w
          then
            stat <- extern "os.statvfs" (w_statvfs w "/") ;;
            let total := f_blocks stat * f_frsize stat in
            let free := f_bavail stat * f_frsize stat in
            let used := total - free in
            let percent := percent_used used total in
            ret (Some {| u_total := total; u_used := used;
                         u_percent := round1 percent |})
          else
            result <- extern "subprocess.run"
                        (w_subprocess_run w ["df"; "/"]) ;;
            let lines := PyStr.split PyStr.nl (stdout result) in
            if (2 <=? length lines)%nat
            then
              line1 <- index lines 1 ;;
              let disk_line := PyStr.split_ws line1 in
              f1 <- index disk_line 1 ;;
              total <- int_ w f1 ;;
              f2 <- index disk_line 2 ;;
              used <- int_ w f2 ;;
              f4 <- index disk_line 4 ;;
              percent <- float_ w (PyStr.replace "%" "" f4) ;;
              ret (Some {| u_total := total * 1024; u_used := used * 1024;
                           u_percent := percent |})
            else ret None)
         (fun e =>
            print ("Disk usage error: " +:+ exn_str e) ;;
            ret None) ;;
  match r with
  | Some u => ret u
  | None => ret no_usage
  end.

(** A Python value used as a condition: [None] and the empty string are
    false. *)
Definition truthy (o : option string) : bool :=
  match o with
  | Some s => negb (String.eqb s EmptyString)
  | None => false
  end.

Definition default_netmask_iface (name ip : string) : Interface :=
  {| if_name := name; if_ip := ip; if_netmask := Some "255.255.255.0" |}.

(** One turn of the loop over the output of [ip addr show]; the pair is
    [(current_interface, interfaces)]. *)
Definition ip_addr_line (acc : option string * list Interface)
    (raw : string) : M (option string * list Interface) :=
  let '(current_interface, interfaces) := acc in
  let line := PyStr.strip raw in
  if negb (String.eqb line EmptyString) && negb (PyStr.startswith " " line)
  then
    let parts := PyStr.split_ws line in
    if (2 <=? length parts)%nat
    then
      p1 <- index parts 1 ;;
      let interface_name := PyStr.rstrip_char ":" p1 in
      if negb (String.eqb interface_name "lo")
      then ret (Some interface_name, interfaces)
      else ret acc
    else ret acc
  else
    if PyStr.contains "inet " line && truthy current_interface
    then
      p1 <- index (PyStr.split_ws line) 1 ;;
      ip_addr <- index (PyStr.split "/" p1) 0 ;;
      ret (None,
           (interfaces ++
            [default_netmask_iface (default EmptyString current_interface)
               ip_addr])%list)
    else ret acc.

(** The inner loop of the [ifconfig] branch: the field after the first
    ['inet'] that has one. *)
Fixpoint field_after_inet (parts : list string) : option string :=
  match parts with
  | part :: rest =>
      match rest with
      | next :: _ =>
          if String.eqb part "inet" then Some next else field_after_inet rest
      | [] => None
      end
  | [] => None
  end.

(** One turn of the loop over the output of [ifconfig]. *)
Definition ifconfig_line (acc : option string * list Interface)
    (line : string) : M (option string * list Interface) :=
  let '(current_interface, interfaces) := acc in
  if negb (String.eqb line EmptyString)
     && negb (PyStr.startswith " " line)
     && negb (PyStr.startswith (String "009"%char EmptyString) line)
  then
    interface_name <- index (PyStr.split_ws line) 0 ;;
    if negb (String.eqb interface_name "lo")
    then ret (Some interface_name, interfaces)
    else ret acc
  else
    if PyStr.contains "inet " line && truthy current_interface
    then
      match field_after_inet (PyStr.split_ws line) with
      | Some ip_addr =>
          ret (None,
               (interfaces ++
                [default_netmask_iface
                   (default EmptyString current_interface) ip_addr])%list)
      | None => ret acc
      end
    else ret acc.

(** A loop that carries local variables from one turn to the next. *)
Fixpoint fold_m {A B} (f : B -> A -> M B) (xs : list A) (b : B) : M B :=
  match xs with
  | [] => ret b
  | x :: rest => b' <- f b x ;; fold_m f rest b'
  end.

(** In the [ip addr show] branch nothing is appended before a point that
    can raise, so the [ifconfig] branch starts from an empty list. *)
Definition get_network_interfaces_basic (w : World) : M (list Interface) :=
  try_except
    (if is_linux w
     then
       try_except
         (result <- extern "subprocess.run"
                      (w_subprocess_run w ["ip"; "addr"; "show"]) ;;
          acc <- fold_m ip_addr_line (PyStr.split PyStr.nl (stdout result))
                   (None, []) ;;
          ret (snd acc))
         (fun _ =>
            result <- extern "subprocess.run"
                        (w_subprocess_run w ["ifconfig"]) ;;
            acc <- fold_m ifconfig_line (PyStr.split PyStr.nl (stdout result))
                     (None, []) ;;
            ret (snd acc))
     else ret [])
    (fun e =>
       print ("Network interfaces error: " +:+ exn_str e) ;;
       ret [ {| if_name := "eth0"; if_ip := "127.0.0.1";
                if_netmask := Some "255.0.0.0" |} ]).

Definition get_system_uptime_basic (w : World) : M Q :=
  try_except
    (if is_linux w
     then
       f <- extern "open" (w_open w "/proc/uptime") ;;
       field <- index (PyStr.split_ws (readline f)) 0 ;;
       float_ w field
     else
       result <- extern "subprocess.run" (w_subprocess_run w ["uptime"]) ;;
       let output := stdout result in
       if PyStr.contains "day" output
       then
         days <- match PyStr.search_days output with
                 | Some g => int_ w g
                 | None => ret 0
                 end ;;
         match PyStr.search_clock output with
         | Some (g1, g2) =>
             hours <- int_ w g1 ;;
             minutes <- int_ w g2 ;;
             ret (inject_Z (days * 86400 + hours * 3600 + minutes * 60))
         | None => ret 3600%Q
         end
       else ret 3600%Q)
    (fun e =>
       print ("Uptime error: " +:+ exn_str e) ;;
       ret 0%Q).

Record BackupStats := {
  bs_timestamp : string;
  bs_cpu_usage : Q;
  bs_memory : Usage;
  bs_disk : Usage;
  bs_network_interfaces : list Interface;
  bs_uptime_seconds : Q;
  bs_uptime_hours : Q;
  bs_load_average : string;
  bs_process_count : Z
}.

Definition collect_system_stats (w : World) : M BackupStats :=
  try_except
    (cpu_usage <- get_cpu_usage_basic w ;;
     memory_info <- get_memory_usage_basic w ;;
     disk_info <- get_disk_usage_basic w ;;
     network_interfaces <- get_network_interfaces_basic w ;;
     uptime_seconds <- get_system_uptime_basic w ;;
     process_count <-
       try_except
         (result <- extern "subprocess.run"
                      (w_subprocess_run w ["ps"; "aux"]) ;;
          ret (Z.of_nat (length (PyStr.split PyStr.nl (stdout result))) - 2))
         (fun _ => ret 50) ;;
     load_average <-
       try_except
         (if is_linux w
          then
            f <- extern "open" (w_open w "/proc/loadavg") ;;
            ret (String.concat " " (firstn 3 (PyStr.split_ws (readline f))))
          else ret "0.0 0.0 0.0")
         (fun _ => ret "0.0 0.0 0.0") ;;
     timestamp <- datetime_now_isoformat w ;;
     ret {| bs_timestamp := timestamp;
            bs_cpu_usage := cpu_usage;
            bs_memory := memory_info;
            bs_disk := disk_info;
            bs_network_interfaces := network_interfaces;
            bs_uptime_seconds := uptime_seconds;
            bs_uptime_hours := round1 (uptime_seconds / 3600);
            bs_load_average := load_average;
            bs_process_count := process_count |})
    (fun e =>
       print ("Error collecting system stats: " +:+ exn_str e) ;;
       timestamp <- datetime_now_isoformat w ;;
       ret {| bs_timestamp := timestamp;
              bs_cpu_usage := 0;
              bs_memory := no_usage;
              bs_disk := no_usage;
              bs_network_interfaces := [];
              bs_uptime_seconds := 0;
              bs_uptime_hours := 0;
              bs_load_average := "0.0 0.0 0.0";
              bs_process_count := 0 |}).

(** The backup database and the JSON file are outside the model: only the
    calls and whether they raise are kept. *)
Definition store_backup_data (w : World) (stats : BackupStats) : M unit :=
  try_except
    (extern "sqlite3.connect" (w_sqlite_connect w "backup_monitor.db") ;;
     extern "json.dump" (w_write_json w "backup_data.json") ;;
     print ("Backup data collected: CPU " +:+ py_str_num w (bs_cpu_usage stats)
            +:+ "%, Memory " +:+ py_str_num w (u_percent (bs_memory stats))
            +:+ "%, Disk " +:+ py_str_num w (u_percent (bs_disk stats))
            +:+ "%"))
    (fun e => print ("Error storing backup data: " +:+ exn_str e)).

Definition run_monitoring_cycle (w : World) : M BackupStats :=
  stats <- collect_system_stats w ;;
  store_backup_data w stats ;;
  ret stats.

(** ** On-demand host metrics: [GET /api/host/stats] *)

(** The JSON object handed to [jsonify]. *)
Record HostStats := {
  hs_cpuUsage : Q;
  hs_memoryUsage : Q;
  hs_diskUsage : Q;
  hs_uptime : Q;
  hs_networkInterfaces : list Interface;
  hs_source : string
}.

(** The body of the outer [try]: the primary collector, reached through
    the module-level [monitor] object. [collector] is the bound method
    [monitor.get_system_stats]. *)
Definition primary_tier (collector : M SystemStats) : M HostStats :=
  stats <- collector ;;
  ret {| hs_cpuUsage := ss_cpu_usage stats;
         hs_memoryUsage := ss_memory_usage stats;
         hs_diskUsage := ss_disk_usage stats;
         hs_uptime := ss_uptime_hours stats;
         hs_networkInterfaces := ss_interfaces stats;
         hs_source := "primary" |}.

(** The body of the second [try]. *)
Definition backup_tier (w : World) : M HostStats :=
  extern "import backup_monitor" (w_import w "backup_monitor") ;;
  BackupMonitor_init w ;;
  backup_stats <- run_monitoring_cycle w ;;
  ret {| hs_cpuUsage := bs_cpu_usage backup_stats;
         hs_memoryUsage := u_percent (bs_memory backup_stats);
         hs_diskUsage := u_percent (bs_disk backup_stats);
         hs_uptime := bs_uptime_hours backup_stats;
         hs_networkInterfaces := bs_network_interfaces backup_stats;
         hs_source := "backup" |}.

(** [memory_usage] of the failsafe. *)
Definition failsafe_memory_usage (w : World) : M Q :=
  try_except
    (if is_linux w && w_path_exists w "/proc/meminfo"
     then
       f <- extern "open" (w_open w "/proc/meminfo") ;;
       meminfo <- read_meminfo w 1 f ∅ ;;
       let total := dict_get "MemTotal" 0 meminfo in
       let available := mem_available meminfo in
       if 0 <? total
       then ret (round1 (inject_Z (total - available) / inject_Z total * 100))
       else ret 50%Q
     else ret 50%Q)
    (fun _ => ret 50%Q).

(** [disk_usage] of the failsafe. *)
Definition failsafe_disk_usage (w : World) : M Q :=
  try_except
    (stat <- extern "os.statvfs" (w_statvfs w "/") ;;
     let total := f_blocks stat * f_frsize stat in
     let free := f_bavail stat * f_frsize stat in
     if 0 <? total
     then ret (round1 (inject_Z (total - free) / inject_Z total * 100))
     else ret 50%Q)
    (fun _ => ret 50%Q).

(** The body of the third [try]. *)
Definition failsafe_tier (w : World) : M HostStats :=
  extern "import os" (w_import w "os") ;;
  extern "import platform" (w_import w "platform") ;;
  let cpu_usage := 25%Q in
  memory_usage <- failsafe_memory_usage w ;;
  disk_usage <- failsafe_disk_usage w ;;
  ret {| hs_cpuUsage := cpu_usage;
         hs_memoryUsage := memory_usage;
         hs_diskUsage := disk_usage;
         hs_uptime := 1;
         hs_networkInterfaces :=
           [ {| if_name := "eth0"; if_ip := "127.0.0.1";
                if_netmask := Some "255.0.0.0" |} ];
         hs_source := "failsafe" |}.

Definition minimal_stats : HostStats :=
  {| hs_cpuUsage := 0; hs_memoryUsage := 0; hs_diskUsage := 0; hs_uptime := 0;
     hs_networkInterfaces := []; hs_source := "minimal" |}.

(** The handler, for any method standing behind
    [monitor.get_system_stats]. *)
Definition get_host_stats_via (collector : M SystemStats) (w : World)
  : M HostStats :=
  try_except (primary_tier collector)
    (fun e =>
       print ("Primary monitoring failed: " +:+ exn_str e
              +:+ ", trying backup system") ;;
       try_except (backup_tier w)
         (fun backup_error =>
            print ("Backup monitoring also failed: "
                   +:+ exn_str backup_error) ;;
            try_except (failsafe_tier w)
              (fun final_error =>
                 print ("Final failsafe also failed: "
                        +:+ exn_str final_error) ;;
                 ret minimal_stats))).

(** The handler of the program as it is. *)
Definition get_host_stats (w : World) : M HostStats :=
  get_host_stats_via (get_system_stats w) w.



(** The state a run leaves. *)
Definition state_after {A} (m : M A) (s : State) : State := snd (m s).

(** ** Sample worlds

    Concrete worlds for the examples. Their interpreter reads plain
    decimal literals, on which it agrees with [int()] and [float()]; the
    formats of printed numbers and timestamps bear on no result and are
    kept trivial. *)

Module Sample.

Fixpoint digits_to_Z (s : string) (acc : Z) : option Z :=
  match s with
  | EmptyString => Some acc
  | String c s' =>
      if PyStr.isdigit c
      then digits_to_Z s' (acc * 10 + (Z.of_N (N_of_ascii c) - 48))
      else None
  end.

Definition unsigned_int (s : string) : option Z :=
  if String.eqb s EmptyString then None else digits_to_Z s 0.

(** [int(s)] for an optional sign and decimal digits, with surrounding
    whitespace. *)
Definition dec_int (s : string) : option Z :=
  match PyStr.strip s with
  | String "-" r => Z.opp <$> unsigned_int r
  | String "+" r => unsigned_int r
  | t => unsigned_int t
  end.

Definition digits_or_zero (s : string) : option Z :=
  if String.eqb s EmptyString then Some 0 else digits_to_Z s 0.

Definition unsigned_float (s : string) : option Q :=
  match PyStr.split "." s with
  | [i] => inject_Z <$> unsigned_int i
  | [i; f] =>
      if String.eqb i EmptyString && String.eqb f EmptyString then None
      else
        match digits_or_zero i, digits_or_zero f with
        | Some a, Some b =>
            let scale := 10 ^ Z.of_nat (String.length f) in
            Some (Qred (Qmake (a * scale + b) (Z.to_pos scale)))
        | _, _ => None
        end
  | _ => None
  end.

(** [float(s)] for an optional sign, digits and an optional fraction,
    with surrounding whitespace. *)
Definition dec_float (s : string) : option Q :=
  match PyStr.strip s with
  | String "-" r => Qopp <$> unsigned_float r
  | String "+" r => unsigned_float r
  | t => unsigned_float t
  end.

(** The one-character string of a double quote. *)
Definition quote : string := String "034"%char EmptyString.

(** [json.dumps] on the values the examples store. *)
Definition dumps (j : json) : string :=
  match j with
  | JNull => "null"
  | JBool true => "true"
  | JBool false => "false"
  | JStr s => quote +:+ s +:+ quote
  | JArr [] => "[]"
  | JObj [] => "{}"
  | _ => "..."
  end.

Definition interp : Interp :=
  {| in_int := dec_int; in_float := dec_float; in_json_dumps := dumps;
     in_isoformat := fun t => pretty (Qfloor t);
     in_str_num := fun x => pretty (Qfloor x);
     in_sql_numeric := dec_int |}.

(** Clocks that advance by a quarter of a second and by one second a
    reading. *)
Definition clocks : Clocks :=
  {| ck_time := fun n => (Z.of_nat n # 4)%Q;
     ck_sql_now := fun n => 1000 + Z.of_nat n |}.

Definition not_found {A} : result A :=
  Raise (Exn "FileNotFoundError" "No such file or directory").

Definition os_error {A} : result A :=
  Raise (Exn "OSError" "Network is unreachable").

Definition runtime_error {A} : result A :=
  Raise (Exn "RuntimeError" "forced failure").

(** A Linux host on which no command and no file is found. *)
Definition bare_os : Os :=
  {| os_platform_system := "Linux";
     os_subprocess_run := fun _ => not_found;
     os_open := fun _ => not_found;
     os_path_exists := fun _ => false;
     os_statvfs := fun _ => not_found;
     os_import := fun _ => Ok tt;
     os_sqlite_connect := fun _ => Ok tt;
     os_write_json := fun _ => Ok tt |}.

(** A network on which nothing answers. *)
Definition dead_sockets : Sockets :=
  {| sk_tcp_connect_ex := fun _ _ => os_error;
     sk_raw_icmp_send := fun _ =>
       Raise (Exn "PermissionError" "Operation not permitted");
     sk_gethostbyname := fun _ =>
       Raise (Exn "gaierror" "Name or service not known");
     sk_http_exchange := fun _ =>
       Raise (Exn "URLError" "Name or service not known") |}.

Definition no_psutil : Psutil :=
  {| ps_cpu_percent := runtime_error;
     ps_virtual_memory_percent := runtime_error;
     ps_disk_usage_percent := fun _ => runtime_error;
     ps_net_if_addrs := runtime_error;
     ps_boot_time := runtime_error |}.

(** A host whose ping utility exits with [code] and prints [out]; no
    other command is found. *)
Definition ping_os (code : Z) (out : string) : Os :=
  {| os_platform_system := "Linux";
     os_subprocess_run := fun argv =>
       match argv with
       | "ping" :: _ => Ok {| returncode := code; stdout := out |}
       | _ => not_found
       end;
     os_open := fun _ => not_found;
     os_path_exists := fun _ => false;
     os_statvfs := fun _ => not_found;
     os_import := fun _ => Ok tt;
     os_sqlite_connect := fun _ => Ok tt;
     os_write_json := fun _ => Ok tt |}.

(** A network on which every host accepts connections on port 80. *)
Definition open_port_sockets : Sockets :=
  {| sk_tcp_connect_ex := fun _ _ => Ok 0;
     sk_raw_icmp_send := sk_raw_icmp_send dead_sockets;
     sk_gethostbyname := sk_gethostbyname dead_sockets;
     sk_http_exchange := sk_http_exchange dead_sockets |}.


(** Two lines of ping output: the first carries no number after
    ['time='], the second does. *)
Definition two_time_lines : string :=
  "reply from 10.0.0.9: time=n/a" +:+ PyStr.nl +:+
  "reply from 10.0.0.9: time=12.5 ms" +:+ PyStr.nl.

(** A host on which the ping utility gets an answer from the hosts 1
    and 254 of [subnet] and from no other. *)
Definition gateways_os (subnet : string) : Os :=
  {| os_platform_system := "Linux";
     os_subprocess_run := fun argv =>
       match argv with
       | ["ping"; "-c"; "1"; target] =>
           if String.eqb target (subnet +:+ ".1")
              || String.eqb target (subnet +:+ ".254")
           then Ok {| returncode := 0; stdout := "" |}
           else Ok {| returncode := 1; stdout := "" |}
       | _ => not_found
       end;
     os_open := fun _ => not_found;
     os_path_exists := fun _ => false;
     os_statvfs := fun _ => not_found;
     os_import := fun _ => Ok tt;
     os_sqlite_connect := fun _ => Ok tt;
     os_write_json := fun _ => Ok tt |}.

(** A host with the loopback interface and one Ethernet interface. *)
Definition one_interface (address : string) : Psutil :=
  {| ps_cpu_percent := runtime_error;
     ps_virtual_memory_percent := runtime_error;
     ps_disk_usage_percent := fun _ => runtime_error;
     ps_net_if_addrs :=
       Ok [ ("lo", [ {| addr_family := AF_INET;
                        addr_address := "127.0.0.1";
                        addr_netmask := Some "255.0.0.0" |} ]);
            ("eth0", [ {| addr_family := AF_OTHER;
                          addr_address := "52:54:00:12:34:56";
                          addr_netmask := None |};
                       {| addr_family := AF_INET;
                          addr_address := address;
                          addr_netmask := Some "255.255.255.0" |} ]) ];
     ps_boot_time := runtime_error |}.

(** A Linux host with the given totals in [/proc/meminfo], a line of
    CPU times in [/proc/stat] and a root file system a quarter free. *)
Definition meminfo_os (total available : Z) : Os :=
  {| os_platform_system := "Linux";
     os_subprocess_run := fun _ => not_found;
     os_open := fun path =>
       if String.eqb path "/proc/meminfo"
       then Ok [ "MemTotal:       " +:+ pretty total +:+ " kB" +:+ PyStr.nl;
                 "MemAvailable:   " +:+ pretty available +:+ " kB"
                 +:+ PyStr.nl ]
       else if String.eqb path "/proc/stat"
       then Ok [ "cpu  100 0 50 800 10 0 5 0 0 0" +:+ PyStr.nl ]
       else not_found;
     os_path_exists := fun path => String.eqb path "/proc/meminfo";
     os_statvfs := fun _ =>
       Ok {| f_blocks := 1000; f_frsize := 4096; f_bavail := 250 |};
     os_import := fun _ => Ok tt;
     os_sqlite_connect := fun _ => Ok tt;
     os_write_json := fun _ => Ok tt |}.

(** psutil at work. *)
Definition healthy_psutil : Psutil :=
  {| ps_cpu_percent := Ok (125 # 10)%Q;
     ps_virtual_memory_percent := Ok (4375 # 100)%Q;
     ps_disk_usage_percent := fun _ => Ok (75 # 1)%Q;
     ps_net_if_addrs := ps_net_if_addrs (one_interface "10.0.0.7");
     ps_boot_time := Ok (-7200 # 1)%Q |}.

(** A method put in the place of [monitor.get_system_stats] that
    raises. *)
Definition failing_collector : M SystemStats :=
  raise (Exn "RuntimeError" "forced failure").

(** A host on which the named modules cannot be imported. *)
Definition without_modules (missing : list string) : Os :=
  {| os_platform_system := "Linux";
     os_subprocess_run := fun _ => not_found;
     os_open := fun _ => not_found;
     os_path_exists := fun _ => false;
     os_statvfs := fun _ => not_found;
     os_import := fun name =>
       if existsb (String.eqb name) missing
       then Raise (Exn "ImportError" ("No module named " +:+ name))
       else Ok tt;
     os_sqlite_connect := fun _ => Ok tt;
     os_write_json := fun _ => Ok tt |}.

(** A Linux host whose [ip addr show] lists the loopback interface and
    one Ethernet interface with an address; nothing else is found. *)
Definition ip_addr_os : Os :=
  {| os_platform_system := "Linux";
     os_subprocess_run := fun argv =>
       match argv with
       | ["ip"; "addr"; "show"] =>
           Ok {| returncode := 0;
                 stdout :=
                   String.concat PyStr.nl
                     [ "1: lo: <LOOPBACK,UP,LOWER_UP> mtu 65536";
                       "    inet 127.0.0.1/8 scope host lo";
                       "2: eth0: <BROADCAST,MULTICAST,UP> mtu 1500";
                       "    inet 192.168.1.20/24 brd 192.168.1.255 scope global eth0";
                       "" ] |}
       | _ => not_found
       end;
     os_open := fun _ => not_found;
     os_path_exists := fun _ => false;
     os_statvfs := fun _ => not_found;
     os_import := fun _ => Ok tt;
     os_sqlite_connect := fun _ => Ok tt;
     os_write_json := fun _ => Ok tt |}.

(** A network on which names resolve and nothing else gets through. *)
Definition dns_only_sockets : Sockets :=
  {| sk_tcp_connect_ex := sk_tcp_connect_ex dead_sockets;
     sk_raw_icmp_send := sk_raw_icmp_send dead_sockets;
     sk_gethostbyname := fun _ => Ok "203.0.113.7";
     sk_http_exchange := sk_http_exchange dead_sockets |}.

Definition world (o : Os) (k : Sockets) (p : Psutil) : World :=
  {| w_interp := interp; w_clocks := clocks; w_os := o; w_sockets := k;
     w_psutil := p |}.

End Sample.

(** ** Notions used in the statements *)

(** The run of a computation: its result and the state it leaves. *)
Definition result_of {A} (m : M A) (s : State) : result A := fst (m s).

(** Two states with the same tables and the same SQL clock. *)
Definition same_store (s s' : State) : Prop :=
  st_devices s' = st_devices s /\ st_devices_seq s' = st_devices_seq s /\
  st_nodes s' = st_nodes s /\ st_nodes_seq s' = st_nodes_seq s /\
  st_sql_reads s' = st_sql_reads s.

(** What the world holds for each strategy of the prober. *)
Definition ping_argv (w : World) (target : string) (count : Z) : list string :=
  PyStr.split_ws (ping_command w target count).

Definition ping_run (w : World) (target : string) (count : Z)
  : result Completed :=
  w_subprocess_run w (ping_argv w target count).

(** The ping utility ran and exited with a code other than zero. *)
Definition ping_exits_nonzero (w : World) (target : string) (count : Z)
  : bool :=
  match ping_run w target count with
  | Ok p => negb (returncode p =? 0)
  | Raise _ => false
  end.

(** The ping utility could not be run to its end: not found, timed out. *)
Definition ping_raises (w : World) (target : string) (count : Z) : bool :=
  match ping_run w target count with
  | Ok _ => false
  | Raise _ => true
  end.


Definition raw_fails (w : World) (target : string) : bool :=
  match w_raw_icmp_send w target with
  | Ok _ => false
  | Raise _ => true
  end.

(** Method 2 falls through: the connect raised, or it was refused and the
    raw socket raised. *)
Definition socket_methods_fail (w : World) (target : string) : bool :=
  match w_tcp_connect_ex w target 80 with
  | Ok r => negb (r =? 0) && raw_fails w target
  | Raise _ => true
  end.

Definition dns_fails (w : World) (target : string) : bool :=
  match w_gethostbyname w target with
  | Ok _ => false
  | Raise _ => true
  end.

Definition is_2xx (status : Z) : bool := (200 <=? status) && (status <? 300).

(** The HTTP request raised: no response, or a response that [urlopen]
    turns into an [HTTPError]. *)
Definition http_fails (w : World) (target : string) : bool :=
  match w_http_exchange w ("http://" +:+ target) with
  | Ok status => negb (is_2xx status)
  | Raise _ => true
  end.

(** The probe answers [(False, None)]. *)
Definition probe_fails (w : World) (target : string) (count : Z) : bool :=
  ping_exits_nonzero w target count
  || (ping_raises w target count && socket_methods_fail w target
      && dns_fails w target && http_fails w target).

(** The latency measured between the n-th and the next reading of
    [time.time()]: [round((t - start_time) * 1000, 1)]. *)
Definition elapsed_ms (w : World) (n : nat) : Q :=
  round1 ((w_time w (S n) - w_time w n) * 1000).

(** The latency read off the output of a successful ping: the text between
    the first ['time='] of a line and the next ['ms'], for the first line
    where that text is a number. *)
Definition time_field (line : string) : option string :=
  match nth_error (PyStr.split "time=" line) 1 with
  | Some a => nth_error (PyStr.split "ms" a) 0
  | None => None
  end.

Definition line_latency (w : World) (line : string) : option Q :=
  if PyStr.contains "time=" line
  then
    match time_field line with
    | Some text => py_float w text
    | None => None
    end
  else None.

Fixpoint first_latency (w : World) (lines : list string) : option Q :=
  match lines with
  | [] => None
  | line :: rest =>
      match line_latency w line with
      | Some x => Some x
      | None => first_latency w rest
      end
  end.

Definition output_latency (w : World) (output : string) : option Q :=
  if PyStr.contains "time=" output
  then first_latency w (PyStr.split PyStr.nl output)
  else None.




Definition logged (line : string) (s : State) : State :=
  set_log (st_log s ++ [Printed line]) s.

(** The state once a call that leaves the program has been logged. *)
Definition called (name : string) (s : State) : State :=
  set_log (st_log s ++ [Called name]) s.


(** The first psutil call of the primary collector that raises. *)
Definition first_psutil_error (w : World) : option exn :=
  match w_cpu_percent w with
  | Raise e => Some e
  | Ok _ =>
      match w_virtual_memory_percent w with
      | Raise e => Some e
      | Ok _ =>
          match w_disk_usage_percent w "/" with
          | Raise e => Some e
          | Ok _ =>
              match w_net_if_addrs w with
              | Raise e => Some e
              | Ok _ =>
                  match w_boot_time w with
                  | Raise e => Some e
                  | Ok _ => None
                  end
              end
          end
      end
  end.

(** The calls with which the backup tier starts. *)
Definition backup_call (ev : event) : Prop :=
  ev = Called "import backup_monitor" \/ ev = Called "sqlite3.connect".





(** Unique [ip_address], and ids no larger than the AUTOINCREMENT counter. *)
Definition unique_ips (rows : list Device) : Prop :=
  NoDup (map dev_ip rows).

(** The rows of a given address. *)
Definition rows_of_ip (ip : string) (rows : list Device) : list Device :=
  List.filter (has_ip ip) rows.

(** A row is the sample row it was seeded as: name, address, MAC address
    and type are those of the sample. *)
Definition is_sample
    (smp : string * string * string * string * string * Q) (d : Device)
  : Prop :=
  let '(name, ip, mac, type, _, _) := smp in
  dev_name d = name /\ dev_ip d = ip /\ dev_mac d = Some mac /\
  dev_type d = Some type.

(** The states of the device store the program passes through once it has
    started: the constructor of [NetworkMonitor] initialises the database
    before anything else, later starts initialise it again, and in between
    rows change through the sweep and its upsert. *)
Inductive started : State -> Prop :=
| started_first w :
    started (state_after (init_database w) fresh_state)
| started_again w s :
    started s -> started (state_after (init_database w) s)
| started_upsert w ip latency s :
    started s -> started (state_after (update_or_add_device w ip latency) s)
| started_sweep w s :
    started s -> started (state_after (discover_network_devices w) s)
| started_heartbeat w node data s :
    started s -> started (state_after (raspberry_pi_heartbeat w node data) s).

(** No ['.'] in a string: the last component of a dotted address. *)
Fixpoint no_dot (s : string) : bool :=
  match s with
  | EmptyString => true
  | String c s' => negb (Ascii.eqb c ".") && no_dot s'
  end.

(** The row that [update_or_add_device] inserts for an address it does
    not know. *)
Definition last_component (ip : string) : string :=
  List.last (PyStr.split "." ip) EmptyString.

Definition is_gateway (ip : string) : bool :=
  PyStr.endswith ".1" ip || PyStr.endswith ".254" ip.

Definition new_device (id : Z) (ip : string) (latency : option Q) (now : Z)
  : Device :=
  {| dev_id := id;
     dev_name := (if is_gateway ip then "Gateway " else "Device ")
                 +:+ last_component ip;
     dev_ip := ip;
     dev_mac := None;
     dev_type := Some (if is_gateway ip then "Router" else "Network Device");
     dev_status := "online";
     dev_last_seen := now;
     dev_latency := latency;
     dev_created_at := now |}.

(** The [devices] table after an upsert of [ip] at time [now]. *)
Definition upserted (ip : string) (latency : option Q) (now : Z)
    (rows : list Device) (seq : Z) : list Device * Z :=
  if existsb (has_ip ip) rows
  then (map (fun d => if has_ip ip d then mark_online latency now d else d)
          rows, seq)
  else ((rows ++ [new_device (seq + 1) ip latency now])%list, seq + 1).

(** The answer of the heartbeat endpoint. *)
Definition heartbeat_received : Answer :=
  {| ans_status := 200; ans_success := true;
     ans_text := "Heartbeat received" |}.

(** The text stored with a heartbeat: [json.dumps(data.get('systemStats', {}))]. *)
Definition heartbeat_stats (w : World) (data : gmap string json) : string :=
  py_json_dumps w (dict_get "systemStats" (JObj []) data).

(** A state of the store with one registered node, of id 1. *)
Definition one_node_state : State :=
  {| st_devices := []; st_devices_seq := 0;
     st_nodes := [ {| node_id := 1; node_name := "pi-a";
                      node_ip := "10.0.0.50"; node_location := Some "";
                      node_is_online := false; node_last_heartbeat := None;
                      node_system_stats := None; node_created_at := 900 |} ];
     st_nodes_seq := 1;
     st_time_reads := 0; st_sql_reads := 0; st_log := [] |}.

(** A property of the [devices] table that a computation keeps. *)
Definition keeps (P : list Device -> Prop) {A} (m : M A) : Prop :=
  forall s, P (st_devices s) -> P (st_devices (snd (m s))).

(** The table holds unique addresses and, for each sample, a row that is
    that sample. *)
Definition seeded (rows : list Device) : Prop :=
  unique_ips rows /\
  forall smp, In smp sample_devices -> exists d, In d rows /\ is_sample smp d.

(** The address of a sample. *)
Definition sample_ip (smp : string * string * string * string * string * Q)
  : string :=
  let '(_, ip, _, _, _, _) := smp in ip.

(** The row an [INSERT OR IGNORE] of a sample adds. *)
Definition sample_row (id : Z) (now : Z)
    (smp : string * string * string * string * string * Q) : Device :=
  let '(name, ip, mac, type, status, latency) := smp in
  {| dev_id := id; dev_name := name; dev_ip := ip; dev_mac := Some mac;
     dev_type := Some type; dev_status := status; dev_last_seen := now;
     dev_latency := Some latency; dev_created_at := now |}.

(** The subnets the sweep derives from the interfaces of the host; the
    loops that compute them never touch the state. *)
Definition local_nets_of (ifs : list (string * list Addr))
  : result (list string) :=
  result_of (nets_of_interfaces ifs) fresh_state.

(** The name and the type the upsert gives to a new address with the last
    component [suffix]. *)
Definition name_for_suffix (suffix : string) : string :=
  (if String.eqb "1" suffix || String.eqb "254" suffix
   then "Gateway " else "Device ") +:+ suffix.

Definition type_for_suffix (suffix : string) : string :=
  if String.eqb "1" suffix || String.eqb "254" suffix
  then "Router" else "Network Device".

(** Whatever a computation returns, when it returns, satisfies [P]. *)
Definition yields {A} (P : A -> Prop) (m : M A) : Prop :=
  forall s a s', m s = (Ok a, s') -> P a.




(** ** The ad-hoc ping tool: [POST /api/network-tools/ping] *)




(** The subnets of a sweep, or the exception that ends it before any
    probe: [psutil.net_if_addrs()] raising, or an address with fewer than
    three components. *)
Definition sweep_nets (w : World) : result (list string) :=
  match w_net_if_addrs w with
  | Ok ifs => local_nets_of ifs
  | Raise e => Raise e
  end.

(** ** Registering and removing Raspberry Pi nodes *)

(** The body of a registration, for a JSON object whose [name],
    [ipAddress] and [location], when present, are strings. *)
Record NodeRequest := {
  nr_name : option string;
  nr_ip_address : option string;
  nr_location : option string
}.

Definition has_node_ip (ip : string) (n : PiNode) : bool :=
  String.eqb (node_ip n) ip.

(** The row that [INSERT INTO raspberry_pi_nodes (name, ip_address,
    location)] adds: [is_online] defaults to 0, [created_at] to
    [CURRENT_TIMESTAMP], the other columns to NULL. *)
Definition new_node (id : Z) (name ip location : string) (now : Z) : PiNode :=
  {| node_id := id; node_name := name; node_ip := ip;
     node_location := Some location; node_is_online := false;
     node_last_heartbeat := None; node_system_stats := None;
     node_created_at := now |}.

(** [INSERT INTO raspberry_pi_nodes (name, ip_address, location)
    VALUES (?, ?, ?)], where [ip_address] is UNIQUE. *)
Definition insert_node (w : World) (name ip location : string) : M unit :=
  now <- current_timestamp w ;;
  rows <- get_nodes ;;
  seq <- get_nodes_seq ;;
  if existsb (has_node_ip ip) rows
  then raise (Exn "IntegrityError"
                "UNIQUE constraint failed: raspberry_pi_nodes.ip_address")
  else put_nodes (rows ++ [new_node (seq + 1) name ip location now]) (seq + 1).

(** [POST /api/raspberry-pi] *)
Definition raspberry_pi_nodes_post (w : World) (data : NodeRequest)
  : M Answer :=
  let name := default EmptyString (nr_name data) in
  let ip_address := default EmptyString (nr_ip_address data) in
  let location := default EmptyString (nr_location data) in
  if String.eqb name EmptyString || String.eqb ip_address EmptyString
  then ret {| ans_status := 400; ans_success := false;
              ans_text := "Name and IP address are required" |}
  else
    try_except
      (insert_node w name ip_address location ;;
       ret {| ans_status := 200; ans_success := true;
              ans_text := "Node registered successfully" |})
      (fun e =>
         if String.eqb (exn_class e) "IntegrityError"
         then ret {| ans_status := 400; ans_success := false;
                     ans_text := "Node with this IP address already exists" |}
         else raise e).

(** [DELETE /api/raspberry-pi/<node_id>] *)
Definition remove_raspberry_pi_node (w : World) (node_id : string)
  : M Answer :=
  rows <- get_nodes ;;
  seq <- get_nodes_seq ;;
  put_nodes (List.filter (fun n => negb (id_matches w node_id n)) rows) seq ;;
  ret {| ans_status := 200; ans_success := true;
         ans_text := "Node removed successfully" |}.

(** The three answers of a registration. *)
Definition node_fields_required : Answer :=
  {| ans_status := 400; ans_success := false;
     ans_text := "Name and IP address are required" |}.

Definition node_registered : Answer :=
  {| ans_status := 200; ans_success := true;
     ans_text := "Node registered successfully" |}.

Definition node_exists : Answer :=
  {| ans_status := 400; ans_success := false;
     ans_text := "Node with this IP address already exists" |}.

(** The states that the three node endpoints lead to from [s]. *)
Inductive node_requests (s : State) : State -> Prop :=
| requests_none : node_requests s s
| requests_register w data s1 :
    node_requests s s1 ->
    node_requests s (state_after (raspberry_pi_nodes_post w data) s1)
| requests_remove w node s1 :
    node_requests s s1 ->
    node_requests s (state_after (remove_raspberry_pi_node w node) s1)
| requests_heartbeat w node data s1 :
    node_requests s s1 ->
    node_requests s (state_after (raspberry_pi_heartbeat w node data) s1).

(** [n'] is the node that [n] was registered as. *)
Definition same_node (n n' : PiNode) : Prop :=
  node_id n' = node_id n /\ node_name n' = node_name n /\
  node_ip n' = node_ip n /\ node_location n' = node_location n /\
  node_created_at n' = node_created_at n.

(** The invariant of the table of nodes and its AUTOINCREMENT counter. *)
Definition nodes_ok (rows : list PiNode) (seq : Z) : Prop :=
  NoDup (map node_ip rows) /\ NoDup (map node_id rows) /\
  Forall (fun n => 0 < node_id n <= seq) rows /\ 0 <= seq.

(** ** The dashboard overview: [GET /api/dashboard/overview] *)

(** A row of the [alerts] table. No function of the program writes this
    table, so it is not part of [State]: the handlers that read it take
    its rows as an argument. *)
Record Alert := {
  al_id : Z;
  al_device_id : option Z;
  al_severity : string;
  al_type : string;
  al_message : string;
  al_is_resolved : bool;
  al_created_at : Z;
  al_resolved_at : option Z
}.

Record Overview := {
  ov_totalDevices : Z;
  ov_onlineDevices : Z;
  ov_offlineDevices : Z;
  ov_activeAlerts : Z;
  ov_avgLatency : Q
}.

(** [SELECT COUNT( * ) FROM devices WHERE status = ?] *)
Definition count_status (status : string) (rows : list Device) : Z :=
  Z.of_nat (length (List.filter (fun d => String.eqb (dev_status d) status)
                      rows)).

(** The values over which
    [SELECT AVG(latency) ... WHERE latency IS NOT NULL AND status = "online"]
    takes its mean. *)
Definition online_latencies (rows : list Device) : list Q :=
  flat_map (fun d =>
              match dev_latency d with
              | Some l => if String.eqb (dev_status d) "online" then [l] else []
              | None => []
              end) rows.

(** [AVG] is NULL over no row. *)
Definition sql_avg (l : list Q) : option Q :=
  match l with
  | [] => None
  | _ => Some (fold_right Qplus 0%Q l / inject_Z (Z.of_nat (length l)))%Q
  end.

Definition dashboard_overview (alerts : list Alert) : M Overview :=
  rows <- get_devices ;;
  let total_devices := Z.of_nat (length rows) in
  let online_devices := count_status "online" rows in
  let offline_devices := count_status "offline" rows in
  let active_alerts :=
    Z.of_nat (length (List.filter (fun a => negb (al_is_resolved a)) alerts)) in
  let avg_latency := default 0%Q (sql_avg (online_latencies rows)) in
  ret {| ov_totalDevices := total_devices;
         ov_onlineDevices := online_devices;
         ov_offlineDevices := offline_devices;
         ov_activeAlerts := active_alerts;
         ov_avgLatency := round1 avg_latency |}.

(** ** The alerts: [GET /api/alerts] *)

(** An entry of the listing: the alert with the name of its device. *)
Record AlertView := {
  av_id : Z;
  av_deviceId : option Z;
  av_deviceName : option string;
  av_severity : string;
  av_type : string;
  av_message : string;
  av_isResolved : bool;
  av_createdAt : Z;
  av_resolvedAt : option Z
}.

Definition alert_view (a : Alert) (name : option string) : AlertView :=
  {| av_id := al_id a; av_deviceId := al_device_id a; av_deviceName := name;
     av_severity := al_severity a; av_type := al_type a;
     av_message := al_message a; av_isResolved := al_is_resolved a;
     av_createdAt := al_created_at a; av_resolvedAt := al_resolved_at a |}.

(** [alerts a LEFT JOIN devices d ON a.device_id = d.id], for one alert:
    a row for each device of that id, and one row without device where
    there is none. *)
Definition join_device (rows : list Device) (a : Alert) : list AlertView :=
  let matches :=
    List.filter (fun d => match al_device_id a with
                          | Some i => dev_id d =? i
                          | None => false
                          end) rows in
  match matches with
  | [] => [alert_view a None]
  | _ => map (fun d => alert_view a (Some (dev_name d))) matches
  end.

(** [ORDER BY a.created_at DESC], rows of equal time in the order of the
    join. *)
Fixpoint insert_by_time (v : AlertView) (l : list AlertView)
  : list AlertView :=
  match l with
  | [] => [v]
  | x :: rest =>
      if av_createdAt x <=? av_createdAt v
      then v :: x :: rest
      else x :: insert_by_time v rest
  end.

Definition order_by_time_desc (l : list AlertView) : list AlertView :=
  fold_right insert_by_time [] l.

(** The [WHERE] clause that the query parameter [resolved] selects. *)
Definition alert_selected (resolved : option string) (a : Alert) : bool :=
  match resolved with
  | Some r =>
      if String.eqb r "true" then al_is_resolved a
      else if String.eqb r "false" then negb (al_is_resolved a)
      else true
  | None => true
  end.

Definition get_alerts (alerts : list Alert) (resolved : option string)
  : M (list AlertView) :=
  rows <- get_devices ;;
  ret (order_by_time_desc
         (flat_map (join_device rows)
            (List.filter (alert_selected resolved) alerts))).

(** Newest first. *)
Definition newer_first (a b : AlertView) : Prop :=
  av_createdAt b <= av_createdAt a.

(** No row of the table has the status offline. *)
Definition none_offline (rows : list Device) : Prop :=
  Forall (fun d => dev_status d <> "offline") rows.

(** ** The routes of the application *)

Inductive Method := GET | HEAD | POST | PUT | PATCH | DELETE | OPTIONS.

Definition method_eqb (a b : Method) : bool :=
  match a, b with
  | GET, GET | HEAD, HEAD | POST, POST | PUT, PUT | PATCH, PATCH
  | DELETE, DELETE | OPTIONS, OPTIONS => true
  | _, _ => false
  end.

(** The view functions, and the static files that Flask serves itself. *)
Inductive Endpoint :=
| E_dashboard
| E_raspberry_pi_setup
| E_raspberry_pi_nodes
| E_remove_raspberry_pi_node
| E_raspberry_pi_heartbeat
| E_dashboard_overview
| E_get_network_devices
| E_get_host_stats
| E_get_network_stats
| E_get_alerts
| E_ping_tool
| E_install_script
| E_monitor_script
| E_static.

(** The [@app.route] decorators in the order of the file, each with its
    [methods] (GET where none are given), after the static route that
    [Flask(__name__)] adds. *)
Definition url_map : list (string * list Method * Endpoint) :=
  [ ("/static/<path:filename>", [GET], E_static);
    ("/", [GET], E_dashboard);
    ("/raspberry-pi", [GET], E_raspberry_pi_setup);
    ("/api/raspberry-pi", [GET; POST], E_raspberry_pi_nodes);
    ("/api/raspberry-pi/<node_id>", [DELETE], E_remove_raspberry_pi_node);
    ("/api/raspberry-pi/<node_id>/heartbeat", [POST], E_raspberry_pi_heartbeat);
    ("/api/dashboard/overview", [GET], E_dashboard_overview);
    ("/api/network-devices", [GET], E_get_network_devices);
    ("/api/host/stats", [GET], E_get_host_stats);
    ("/api/network-stats", [GET], E_get_network_stats);
    ("/api/alerts", [GET], E_get_alerts);
    ("/api/network-tools/ping", [POST], E_ping_tool);
    ("/install.sh", [GET], E_install_script);
    ("/monitor.py", [GET], E_monitor_script) ].

(** A rule matched against a path, both cut at their slashes: a part
    [<name>] takes one segment that is not empty, a part [<path:name>]
    takes all the segments that are left, the first of them not empty,
    and any other part takes the segment equal to it. The result is the
    arguments of the view. *)
Fixpoint match_rule (rule path : list string) : option (list string) :=
  match rule, path with
  | [], [] => Some []
  | part :: rule', seg :: path' =>
      if PyStr.startswith "<path:" part
      then
        if String.eqb seg EmptyString then None
        else Some [String.concat "/" path]
      else if PyStr.startswith "<" part
      then
        if String.eqb seg EmptyString then None
        else cons seg <$> match_rule rule' path'
      else
        if String.eqb part seg then match_rule rule' path' else None
  | _, _ => None
  end.

(** The methods a rule answers: those given, HEAD where GET is given, and
    OPTIONS, which Flask answers itself. *)
Definition allows (methods : list Method) (m : Method) : bool :=
  existsb (method_eqb m) methods
  || (method_eqb m HEAD && existsb (method_eqb GET) methods).

Inductive Routed :=
| Handled (e : Endpoint) (args : list string)
| AutomaticOptions
| NotFound
| MethodNotAllowed.

(** The rules whose pattern matches the path, with the arguments. *)
Definition matching_rules (segments : list string)
  : list (list Method * Endpoint * list string) :=
  flat_map (fun '(rule, methods, e) =>
              match match_rule (PyStr.split "/" rule) segments with
              | Some args => [(methods, e, args)]
              | None => []
              end) url_map.

(** Routing: the first matching rule that answers the method; 405 where
    rules match the path and none of them answers the method; 404 where
    no rule matches the path. *)
Definition route_segments (m : Method) (segments : list string) : Routed :=
  let candidates := matching_rules segments in
  match List.find (fun '(methods, _, _) => allows methods m) candidates with
  | Some (_, e, args) => Handled e args
  | None =>
      match candidates with
      | [] => NotFound
      | _ => if method_eqb m OPTIONS then AutomaticOptions
             else MethodNotAllowed
      end
  end.

Definition dispatch (m : Method) (path : string) : Routed :=
  route_segments m (PyStr.split "/" path).

(** The status of the answers that come from routing alone. *)
Definition routing_status (r : Routed) : option Z :=
  match r with
  | Handled _ _ => None
  | AutomaticOptions => Some 200
  | NotFound => Some 404
  | MethodNotAllowed => Some 405
  end.

(** ** The agent: [raspberry-pi/monitor.py] *)

(** What [requests.post] comes to: a response with its status, a
    [RequestException], or another exception. *)
Inductive PostOutcome :=
| Answered (status : Z)
| RequestFailed (e : exn)
| OtherError (e : exn).

(** The paths appended to [server_url] by the agent. *)
Definition agent_register_path : string := "/api/raspberry-pi".

Definition agent_heartbeat_path : string := "/api/raspberry-pi/heartbeat".

(** [NetMonitorAgent.register_node], as a function of what the POST to
    [agent_register_path] comes to. *)
Definition register_node (post : PostOutcome) : result bool :=
  match post with
  | Answered status => Ok ((status =? 200) || (status =? 201))
  | RequestFailed _ => Ok false
  | OtherError e => Raise e
  end.

(** [NetMonitorAgent.send_heartbeat], as a function of what the POST to
    [agent_heartbeat_path] comes to. *)
Definition send_heartbeat (post : PostOutcome) : result bool :=
  match post with
  | Answered status => Ok (status =? 200)
  | RequestFailed _ => Ok false
  | OtherError e => Raise e
  end.

Definition max_failures : Z := 5.

(** One turn of the [while True] loop of [NetMonitorAgent.run]: the new
    value of [consecutive_failures], and whether [register_node] was
    called. An exception other than [KeyboardInterrupt] is logged and the
    loop goes on with the counter as it was. *)
Definition run_turn (heartbeat : PostOutcome) (consecutive_failures : Z)
  : Z * bool :=
  match send_heartbeat heartbeat with
  | Ok success =>
      let consecutive_failures :=
        if success then 0 else consecutive_failures + 1 in
      if max_failures <=? consecutive_failures
      then (0, true)
      else (consecutive_failures, false)
  | Raise _ => (consecutive_failures, false)
  end.

(** The turns of the loop for the heartbeats in [heartbeats]: the counter
    at the end and the number of calls of [register_node]. *)
Fixpoint run_turns (heartbeats : list PostOutcome) (consecutive_failures : Z)
  : Z * nat :=
  match heartbeats with
  | [] => (consecutive_failures, O)
  | heartbeat :: rest =>
      let '(c, registered) := run_turn heartbeat consecutive_failures in
      let '(c', n) := run_turns rest c in
      (c', if registered then S n else n)
  end.

(** ** The monitoring loop: [NetworkMonitor.monitoring_loop] *)

(** [round(x, 2)] *)
Definition round2 (q : Q) : Q := Qmake (round_half_even (q * 100)) 100.

(** A row of [host_stats] and a row of [network_stats]. *)
Record HostRow := {
  hr_id : Z;
  hr_timestamp : Z;
  hr_cpu_usage : Q;
  hr_memory_usage : Q;
  hr_disk_usage : Q;
  hr_network_interfaces : string;
  hr_uptime : Q
}.

Record NetRow := {
  ns_id : Z;
  ns_device_id : Z;
  ns_timestamp : Z;
  ns_upload_speed : Q;
  ns_download_speed : Q;
  ns_utilization : Q;
  ns_packet_loss : Q;
  ns_latency : Q
}.

(** The database with the two tables that only the monitoring loop
    writes, each with its AUTOINCREMENT counter, and the number of random
    numbers drawn so far. *)
Record Tables := {
  tb_state : State;
  tb_host_stats : list HostRow;
  tb_host_seq : Z;
  tb_network_stats : list NetRow;
  tb_network_seq : Z;
  tb_random_reads : nat
}.

Definition set_state (s : State) (t : Tables) : Tables :=
  {| tb_state := s; tb_host_stats := tb_host_stats t;
     tb_host_seq := tb_host_seq t;
     tb_network_stats := tb_network_stats t;
     tb_network_seq := tb_network_seq t;
     tb_random_reads := tb_random_reads t |}.

(** What is outside the program for the loop: [random.uniform], by the
    number of the draw, and the text of [datetime.now()] in an
    f-string. *)
Record Chance := {
  ch_uniform : nat -> Q -> Q -> Q;
  ch_str_datetime : Q -> string
}.

(** The list of dictionaries of the interfaces, as [json.dumps] gets
    it. *)
Definition interfaces_json (l : list Interface) : json :=
  JArr (map (fun i =>
               JObj [ ("name", JStr (if_name i)); ("ip", JStr (if_ip i));
                      ("netmask", match if_netmask i with
                                  | Some m => JStr m
                                  | None => JNull
                                  end) ]) l).

Definition store_host_stats (w : World) (stats : SystemStats) (t : Tables)
  : Tables :=
  let s := tb_state t in
  {| tb_state := set_sql_reads (S (st_sql_reads s)) s;
     tb_host_stats :=
       tb_host_stats t ++
       [ {| hr_id := tb_host_seq t + 1;
            hr_timestamp := w_sql_now w (st_sql_reads s);
            hr_cpu_usage := ss_cpu_usage stats;
            hr_memory_usage := ss_memory_usage stats;
            hr_disk_usage := ss_disk_usage stats;
            hr_network_interfaces :=
              py_json_dumps w (interfaces_json (ss_interfaces stats));
            hr_uptime := ss_uptime_hours stats |} ];
     tb_host_seq := tb_host_seq t + 1;
     tb_network_stats := tb_network_stats t;
     tb_network_seq := tb_network_seq t;
     tb_random_reads := tb_random_reads t |}.

(** [SELECT id FROM devices WHERE status = "online"] *)
Definition online_ids (rows : list Device) : list Z :=
  map dev_id (List.filter (fun d => String.eqb (dev_status d) "online") rows).

(** The body of the loop over the online devices: five draws, then the
    INSERT. *)
Definition insert_network_stats (w : World) (c : Chance) (device_id : Z)
    (t : Tables) : Tables :=
  let s := tb_state t in
  let i := tb_random_reads t in
  {| tb_state := set_sql_reads (S (st_sql_reads s)) s;
     tb_host_stats := tb_host_stats t;
     tb_host_seq := tb_host_seq t;
     tb_network_stats :=
       tb_network_stats t ++
       [ {| ns_id := tb_network_seq t + 1;
            ns_device_id := device_id;
            ns_timestamp := w_sql_now w (st_sql_reads s);
            ns_upload_speed := round2 (ch_uniform c i 10 100);
            ns_download_speed := round2 (ch_uniform c (i + 1) 50 500);
            ns_utilization := round1 (ch_uniform c (i + 2) 5 85);
            ns_packet_loss := round2 (ch_uniform c (i + 3) 0 2);
            ns_latency := round1 (ch_uniform c (i + 4) 1 50) |} ];
     tb_network_seq := tb_network_seq t + 1;
     tb_random_reads := i + 5 |}.

Definition generate_sample_network_stats (w : World) (c : Chance)
    (t : Tables) : Tables :=
  fold_left (fun t device_id => insert_network_stats w c device_id t)
    (online_ids (st_devices (tb_state t))) t.

(** One turn of the [while self.monitoring_active] loop, up to the
    [time.sleep]. *)
Definition monitoring_cycle (w : World) (c : Chance) (t : Tables) : Tables :=
  match get_system_stats w (tb_state t) with
  | (Ok stats, s1) =>
      let t1 := store_host_stats w stats (set_state s1 t) in
      match discover_network_devices w (tb_state t1) with
      | (Ok _, s2) =>
          let t2 := generate_sample_network_stats w c (set_state s2 t1) in
          let s3 := tb_state t2 in
          let now := w_time w (st_time_reads s3) in
          set_state
            (logged ("Monitoring cycle completed at "
                     +:+ ch_str_datetime c now)
               (set_time_reads (S (st_time_reads s3)) s3))
            t2
      | (Raise e, s2) =>
          set_state (logged ("Monitoring error: " +:+ exn_str e) s2) t1
      end
  | (Raise e, s1) =>
      set_state (logged ("Monitoring error: " +:+ exn_str e) s1) t
  end.

(** [n] turns of the loop. *)
Fixpoint monitoring_loop (w : World) (c : Chance) (n : nat) (t : Tables)
  : Tables :=
  match n with
  | O => t
  | S n' => monitoring_loop w c n' (monitoring_cycle w c t)
  end.

(** [random.uniform(a, b)] lies between its bounds. *)
Definition uniform_in_bounds (c : Chance) : Prop :=
  forall i a b, (a <= b)%Q -> (a <= ch_uniform c i a b <= b)%Q.

(** The ranges of the values that the loop generates. *)
Definition net_row_in_range (r : NetRow) : Prop :=
  (10 <= ns_upload_speed r <= 100)%Q /\
  (50 <= ns_download_speed r <= 500)%Q /\
  (5 <= ns_utilization r <= 85)%Q /\
  (0 <= ns_packet_loss r <= 2)%Q /\
  (1 <= ns_latency r <= 50)%Q.

(** The database before the program has ever run. *)
Definition fresh_tables : Tables :=
  {| tb_state := fresh_state; tb_host_stats := []; tb_host_seq := 0;
     tb_network_stats := []; tb_network_seq := 0; tb_random_reads := 0 |}.

(** The foreign key of [network_stats]: every row refers to a row of
    [devices]. SQLite does not enforce it unless asked to. *)
Definition references_devices (t : Tables) : Prop :=
  Forall (fun r => In (ns_device_id r) (map dev_id (st_devices (tb_state t))))
    (tb_network_stats t).

(** ** The metrics of the agent: [NetMonitorAgent.get_system_metrics] *)








(** ** The agent against the server *)

(** What the agent sends in the course of its run. *)
Inductive AgentRequest := AgentRegister | AgentHeartbeat.

(** The body of the registration: [name] and [ipAddress] (the [status]
    and [version] it also holds are not read by the server), no
    [location]. *)
Definition agent_registration (name ip : string) : NodeRequest :=
  {| nr_name := Some name; nr_ip_address := Some ip; nr_location := None |}.

(** The server serving one request of the agent: the view that the
    routing selects for the POST is run; where the routing selects none,
    nothing is run and the status is that of the routing. The heartbeat
    of the agent has no [systemStats]. The answer is the status, or
    nothing where the routing selects a view other than the two. *)
Definition serve_agent (w : World) (name ip : string) (r : AgentRequest)
  : M (option Z) :=
  match r with
  | AgentRegister =>
      match dispatch POST agent_register_path with
      | Handled E_raspberry_pi_nodes [] =>
          a <- raspberry_pi_nodes_post w (agent_registration name ip) ;;
          ret (Some (ans_status a))
      | other => ret (routing_status other)
      end
  | AgentHeartbeat =>
      match dispatch POST agent_heartbeat_path with
      | Handled E_raspberry_pi_heartbeat [node_id] =>
          a <- raspberry_pi_heartbeat w node_id ∅ ;;
          ret (Some (ans_status a))
      | other => ret (routing_status other)
      end
  end.

(** The requests of a run of the agent, served one after the other; the
    statuses answered. *)
Fixpoint serve_agent_run (w : World) (name ip : string)
    (requests : list AgentRequest) : M (list (option Z)) :=
  match requests with
  | [] => ret []
  | r :: rest =>
      status <- serve_agent w name ip r ;;
      statuses <- serve_agent_run w name ip rest ;;
      ret (status :: statuses)
  end.

(** No node of the table is online. *)
Definition all_offline (rows : list PiNode) : Prop :=
  Forall (fun n => node_is_online n = false) rows.

(** ** Digits in the output of [uptime] *)

Fixpoint no_digit (s : string) : bool :=
  match s with
  | EmptyString => true
  | String c s' => negb (PyStr.isdigit c) && no_digit s'
  end.

Fixpoint all_digits (s : string) : bool :=
  match s with
  | EmptyString => true
  | String c s' => PyStr.isdigit c && all_digits s'
  end.

Definition starts_with_digit (s : string) : bool :=
  match s with
  | EmptyString => false
  | String c _ => PyStr.isdigit c
  end.

(** ** Growth of the [devices] table *)

(** What can become of a row: it stays as it is or it is marked online. *)
Definition evolved (d d' : Device) : Prop :=
  d' = d \/ exists latency now, d' = mark_online latency now d.

(** What can become of the table: every row evolves in its place, and
    rows are added at the end. *)
Definition grown (rows rows' : list Device) : Prop :=
  exists kept added, rows' = kept ++ added /\ Forall2 evolved rows kept.

(** The invariant of the table and its AUTOINCREMENT counter: unique
    addresses, unique ids, and every id positive and at most the
    counter. *)
Definition table_ok (rows : list Device) (seq : Z) : Prop :=
  unique_ips rows /\ NoDup (map dev_id rows) /\
  Forall (fun d => 0 < dev_id d <= seq) rows /\ 0 <= seq.

(** A property of the table and its counter that a computation keeps. *)
Definition keeps_table (P : list Device -> Z -> Prop) {A} (m : M A) : Prop :=
  forall s, P (st_devices s) (st_devices_seq s) ->
            P (st_devices (snd (m s))) (st_devices_seq (snd (m s))).

(** A computation that returns in every state. *)
Definition never_raises {A} (m : M A) : Prop :=
  forall s, exists a s', m s = (Ok a, s').

(** [ORDER BY name], as a relation between neighbours. *)
Definition name_le (a b : Device) : Prop :=
  String.leb (dev_name a) (dev_name b) = true.

(** * Properties *)

(** ** The effect monad *)

Ltac unfold_m :=
  unfold datetime_now_isoformat, index_z, index_last, index, int_, float_,
    truediv, print in *;
  unfold emit, extern, time_time, current_timestamp, get_devices,
    put_devices, get_devices_seq, get_nodes, put_nodes, get_nodes_seq,
    try_except, bind, ret, raise in *.

Lemma same_store_refl s : same_store s s.
Proof. unfold same_store; tauto. Qed.

Lemma same_store_trans s1 s2 s3 :
  same_store s1 s2 -> same_store s2 s3 -> same_store s1 s3.
Proof. unfold same_store; intuition congruence. Qed.

Lemma same_store_logged line s : same_store s (logged line s).
Proof. unfold same_store; cbn; tauto. Qed.

Lemma same_store_called name s : same_store s (called name s).
Proof. unfold same_store; cbn; tauto. Qed.

(** ** The prober *)

Lemma parse_time_field_run w line s :
  parse_time_field w line s =
    (match time_field line with
     | Some text =>
         match py_float w text with
         | Some x => Ok x
         | None => Raise (Exn "ValueError" "could not convert string to float")
         end
     | None => Raise (Exn "IndexError" "list index out of range")
     end, s).
Proof.
  unfold parse_time_field, time_field. unfold_m.
  destruct (nth_error (PyStr.split "time=" line) 1) as [a|]; [|reflexivity].
  destruct (nth_error (PyStr.split "ms" a) 0) as [b|]; [|reflexivity].
  destruct (py_float w b); reflexivity.
Qed.

Lemma scan_time_lines_run w lines s :
  scan_time_lines w lines s = (Ok (first_latency w lines), s).
Proof.
  induction lines as [|line rest IH]; [reflexivity|].
  cbn [scan_time_lines first_latency]. unfold line_latency.
  destruct (PyStr.contains "time=" line); [|exact IH].
  unfold bind at 1. unfold try_except. unfold bind at 1.
  rewrite parse_time_field_run.
  destruct (time_field line) as [text|]; [|exact IH].
  destruct (py_float w text); [reflexivity|exact IH].
Qed.

Lemma ping_method1_run w target count s :
  ping_method1 w target count s =
    match ping_run w target count with
    | Ok p =>
        (Ok (Some (if returncode p =? 0
                   then (true, output_latency w (stdout p))
                   else (false, None))),
         called "subprocess.run" s)
    | Raise e =>
        (Ok None,
         logged ("Standard ping failed for " +:+ target +:+ ": " +:+ exn_str e)
           (called "subprocess.run" s))
    end.
Proof.
  unfold ping_method1, ping_run, ping_argv, output_latency.
  unfold try_except, bind at 1. unfold extern at 1.
  destruct (w_subprocess_run w _) as [p|e]; [|reflexivity].
  destruct (returncode p =? 0); [|reflexivity].
  destruct (PyStr.contains "time=" (stdout p)); [|reflexivity].
  unfold bind. rewrite scan_time_lines_run.
  destruct (first_latency w _); reflexivity.
Qed.

Lemma ping_method2_run w target s :
  exists s',
    same_store s s' /\
    ping_method2 w target s =
      (Ok (if socket_methods_fail w target then None
           else Some (true, Some (elapsed_ms w (st_time_reads s)))), s') /\
    (socket_methods_fail w target = true ->
     st_time_reads s' = S (st_time_reads s)).
Proof.
  unfold ping_method2, socket_methods_fail, raw_fails, elapsed_ms.
  unfold_m. cbn.
  destruct (w_tcp_connect_ex w target 80) as [r|e]; cbn.
  - destruct (r =? 0); cbn.
    + eexists; split; [|split; [reflexivity|discriminate]].
      unfold same_store; cbn; tauto.
    + destruct (w_raw_icmp_send w target); cbn;
        (eexists; split; [|split; [reflexivity|]];
         [unfold same_store; cbn; tauto|]); [discriminate|reflexivity].
  - eexists; split; [|split; [reflexivity|reflexivity]].
    unfold same_store; cbn; tauto.
Qed.

Lemma ping_method3_run w target s :
  exists s',
    same_store s s' /\
    ping_method3 w target s =
      (Ok (if dns_fails w target then None
           else Some (true, Some (elapsed_ms w (st_time_reads s)))), s') /\
    (dns_fails w target = true -> st_time_reads s' = S (st_time_reads s)).
Proof.
  unfold ping_method3, dns_fails, elapsed_ms. unfold_m. cbn.
  destruct (w_gethostbyname w target); cbn;
    (eexists; split; [|split; [reflexivity|]];
     [unfold same_store; cbn; tauto|]); [discriminate|reflexivity].
Qed.

Lemma ping_method4_run w target s :
  exists s',
    same_store s s' /\
    ping_method4 w target s =
      (Ok (if http_fails w target then None
           else Some (true, Some (elapsed_ms w (st_time_reads s)))), s').
Proof.
  unfold ping_method4, urlopen, http_fails, is_2xx, elapsed_ms.
  unfold_m. cbn.
  destruct (w_http_exchange w _) as [status|e]; cbn.
  - destruct ((200 <=? status) && (status <? 300)); cbn;
      (eexists; split; [|reflexivity]; unfold same_store; cbn; tauto).
  - eexists; split; [|reflexivity]. unfold same_store; cbn; tauto.
Qed.

(** What [ping_host] returns, read off the world: the outcome of the ping
    utility when it ran, else the first of the later methods that does
    not fall through. [n] is the number of clock readings so far. *)
Lemma ping_host_run w target count s :
  exists s',
    same_store s s' /\
    ping_host w target count s =
      (Ok (match ping_run w target count with
           | Ok p =>
               if returncode p =? 0
               then (true, output_latency w (stdout p))
               else (false, None)
           | Raise _ =>
               if socket_methods_fail w target
               then
                 if dns_fails w target
                 then
                   if http_fails w target
                   then (false, None)
                   else (true, Some (elapsed_ms w (2 + st_time_reads s)))
                 else (true, Some (elapsed_ms w (1 + st_time_reads s)))
               else (true, Some (elapsed_ms w (st_time_reads s)))
           end), s').
Proof.
  unfold ping_host. unfold bind at 1. rewrite ping_method1_run.
  destruct (ping_run w target count) as [p|e].
  { eexists; split; [|reflexivity]. apply same_store_called. }
  set (s1 := logged _ _).
  assert (H1 : same_store s s1).
  { eapply same_store_trans; [apply same_store_called|apply same_store_logged]. }
  destruct (ping_method2_run w target s1) as (s2 & H2 & E2 & T2).
  unfold bind at 1. rewrite E2.
  change (st_time_reads s1) with (st_time_reads s) in *.
  destruct (socket_methods_fail w target).
  2:{ exists s2; split; [|reflexivity].
      eapply same_store_trans; [exact H1|exact H2]. }
  specialize (T2 eq_refl).
  destruct (ping_method3_run w target s2) as (s3 & H3 & E3 & T3).
  unfold bind at 1. rewrite E3. rewrite T2 in *.
  destruct (dns_fails w target).
  2:{ exists s3; split; [|reflexivity].
      eapply same_store_trans; [|exact H3].
      eapply same_store_trans; [exact H1|exact H2]. }
  specialize (T3 eq_refl).
  destruct (ping_method4_run w target s3) as (s4 & H4 & E4).
  unfold bind at 1. rewrite E4. rewrite T3.
  assert (H : same_store s s4).
  { eapply same_store_trans; [|exact H4].
    eapply same_store_trans; [|exact H3].
    eapply same_store_trans; [exact H1|exact H2]. }
  destruct (http_fails w target); exists s4; (split; [exact H|reflexivity]).
Qed.






(** C7, as the code has it. When the ping utility exits with code zero
    the probe answers success. The latency is read line by line: the
    first line that contains ['time='] and whose text between the first
    ['time='] and the next ['ms'] is a number gives it; a line whose text
    is no number is passed over, and the answer is [(True, None)] only
    when no line gives a number. *)
Theorem ping_exit_zero_is_success (w : World) (target : string) (count : Z)
    (s : State) (p : Completed) :
  ping_run w target count = Ok p ->
  returncode p = 0 ->
  result_of (ping_host w target count) s
    = Ok (true, output_latency w (stdout p)).
Proof.
  intros Hrun Hrc.
  destruct (ping_host_run w target count s) as (s' & _ & E).
  unfold result_of. rewrite E, Hrun, Hrc. reflexivity.
Qed.

Lemma ping_exit_zero_is_success_witness :
  let w := Sample.world (Sample.ping_os 0 Sample.two_time_lines)
             Sample.dead_sockets Sample.no_psutil in
  result_of (ping_host w "10.0.0.9" 1) fresh_state
    = Ok (true, output_latency w Sample.two_time_lines).
Proof.
  intro w.
  apply (ping_exit_zero_is_success w "10.0.0.9" 1 fresh_state
           {| returncode := 0; stdout := Sample.two_time_lines |});
    reflexivity.
Defined.

(** C7, the claim as stated fails: the first ['time='] of the output is
    followed by no number, so parsing it raises, yet the latency is not
    [None]: the loop goes on to the second line and answers 12.5. *)
Lemma ping_first_parse_failure_not_final :
  let w := Sample.world (Sample.ping_os 0 Sample.two_time_lines)
             Sample.dead_sockets Sample.no_psutil in
  result_of (parse_time_field w "reply from 10.0.0.9: time=n/a") fresh_state
    = Raise (Exn "ValueError" "could not convert string to float") /\
  result_of (ping_host w "10.0.0.9" 1) fresh_state
    = Ok (true, Some (25 # 2)%Q).
Proof. vm_compute. split; reflexivity. Qed.

(** ** The device store *)

Lemma split_go_not_nil sep skip cur s : PyStr.split_go sep skip cur s <> [].
Proof.
  revert skip cur.
  induction s as [|c s IH]; intros skip cur; cbn [PyStr.split_go]; [easy|].
  destruct skip; [|apply IH].
  destruct (String.prefix sep (String c s)); [easy|apply IH].
Qed.

Lemma index_last_run {A} (l : list A) (d : A) s :
  l <> [] -> index_last l s = (Ok (List.last l d), s).
Proof.
  intros Hl. unfold index_last.
  assert (H : List.last (map Some l) None = Some (List.last l d)).
  { induction l as [|a l IH]; [easy|].
    destruct l as [|b l]; [reflexivity|].
    change (List.last (map Some (b :: l)) None = Some (List.last (b :: l) d)).
    apply IH. easy. }
  rewrite H. reflexivity.
Qed.

Lemma find_has_ip_existsb ip rows :
  existsb (has_ip ip) rows = true ->
  exists d, List.find (has_ip ip) rows = Some d.
Proof.
  induction rows as [|d rows IH]; cbn; [discriminate|].
  destruct (has_ip ip d); [eauto|exact IH].
Qed.

Lemma find_has_ip_none ip rows :
  existsb (has_ip ip) rows = false -> List.find (has_ip ip) rows = None.
Proof.
  induction rows as [|d rows IH]; cbn; [reflexivity|].
  destruct (has_ip ip d); [discriminate|exact IH].
Qed.

(** An upsert never raises; it reads the SQL clock once and leaves the
    table as [upserted] says. *)
Lemma update_or_add_device_run w ip latency s :
  update_or_add_device w ip latency s =
    (Ok tt,
     let '(rows, seq) :=
       upserted ip latency (w_sql_now w (st_sql_reads s)) (st_devices s)
         (st_devices_seq s) in
     set_devices rows seq (set_sql_reads (S (st_sql_reads s)) s)).
Proof.
  unfold update_or_add_device, upserted, select_device_id.
  unfold bind at 1. unfold bind at 1. unfold get_devices at 1. unfold ret at 1.
  destruct (existsb (has_ip ip) (st_devices s)) eqn:Hex.
  - destruct (find_has_ip_existsb _ _ Hex) as [d Hd]. rewrite Hd. cbn.
    unfold update_device_online. unfold_m. cbn. reflexivity.
  - rewrite (find_has_ip_none _ _ Hex). cbn.
    unfold bind at 1.
    rewrite (index_last_run _ EmptyString) by apply split_go_not_nil.
    unfold new_device, is_gateway, last_component.
    destruct (PyStr.endswith ".1" ip || PyStr.endswith ".254" ip);
      unfold insert_device; unfold_m; cbn; rewrite Hex; reflexivity.
Qed.

Lemma has_ip_true ip d : has_ip ip d = true <-> dev_ip d = ip.
Proof. unfold has_ip. apply String.eqb_eq. Qed.

Lemma rows_of_ip_absent ip rows :
  existsb (has_ip ip) rows = false -> rows_of_ip ip rows = [].
Proof.
  unfold rows_of_ip. induction rows as [|d rows IH]; cbn; [reflexivity|].
  destruct (has_ip ip d); [discriminate|exact IH].
Qed.

Lemma rows_of_ip_not_in ip rows :
  ~ In ip (map dev_ip rows) -> rows_of_ip ip rows = [].
Proof.
  intros Hn. apply rows_of_ip_absent.
  destruct (existsb (has_ip ip) rows) eqn:E; [|reflexivity].
  exfalso. apply Hn. apply List.existsb_exists in E as (d & Hd & Hip).
  apply has_ip_true in Hip. subst ip. apply List.in_map. exact Hd.
Qed.

(** With unique addresses a known address has exactly one row. *)
Lemma rows_of_ip_unique ip rows :
  unique_ips rows ->
  existsb (has_ip ip) rows = true ->
  exists r, rows_of_ip ip rows = [r].
Proof.
  unfold unique_ips, rows_of_ip.
  induction rows as [|d rows IH]; cbn; [discriminate|].
  intros Hnd Hex. inversion Hnd as [|x l Hnotin Hnd']; subst.
  destruct (has_ip ip d) eqn:Hd.
  - exists d. f_equal. apply has_ip_true in Hd. subst ip.
    apply rows_of_ip_not_in. rewrite <- list_elem_of_In. exact Hnotin.
  - apply IH; assumption.
Qed.

Lemma rows_of_ip_marked ip latency now rows :
  rows_of_ip ip
    (map (fun d => if has_ip ip d then mark_online latency now d else d) rows)
  = map (mark_online latency now) (rows_of_ip ip rows).
Proof.
  unfold rows_of_ip.
  induction rows as [|d rows IH]; cbn [map List.filter]; [reflexivity|].
  destruct (has_ip ip d) eqn:Hd.
  - change (has_ip ip (mark_online latency now d)) with (has_ip ip d).
    rewrite Hd. cbn [map]. f_equal. exact IH.
  - rewrite Hd. exact IH.
Qed.

Lemma rows_of_ip_app ip l1 l2 :
  rows_of_ip ip (l1 ++ l2) = rows_of_ip ip l1 ++ rows_of_ip ip l2.
Proof. unfold rows_of_ip. apply List.filter_app. Qed.

Lemma has_ip_new_device ip id latency now :
  has_ip ip (new_device id ip latency now) = true.
Proof. apply has_ip_true. reflexivity. Qed.

(** After an upsert of [ip] the table holds exactly one row for [ip]. *)
Lemma rows_of_ip_upserted ip latency now rows seq :
  unique_ips rows ->
  exists r, rows_of_ip ip (fst (upserted ip latency now rows seq)) = [r] /\
            existsb (has_ip ip) (fst (upserted ip latency now rows seq)) = true.
Proof.
  intros Hu. unfold upserted.
  destruct (existsb (has_ip ip) rows) eqn:Hex; cbn [fst].
  - destruct (rows_of_ip_unique ip rows Hu Hex) as [r Hr].
    exists (mark_online latency now r). split.
    + rewrite rows_of_ip_marked, Hr. reflexivity.
    + apply List.existsb_exists in Hex as (d & Hd & Hip).
      apply List.existsb_exists.
      exists (mark_online latency now d). split; [|exact Hip].
      apply List.in_map_iff. exists d. rewrite Hip. auto.
  - exists (new_device (seq + 1) ip latency now). split.
    + rewrite rows_of_ip_app, (rows_of_ip_absent _ _ Hex).
      unfold rows_of_ip. cbn [List.filter app].
      rewrite has_ip_new_device. reflexivity.
    + rewrite List.existsb_app. cbn [existsb]. rewrite has_ip_new_device.
      rewrite orb_true_r. reflexivity.
Qed.

(** C5. Two upserts of the same address, one after the other, leave
    exactly one row for that address: the second adds none. It sets the
    status of the row to online, stores the new latency and the time of
    the second call as last seen, and leaves the name, the device type,
    the creation time, the MAC address and the id as the first call left
    them. *)
Theorem upsert_twice_one_row (w : World) (ip : string) (l1 l2 : option Q)
    (s : State) :
  unique_ips (st_devices s) ->
  let s1 := state_after (update_or_add_device w ip l1) s in
  let s2 := state_after (update_or_add_device w ip l2) s1 in
  result_of (update_or_add_device w ip l1) s = Ok tt /\
  result_of (update_or_add_device w ip l2) s1 = Ok tt /\
  length (st_devices s2) = length (st_devices s1) /\
  exists r1 r2,
    rows_of_ip ip (st_devices s1) = [r1] /\
    rows_of_ip ip (st_devices s2) = [r2] /\
    dev_status r2 = "online" /\
    dev_latency r2 = l2 /\
    dev_last_seen r2 = w_sql_now w (st_sql_reads s1) /\
    dev_name r2 = dev_name r1 /\
    dev_type r2 = dev_type r1 /\
    dev_created_at r2 = dev_created_at r1 /\
    dev_mac r2 = dev_mac r1 /\
    dev_id r2 = dev_id r1.
Proof.
  intros Hu s1 s2. subst s1 s2. unfold state_after, result_of.
  rewrite !update_or_add_device_run. cbn [fst snd].
  destruct (rows_of_ip_upserted ip l1 (w_sql_now w (st_sql_reads s))
              (st_devices s) (st_devices_seq s) Hu) as (r1 & Hr1 & Hex1).
  destruct (upserted ip l1 _ (st_devices s) (st_devices_seq s))
    as [rows1 seq1] eqn:E1.
  cbn [fst] in Hr1, Hex1.
  cbn [fst snd st_devices st_devices_seq st_sql_reads set_devices
       set_sql_reads].
  unfold upserted. rewrite Hex1.
  cbn [fst snd st_devices st_devices_seq st_sql_reads set_devices
       set_sql_reads].
  split; [reflexivity|]. split; [reflexivity|].
  split; [apply List.length_map|].
  exists r1, (mark_online l2 (w_sql_now w (S (st_sql_reads s))) r1).
  split; [exact Hr1|]. split.
  - rewrite rows_of_ip_marked, Hr1. reflexivity.
  - cbn. repeat split; reflexivity.
Qed.

Lemma upsert_twice_one_row_witness :
  let w := Sample.world Sample.bare_os Sample.dead_sockets Sample.no_psutil in
  let s1 := state_after (update_or_add_device w "10.0.0.1" None) fresh_state in
  let s2 := state_after (update_or_add_device w "10.0.0.1" (Some (3 # 2)%Q))
              s1 in
  length (st_devices s2) = length (st_devices s1).
Proof.
  intros w s1 s2.
  apply (upsert_twice_one_row w "10.0.0.1" None (Some (3 # 2)%Q) fresh_state).
  unfold unique_ips. cbn. constructor.
Defined.

(** ** Heartbeats *)

Lemma raspberry_pi_heartbeat_run w node data s :
  raspberry_pi_heartbeat w node data s =
    (Ok heartbeat_received,
     set_nodes
       (map (fun n =>
               if id_matches w node n
               then stamp_heartbeat (w_sql_now w (st_sql_reads s))
                      (heartbeat_stats w data) n
               else n) (st_nodes s))
       (st_nodes_seq s)
       (set_sql_reads (S (st_sql_reads s)) s)).
Proof. reflexivity. Qed.

Lemma map_unmatched {A} (f : A -> bool) (g : A -> A) (l : list A) :
  (forall a, In a l -> f a = false) ->
  map (fun a => if f a then g a else a) l = l.
Proof.
  induction l as [|a l IH]; intros H; cbn; [reflexivity|].
  rewrite (H a) by (left; reflexivity).
  f_equal. apply IH. intros b Hb. apply H. right. exact Hb.
Qed.




(** ** Initialisation and the sample rows *)

Lemma keeps_ret P {A} (a : A) : keeps P (ret a).
Proof. intros s H. exact H. Qed.

Lemma keeps_raise P {A} e : keeps P (@raise A e).
Proof. intros s H. exact H. Qed.

Lemma keeps_bind P {A B} (m : M A) (k : A -> M B) :
  keeps P m -> (forall a, keeps P (k a)) -> keeps P (bind m k).
Proof.
  intros Hm Hk s H. unfold bind. specialize (Hm s H).
  destruct (m s) as [[a|e] s1]; cbn in *; [apply Hk|]; exact Hm.
Qed.

Lemma keeps_try P {A} (m : M A) (h : exn -> M A) :
  keeps P m -> (forall e, keeps P (h e)) -> keeps P (try_except m h).
Proof.
  intros Hm Hh s H. unfold try_except. specialize (Hm s H).
  destruct (m s) as [[a|e] s1]; cbn in *; [|apply Hh]; exact Hm.
Qed.

Lemma keeps_same_store P {A} (m : M A) :
  (forall s, same_store s (snd (m s))) -> keeps P m.
Proof. intros Hm s H. destruct (Hm s) as (-> & _). exact H. Qed.

Lemma keeps_extern P {A} name (o : result A) : keeps P (extern name o).
Proof. intros s H. exact H. Qed.

Lemma keeps_print P line : keeps P (print line).
Proof. intros s H. exact H. Qed.

Lemma keeps_index P {A} (l : list A) i : keeps P (index l i).
Proof. unfold index. destruct (nth_error l i); intros s H; exact H. Qed.

Lemma keeps_for_each P {A} (xs : list A) (body : A -> M unit) :
  (forall x, keeps P (body x)) -> keeps P (for_each xs body).
Proof.
  intros Hb. induction xs as [|x xs IH]; cbn [for_each].
  - apply keeps_ret.
  - apply keeps_bind; [apply Hb|intros _; exact IH].
Qed.

Lemma keeps_ping_host P w target count : keeps P (ping_host w target count).
Proof.
  apply keeps_same_store. intros s.
  destruct (ping_host_run w target count s) as (s' & Hs & E).
  rewrite E. exact Hs.
Qed.

Lemma keeps_update_or_add_device P w ip latency :
  (forall now rows seq, P rows -> P (fst (upserted ip latency now rows seq))) ->
  keeps P (update_or_add_device w ip latency).
Proof.
  intros HP s H. rewrite update_or_add_device_run. cbn [snd].
  specialize (HP (w_sql_now w (st_sql_reads s)) _ (st_devices_seq s) H).
  destruct (upserted _ _ _ _ _) as [rows seq]. exact HP.
Qed.

Lemma keeps_nets_of_addrs P addrs : keeps P (nets_of_addrs addrs).
Proof.
  induction addrs as [|a addrs IH]; cbn [nets_of_addrs]; [apply keeps_ret|].
  destruct (is_inet a && negb (PyStr.startswith "127." (addr_address a)));
    [|exact IH].
  apply keeps_bind.
  - unfold subnet_of.
    repeat (apply keeps_bind; [apply keeps_index|intros ?]). apply keeps_ret.
  - intros ?. apply keeps_bind; [exact IH|intros ?; apply keeps_ret].
Qed.

Lemma keeps_nets_of_interfaces P ifs : keeps P (nets_of_interfaces ifs).
Proof.
  induction ifs as [|[name addrs] ifs IH]; cbn [nets_of_interfaces];
    [apply keeps_ret|].
  apply keeps_bind; [apply keeps_nets_of_addrs|intros ?].
  apply keeps_bind; [exact IH|intros ?; apply keeps_ret].
Qed.

(** The sweep keeps every property of the table that an upsert keeps. *)
Lemma keeps_discover P w :
  (forall ip latency now rows seq,
     P rows -> P (fst (upserted ip latency now rows seq))) ->
  keeps P (discover_network_devices w).
Proof.
  intros HP. unfold discover_network_devices.
  apply keeps_try; [|intros e; apply keeps_print].
  apply keeps_bind; [apply keeps_extern|intros ifs].
  apply keeps_bind; [apply keeps_nets_of_interfaces|intros nets].
  apply keeps_for_each. intros subnet.
  apply keeps_for_each. intros octet. unfold probe_suffix.
  apply keeps_bind; [apply keeps_ping_host|intros [success latency]].
  destruct success; [|apply keeps_ret].
  apply keeps_update_or_add_device. intros; apply HP; assumption.
Qed.

Lemma insert_or_ignore_run w name ip mac type status latency s :
  insert_device w true name ip mac type status latency s =
    (Ok tt,
     if existsb (has_ip ip) (st_devices s)
     then set_sql_reads (S (st_sql_reads s)) s
     else
       set_devices
         (st_devices s ++
          [ {| dev_id := st_devices_seq s + 1; dev_name := name; dev_ip := ip;
               dev_mac := mac; dev_type := Some type; dev_status := status;
               dev_last_seen := w_sql_now w (st_sql_reads s);
               dev_latency := latency;
               dev_created_at := w_sql_now w (st_sql_reads s) |} ])
         (st_devices_seq s + 1)
         (set_sql_reads (S (st_sql_reads s)) s)).
Proof.
  unfold insert_device. unfold_m. cbn.
  destruct (existsb (has_ip ip) (st_devices s)); reflexivity.
Qed.

(** Initialisation never raises. *)
Lemma init_database_ok w s : result_of (init_database w) s = Ok tt.
Proof.
  unfold result_of, init_database, add_sample_data, sample_devices.
  cbn [for_each]. unfold bind.
  repeat (rewrite insert_or_ignore_run;
          match goal with
          | |- context [existsb ?f ?l] => destruct (existsb f l)
          end).
  all: reflexivity.
Qed.

(** Where the sample addresses are all present, initialisation leaves the
    table as it is. *)
Lemma init_database_present w s :
  (forall smp, In smp sample_devices ->
     existsb (has_ip (sample_ip smp)) (st_devices s) = true) ->
  st_devices (state_after (init_database w) s) = st_devices s /\
  st_devices_seq (state_after (init_database w) s) = st_devices_seq s.
Proof.
  intros H.
  assert (H1 := H _ (or_introl eq_refl)).
  assert (H2 := H _ (or_intror (or_introl eq_refl))).
  assert (H3 := H _ (or_intror (or_intror (or_introl eq_refl)))).
  cbn [sample_ip] in H1, H2, H3.
  unfold state_after, init_database, add_sample_data, sample_devices.
  cbn [for_each]. unfold bind.
  rewrite insert_or_ignore_run, H1.
  rewrite insert_or_ignore_run.
  change (st_devices (set_sql_reads _ s)) with (st_devices s). rewrite H2.
  rewrite insert_or_ignore_run.
  change (st_devices (set_sql_reads _ (set_sql_reads _ s)))
    with (st_devices s).
  rewrite H3. split; reflexivity.
Qed.

(** The first start: the table holds the three sample rows and no other. *)
Lemma init_database_fresh w :
  st_devices (state_after (init_database w) fresh_state) =
    map (fun '(i, smp) =>
           sample_row (1 + Z.of_nat i) (w_sql_now w i) smp)
      (imap pair sample_devices).
Proof. reflexivity. Qed.

Lemma is_sample_row id now smp : is_sample smp (sample_row id now smp).
Proof. destruct smp as [[[[[name ip] mac] type] status] latency]. cbn. auto. Qed.

Lemma seeded_fresh w :
  seeded (st_devices (state_after (init_database w) fresh_state)).
Proof.
  rewrite init_database_fresh. split.
  - unfold unique_ips. cbn. apply (bool_decide_unpack _). vm_compute. exact I.
  - intros smp Hin. cbn in Hin.
    destruct Hin as [<-|[<-|[<-|[]]]]; eexists; (split; [|apply is_sample_row]);
      cbn; auto.
Qed.

Lemma is_sample_mark_online smp latency now d :
  is_sample smp d -> is_sample smp (mark_online latency now d).
Proof. destruct smp as [[[[[name ip] mac] type] status] lat]. cbn. auto. Qed.

Lemma map_dev_ip_marked ip latency now rows :
  map dev_ip
    (map (fun d => if has_ip ip d then mark_online latency now d else d) rows)
  = map dev_ip rows.
Proof.
  rewrite List.map_map. apply List.map_ext. intros d.
  destruct (has_ip ip d); reflexivity.
Qed.

(** An upsert keeps the table seeded. *)
Lemma seeded_upserted ip latency now rows seq :
  seeded rows -> seeded (fst (upserted ip latency now rows seq)).
Proof.
  intros [Hu Hs]. unfold upserted.
  destruct (existsb (has_ip ip) rows) eqn:Hex; cbn [fst]; split.
  - unfold unique_ips. rewrite map_dev_ip_marked. exact Hu.
  - intros smp Hin. destruct (Hs smp Hin) as (d & Hd & Hsmp).
    exists (if has_ip ip d then mark_online latency now d else d). split.
    + apply List.in_map_iff. exists d. auto.
    + destruct (has_ip ip d); [apply is_sample_mark_online|]; exact Hsmp.
  - unfold unique_ips. rewrite List.map_app. cbn.
    apply NoDup_app. split; [exact Hu|]. split; [|apply NoDup_singleton].
    intros x Hx Hx'. apply list_elem_of_In in Hx.
    apply list_elem_of_singleton in Hx'. subst x.
    apply List.in_map_iff in Hx as (d & Hd & Hin).
    assert (existsb (has_ip ip) rows = true); [|congruence].
    apply List.existsb_exists. exists d. split; [exact Hin|].
    apply has_ip_true. exact Hd.
  - intros smp Hin. destruct (Hs smp Hin) as (d & Hd & Hsmp).
    exists d. split; [apply List.in_or_app; left; exact Hd|exact Hsmp].
Qed.

Lemma seeded_present rows smp :
  seeded rows -> In smp sample_devices ->
  existsb (has_ip (sample_ip smp)) rows = true.
Proof.
  intros [_ Hs] Hin. destruct (Hs smp Hin) as (d & Hd & Hsmp).
  apply List.existsb_exists. exists d. split; [exact Hd|].
  apply has_ip_true.
  destruct smp as [[[[[name ip] mac] type] status] lat]. cbn in *. tauto.
Qed.

(** Once the program has started the table is seeded. *)
Lemma started_seeded s : started s -> seeded (st_devices s).
Proof.
  induction 1 as [w|w s _ IH|w ip latency s _ IH|w s _ IH|w node data s _ IH].
  - apply seeded_fresh.
  - destruct (init_database_present w s) as [-> _]; [|exact IH].
    intros smp Hin. apply seeded_present; assumption.
  - unfold state_after. revert IH.
    apply (keeps_update_or_add_device seeded). intros. apply seeded_upserted.
    assumption.
  - unfold state_after. revert IH.
    apply (keeps_discover seeded). intros. apply seeded_upserted. assumption.
  - exact IH.
Qed.

Lemma in_insert_by_name d x l :
  In d (insert_by_name x l) <-> d = x \/ In d l.
Proof.
  induction l as [|y l IH]; cbn.
  - intuition.
  - destruct (String.leb (dev_name x) (dev_name y)); cbn; [intuition|].
    rewrite IH. intuition.
Qed.

Lemma in_order_by_name d l : In d (order_by_name l) <-> In d l.
Proof.
  unfold order_by_name. induction l as [|x l IH]; cbn; [tauto|].
  rewrite in_insert_by_name, IH. intuition.
Qed.

(** C10. Initialisation seeds the three sample devices with
    insert-or-ignore: on the first start the table holds exactly these
    three rows. After every start, and at any later moment, the device
    listing holds for each sample a row with its name, address, MAC
    address and type, and that row is the only one of its address.
    Initialising again never raises and leaves the table as it is, so the
    samples are never duplicated. *)
Theorem startup_lists_sample_devices (s : State) :
  started s ->
  (forall smp, In smp sample_devices ->
     exists d l,
       result_of get_network_devices s = Ok l /\ In d l /\
       is_sample smp d /\
       rows_of_ip (sample_ip smp) (st_devices s) = [d]) /\
  (forall w,
     result_of (init_database w) s = Ok tt /\
     st_devices (state_after (init_database w) s) = st_devices s) /\
  (forall w,
     st_devices (state_after (init_database w) fresh_state) =
       map (fun '(i, smp) => sample_row (1 + Z.of_nat i) (w_sql_now w i) smp)
         (imap pair sample_devices)).
Proof.
  intros Hst. pose proof (started_seeded s Hst) as Hseed.
  split; [|split].
  - intros smp Hin. destruct Hseed as [Hu Hs].
    destruct (Hs smp Hin) as (d & Hd & Hsmp).
    exists d, (order_by_name (st_devices s)).
    split; [reflexivity|]. split; [apply in_order_by_name; exact Hd|].
    split; [exact Hsmp|].
    assert (Hip : dev_ip d = sample_ip smp).
    { destruct smp as [[[[[name ip] mac] type] status] lat]. cbn in *. tauto. }
    assert (Hex : existsb (has_ip (sample_ip smp)) (st_devices s) = true).
    { apply List.existsb_exists. exists d. split; [exact Hd|].
      apply has_ip_true. exact Hip. }
    destruct (rows_of_ip_unique _ _ Hu Hex) as [r Hr]. rewrite Hr.
    assert (Hin' : In d (rows_of_ip (sample_ip smp) (st_devices s))).
    { apply List.filter_In. split; [exact Hd|]. apply has_ip_true. exact Hip. }
    rewrite Hr in Hin'. destruct Hin' as [->|[]]. reflexivity.
  - intros w. split; [apply init_database_ok|].
    apply init_database_present. intros smp Hin.
    apply seeded_present; assumption.
  - intros w. apply init_database_fresh.
Qed.

Lemma startup_lists_sample_devices_witness :
  let w := Sample.world Sample.bare_os Sample.dead_sockets Sample.no_psutil in
  let s := state_after (init_database w) fresh_state in
  exists d l,
    result_of get_network_devices s = Ok l /\ In d l /\
    is_sample ("Main Router", "192.168.1.1", "00:11:22:33:44:55", "Router",
               "online", (152 # 10)%Q) d /\
    rows_of_ip "192.168.1.1" (st_devices s) = [d].
Proof.
  intros w s.
  destruct (startup_lists_sample_devices s (started_first w)) as (H & _ & _).
  apply (H ("Main Router", "192.168.1.1", "00:11:22:33:44:55", "Router",
            "online", (152 # 10)%Q)).
  left. reflexivity.
Defined.

(** ** Strings: suffixes and last components *)

Lemma append_nil_l (b : string) : EmptyString +:+ b = b.
Proof. reflexivity. Qed.

Lemma append_cons x (a b : string) : String x a +:+ b = String x (a +:+ b).
Proof. reflexivity. Qed.

Lemma append_assoc (a b c : string) : (a +:+ b) +:+ c = a +:+ (b +:+ c).
Proof.
  induction a as [|x a IH]; [reflexivity|].
  rewrite !append_cons. f_equal. exact IH.
Qed.

Lemma append_empty_r (a : string) : a +:+ EmptyString = a.
Proof.
  induction a as [|x a IH]; [reflexivity|].
  rewrite append_cons. f_equal. exact IH.
Qed.

Lemma rev_app_spec (s acc : string) :
  String.rev_app s acc = String.rev s +:+ acc.
Proof.
  unfold String.rev. revert acc.
  induction s as [|c s IH]; intros acc; cbn [String.rev_app]; [reflexivity|].
  rewrite IH, (IH (String c EmptyString)), append_assoc. reflexivity.
Qed.

Lemma rev_cons c (s : string) :
  String.rev (String c s) = String.rev s +:+ String c EmptyString.
Proof. unfold String.rev at 1. cbn [String.rev_app]. apply rev_app_spec. Qed.

Lemma rev_append (a b : string) :
  String.rev (a +:+ b) = String.rev b +:+ String.rev a.
Proof.
  induction a as [|c a IH].
  - rewrite append_nil_l. change (String.rev EmptyString) with EmptyString.
    symmetry. apply append_empty_r.
  - rewrite append_cons, !rev_cons, IH, append_assoc. reflexivity.
Qed.

Lemma rev_involutive (s : string) : String.rev (String.rev s) = s.
Proof.
  induction s as [|c s IH]; [reflexivity|].
  rewrite rev_cons, rev_append, IH. reflexivity.
Qed.

Lemma prefix_append (a b : string) : String.prefix a (a +:+ b) = true.
Proof.
  induction a as [|c a IH]; [destruct b; reflexivity|].
  rewrite append_cons. cbn [String.prefix].
  destruct (ascii_dec c c); [exact IH|congruence].
Qed.

(** An address ends with the suffix it was built with. *)
Lemma endswith_append (pre suf : string) :
  PyStr.endswith suf (pre +:+ suf) = true.
Proof. unfold PyStr.endswith. rewrite rev_append. apply prefix_append. Qed.

Lemma no_dot_append (a b : string) :
  no_dot (a +:+ b) = no_dot a && no_dot b.
Proof.
  induction a as [|c a IH]; [reflexivity|].
  rewrite append_cons. cbn [no_dot]. rewrite IH, andb_assoc. reflexivity.
Qed.

Lemma no_dot_rev (s : string) : no_dot (String.rev s) = no_dot s.
Proof.
  induction s as [|c s IH]; [reflexivity|].
  rewrite rev_cons, no_dot_append, IH. cbn [no_dot].
  rewrite andb_true_r. apply andb_comm.
Qed.

Lemma prefix_dot c (s : string) :
  String.prefix "." (String c s) = Ascii.eqb c ".".
Proof.
  cbn [String.prefix]. destruct (ascii_dec "." c) as [<-|Hne].
  - destruct s; reflexivity.
  - symmetry. apply Ascii.eqb_neq. congruence.
Qed.

(** Two dot-free strings, each followed by a dot: one is a prefix of the
    other only if they are equal. *)
Lemma prefix_dotted (x y z : string) :
  no_dot x = true -> no_dot y = true ->
  String.prefix (x +:+ ".") (y +:+ String "." z) = String.eqb x y.
Proof.
  revert y. induction x as [|a x IH]; intros y Hx Hy.
  - rewrite append_nil_l. destruct y as [|b y].
    { rewrite append_nil_l, prefix_dot. reflexivity. }
    rewrite append_cons. cbn [no_dot] in Hy.
    apply andb_true_iff in Hy as [Hb _]. cbn [String.prefix String.eqb].
    destruct (ascii_dec "." b) as [<-|]; [discriminate|reflexivity].
  - cbn [no_dot] in Hx. apply andb_true_iff in Hx as [Ha Hx].
    rewrite append_cons. destruct y as [|b y].
    + rewrite append_nil_l. cbn [String.prefix String.eqb].
      destruct (ascii_dec a ".") as [->|]; [discriminate|reflexivity].
    + rewrite append_cons. cbn [no_dot] in Hy.
      apply andb_true_iff in Hy as [_ Hy]. cbn [String.prefix String.eqb].
      destruct (ascii_dec a b) as [->|Hne].
      * rewrite Ascii.eqb_refl. apply IH; assumption.
      * apply Ascii.eqb_neq in Hne. rewrite Hne. reflexivity.
Qed.

Lemma eqb_rev (x y : string) :
  String.eqb (String.rev x) (String.rev y) = String.eqb x y.
Proof.
  destruct (String.eqb_spec x y) as [->|Hne].
  - apply String.eqb_refl.
  - apply String.eqb_neq. intros H. apply Hne.
    rewrite <- (rev_involutive x), <- (rev_involutive y), H. reflexivity.
Qed.

(** For a last component without a dot, the address ends with ['.' + p]
    exactly when the component is [p]. *)
Lemma endswith_dotted (p pre suf : string) :
  no_dot p = true -> no_dot suf = true ->
  PyStr.endswith ("." +:+ p) (pre +:+ "." +:+ suf) = String.eqb p suf.
Proof.
  intros Hp Hs. unfold PyStr.endswith.
  rewrite !rev_append. change (String.rev ".") with ".".
  rewrite append_assoc. rewrite (append_cons "." EmptyString), append_nil_l.
  rewrite prefix_dotted by (rewrite no_dot_rev; assumption).
  apply eqb_rev.
Qed.

Lemma split_dot_free (cur s : string) :
  no_dot s = true -> PyStr.split_go "." 0 cur s = [cur +:+ s].
Proof.
  revert cur. induction s as [|c s IH]; intros cur Hs.
  - cbn [PyStr.split_go]. rewrite append_empty_r. reflexivity.
  - cbn [no_dot] in Hs. apply andb_true_iff in Hs as [Hc Hs].
    cbn [PyStr.split_go]. rewrite prefix_dot.
    destruct (Ascii.eqb c "."); [discriminate|].
    rewrite IH by exact Hs. rewrite append_assoc. reflexivity.
Qed.

(** The last component of a dotted address. *)
Lemma last_component_dotted (pre suf : string) :
  no_dot suf = true -> last_component (pre +:+ "." +:+ suf) = suf.
Proof.
  intros Hs. unfold last_component, PyStr.split.
  generalize EmptyString at 2 as cur.
  induction pre as [|c pre IH]; intros cur.
  - rewrite append_nil_l, append_cons, append_nil_l.
    cbn [PyStr.split_go]. rewrite prefix_dot. cbn [Ascii.eqb Bool.eqb].
    change (String.length "." - 1)%nat with 0%nat.
    rewrite split_dot_free by exact Hs. reflexivity.
  - rewrite append_cons. cbn [PyStr.split_go]. rewrite prefix_dot.
    destruct (Ascii.eqb c ".").
    + change (String.length "." - 1)%nat with 0%nat.
      specialize (IH EmptyString).
      destruct (PyStr.split_go "." 0 EmptyString (pre +:+ "." +:+ suf)) eqn:E;
        [exfalso; exact (split_go_not_nil _ _ _ _ E)|exact IH].
    + apply IH.
Qed.

(** ** The sweep *)

Lemma nets_of_addrs_run addrs s :
  nets_of_addrs addrs s = (result_of (nets_of_addrs addrs) fresh_state, s).
Proof.
  unfold result_of. induction addrs as [|a addrs IH]; [reflexivity|].
  cbn [nets_of_addrs].
  destruct (is_inet a && negb (PyStr.startswith "127." (addr_address a)));
    [|exact IH].
  unfold bind at 1 3.
  assert (Hsub : forall s0,
             subnet_of (addr_address a) s0
             = (fst (subnet_of (addr_address a) fresh_state), s0)).
  { intros s0. unfold subnet_of. unfold_m.
    repeat match goal with
           | |- context [nth_error ?l ?i] => destruct (nth_error l i)
           end; reflexivity. }
  rewrite (Hsub s), (Hsub fresh_state). cbn [fst].
  destruct (fst (subnet_of (addr_address a) fresh_state)); [|reflexivity].
  unfold bind. rewrite IH.
  destruct (nets_of_addrs addrs fresh_state) as [[l|e] s1]; reflexivity.
Qed.

Lemma nets_of_interfaces_run ifs s :
  nets_of_interfaces ifs s = (local_nets_of ifs, s).
Proof.
  unfold local_nets_of, result_of.
  induction ifs as [|[name addrs] ifs IH]; [reflexivity|].
  cbn [nets_of_interfaces]. unfold bind at 1 3.
  rewrite (nets_of_addrs_run addrs s), (nets_of_addrs_run addrs fresh_state).
  destruct (result_of (nets_of_addrs addrs) fresh_state); [|reflexivity].
  unfold bind. rewrite IH.
  destruct (nets_of_interfaces ifs fresh_state) as [[l|e] s1]; reflexivity.
Qed.

(** The probe succeeds exactly when the world does not make it fail, and
    it leaves the store alone. *)
Lemma ping_host_success w target count s :
  exists latency s',
    ping_host w target count s
      = (Ok (negb (probe_fails w target count), latency), s') /\
    same_store s s'.
Proof.
  destruct (ping_host_run w target count s) as (s' & Hs & E).
  unfold probe_fails, ping_exits_nonzero, ping_raises.
  destruct (ping_run w target count) as [p|e].
  - destruct (returncode p =? 0); eexists; exists s'; (split; [exact E|exact Hs]).
  - destruct (socket_methods_fail w target), (dns_fails w target),
      (http_fails w target); eexists; exists s'; (split; [exact E|exact Hs]).
Qed.

(** One turn of the sweep: nothing for a host that does not answer, an
    upsert at the next reading of the SQL clock for one that does. *)
Lemma probe_suffix_run w subnet octet s :
  let target := subnet +:+ "." +:+ PyStr.of_int octet in
  exists latency s',
    probe_suffix w subnet octet s = (Ok tt, s') /\
    if probe_fails w target 1
    then st_devices s' = st_devices s /\ st_devices_seq s' = st_devices_seq s
         /\ st_sql_reads s' = st_sql_reads s
    else (st_devices s', st_devices_seq s')
           = upserted target latency (w_sql_now w (st_sql_reads s))
               (st_devices s) (st_devices_seq s)
         /\ st_sql_reads s' = S (st_sql_reads s).
Proof.
  intros target. unfold probe_suffix. fold target.
  destruct (ping_host_success w target 1 s) as (latency & s1 & E & Hs).
  exists latency. unfold bind. rewrite E.
  destruct Hs as (Hd & Hq & _ & _ & Hr).
  destruct (probe_fails w target 1); cbn [negb].
  - exists s1. split; [reflexivity|]. auto.
  - rewrite update_or_add_device_run. rewrite Hd, Hq, Hr.
    destruct (upserted target latency _ (st_devices s) (st_devices_seq s))
      as [rows seq].
    eexists. split; [reflexivity|]. split; reflexivity.
Qed.

Lemma is_gateway_dotted pre suffix :
  no_dot suffix = true ->
  is_gateway (pre +:+ "." +:+ suffix)
  = String.eqb "1" suffix || String.eqb "254" suffix.
Proof.
  intros Hs. unfold is_gateway.
  change ".1" with ("." +:+ "1"). change ".254" with ("." +:+ "254").
  rewrite !endswith_dotted by (exact Hs || reflexivity). reflexivity.
Qed.

(** The row an upsert adds for an address it does not know. *)
Lemma upserted_unknown ip latency now rows seq :
  existsb (has_ip ip) rows = false ->
  upserted ip latency now rows seq
  = (rows ++ [new_device (seq + 1) ip latency now], seq + 1).
Proof. intros H. unfold upserted. rewrite H. reflexivity. Qed.

Lemma new_device_dotted id pre suffix latency now :
  no_dot suffix = true ->
  new_device id (pre +:+ "." +:+ suffix) latency now =
    {| dev_id := id; dev_name := name_for_suffix suffix;
       dev_ip := pre +:+ "." +:+ suffix; dev_mac := None;
       dev_type := Some (type_for_suffix suffix); dev_status := "online";
       dev_last_seen := now; dev_latency := latency;
       dev_created_at := now |}.
Proof.
  intros Hs. unfold new_device, name_for_suffix, type_for_suffix.
  rewrite is_gateway_dotted, last_component_dotted by exact Hs. reflexivity.
Qed.

(** The naming rule of the upsert. *)
Lemma upsert_names_by_suffix w s pre suffix latency :
  no_dot suffix = true ->
  existsb (has_ip (pre +:+ "." +:+ suffix)) (st_devices s) = false ->
  exists d,
    st_devices
      (state_after (update_or_add_device w (pre +:+ "." +:+ suffix) latency) s)
      = st_devices s ++ [d] /\
    dev_ip d = pre +:+ "." +:+ suffix /\
    dev_name d = name_for_suffix suffix /\
    dev_type d = Some (type_for_suffix suffix) /\
    dev_status d = "online" /\
    dev_latency d = latency.
Proof.
  intros Hs Hun. unfold state_after. rewrite update_or_add_device_run.
  rewrite upserted_unknown by exact Hun. cbn [snd st_devices set_devices].
  rewrite new_device_dotted by exact Hs.
  eexists. split; [reflexivity|]. cbn. repeat split; reflexivity.
Qed.

Lemma append_inj_l (a b c : string) : a +:+ b = a +:+ c -> b = c.
Proof.
  induction a as [|x a IH]; [auto|].
  rewrite !append_cons. intros H. injection H. exact IH.
Qed.

(** A sweep over one subnet on which only the hosts 1 and 254 answer. *)
Lemma sweep_one_subnet w s ifs nets subnet :
  w_net_if_addrs w = Ok ifs ->
  local_nets_of ifs = Ok nets ->
  remove_dups nets = [subnet] ->
  probe_fails w (subnet +:+ ".1") 1 = false ->
  probe_fails w (subnet +:+ ".254") 1 = false ->
  probe_fails w (subnet +:+ ".100") 1 = true ->
  probe_fails w (subnet +:+ ".101") 1 = true ->
  probe_fails w (subnet +:+ ".102") 1 = true ->
  existsb (has_ip (subnet +:+ ".1")) (st_devices s) = false ->
  existsb (has_ip (subnet +:+ ".254")) (st_devices s) = false ->
  exists l1 l254 s',
    discover_network_devices w s = (Ok tt, s') /\
    st_devices s' =
      st_devices s ++
      [ new_device (st_devices_seq s + 1) (subnet +:+ ".1") l1
          (w_sql_now w (st_sql_reads s));
        new_device (st_devices_seq s + 2) (subnet +:+ ".254") l254
          (w_sql_now w (S (st_sql_reads s))) ].
Proof.
  intros Hifs Hnets Hdup H1 H254 H100 H101 H102 Hu1 Hu254.
  unfold discover_network_devices.
  unfold try_except, bind at 1, extern. rewrite Hifs.
  unfold bind at 1. rewrite nets_of_interfaces_run, Hnets, Hdup.
  cbn [for_each]. unfold common_ips. cbn [for_each].
  set (s0 := set_log _ s).
  destruct (probe_suffix_run w subnet 1 s0) as (l1 & s1 & E1 & R1).
  destruct (probe_suffix_run w subnet 254 s1) as (l254 & s2 & E2 & R2).
  destruct (probe_suffix_run w subnet 100 s2) as (l100 & s3 & E3 & R3).
  destruct (probe_suffix_run w subnet 101 s3) as (l101 & s4 & E4 & R4).
  destruct (probe_suffix_run w subnet 102 s4) as (l102 & s5 & E5 & R5).
  change (subnet +:+ "." +:+ PyStr.of_int 1) with (subnet +:+ ".1") in R1.
  change (subnet +:+ "." +:+ PyStr.of_int 254) with (subnet +:+ ".254") in R2.
  change (subnet +:+ "." +:+ PyStr.of_int 100) with (subnet +:+ ".100") in R3.
  change (subnet +:+ "." +:+ PyStr.of_int 101) with (subnet +:+ ".101") in R4.
  change (subnet +:+ "." +:+ PyStr.of_int 102) with (subnet +:+ ".102") in R5.
  rewrite H1 in R1. rewrite H254 in R2. rewrite H100 in R3.
  rewrite H101 in R4. rewrite H102 in R5.
  unfold bind. rewrite E1, E2, E3, E4, E5. cbn [fst snd ret].
  exists l1, l254, s5. split; [reflexivity|].
  destruct R5 as (-> & _ & _). destruct R4 as (-> & _ & _).
  destruct R3 as (-> & _ & _).
  change (st_devices s0) with (st_devices s) in R1.
  change (st_devices_seq s0) with (st_devices_seq s) in R1.
  change (st_sql_reads s0) with (st_sql_reads s) in R1.
  rewrite upserted_unknown in R1 by exact Hu1.
  destruct R1 as (R1 & Q1). injection R1 as D1 S1.
  rewrite D1, S1, Q1 in R2.
  rewrite upserted_unknown in R2.
  - destruct R2 as (R2 & _). injection R2 as D2 _. rewrite D2.
    rewrite <- app_assoc. cbn [app].
    replace (st_devices_seq s + 1 + 1) with (st_devices_seq s + 2) by lia.
    reflexivity.
  - rewrite List.existsb_app, Hu254. cbn [existsb orb].
    rewrite orb_false_r. apply String.eqb_neq. cbn [new_device dev_ip].
    intros H. apply append_inj_l in H. discriminate.
Qed.

(** C6, as the code has it. In a sweep of one subnet in which only the
    hosts 1 and 254 answer, and neither address is in the table yet,
    exactly two devices are created, one after the other: both of type
    Router and status online, named 'Gateway 1' and 'Gateway 254'. An
    address that is in the table already is updated and gets no new row.
    In general an address not in the table whose last component is 1 or
    254 gets the name 'Gateway <suffix>' and the type Router, and any
    other last component the name 'Device <suffix>' and the type
    'Network Device'. *)
Theorem sweep_creates_gateways :
  (forall (w : World) (s : State) ifs nets (subnet : string),
     w_net_if_addrs w = Ok ifs ->
     local_nets_of ifs = Ok nets ->
     remove_dups nets = [subnet] ->
     probe_fails w (subnet +:+ ".1") 1 = false ->
     probe_fails w (subnet +:+ ".254") 1 = false ->
     probe_fails w (subnet +:+ ".100") 1 = true ->
     probe_fails w (subnet +:+ ".101") 1 = true ->
     probe_fails w (subnet +:+ ".102") 1 = true ->
     existsb (has_ip (subnet +:+ ".1")) (st_devices s) = false ->
     existsb (has_ip (subnet +:+ ".254")) (st_devices s) = false ->
     exists g1 g254,
       result_of (discover_network_devices w) s = Ok tt /\
       st_devices (state_after (discover_network_devices w) s)
         = st_devices s ++ [g1; g254] /\
       (dev_ip g1 = subnet +:+ ".1" /\ dev_name g1 = "Gateway 1" /\
        dev_type g1 = Some "Router" /\ dev_status g1 = "online") /\
       (dev_ip g254 = subnet +:+ ".254" /\ dev_name g254 = "Gateway 254" /\
        dev_type g254 = Some "Router" /\ dev_status g254 = "online")) /\
  (forall (w : World) (s : State) (pre suffix : string) (latency : option Q),
     no_dot suffix = true ->
     existsb (has_ip (pre +:+ "." +:+ suffix)) (st_devices s) = false ->
     exists d,
       st_devices
         (state_after
            (update_or_add_device w (pre +:+ "." +:+ suffix) latency) s)
         = st_devices s ++ [d] /\
       dev_ip d = pre +:+ "." +:+ suffix /\
       dev_name d = name_for_suffix suffix /\
       dev_type d = Some (type_for_suffix suffix) /\
       dev_status d = "online" /\
       dev_latency d = latency).
Proof.
  split.
  - intros w s ifs nets subnet Hifs Hnets Hdup H1 H254 H100 H101 H102 Hu1 Hu254.
    destruct (sweep_one_subnet w s ifs nets subnet Hifs Hnets Hdup H1 H254
                H100 H101 H102 Hu1 Hu254) as (l1 & l254 & s' & E & D).
    unfold result_of, state_after. rewrite E. cbn [fst snd].
    eexists. eexists. split; [reflexivity|]. split; [exact D|].
    change (subnet +:+ ".1") with (subnet +:+ "." +:+ "1").
    change (subnet +:+ ".254") with (subnet +:+ "." +:+ "254").
    rewrite !new_device_dotted by reflexivity.
    cbn. repeat split; reflexivity.
  - intros w s pre suffix latency Hs Hun.
    apply upsert_names_by_suffix; assumption.
Qed.

Lemma sweep_creates_gateways_witness :
  let w := Sample.world (Sample.gateways_os "10.0.0") Sample.dead_sockets
             (Sample.one_interface "10.0.0.7") in
  let s := state_after (init_database w) fresh_state in
  (exists g1 g254,
     result_of (discover_network_devices w) s = Ok tt /\
     st_devices (state_after (discover_network_devices w) s)
       = st_devices s ++ [g1; g254] /\
     (dev_ip g1 = "10.0.0.1" /\ dev_name g1 = "Gateway 1" /\
      dev_type g1 = Some "Router" /\ dev_status g1 = "online") /\
     (dev_ip g254 = "10.0.0.254" /\ dev_name g254 = "Gateway 254" /\
      dev_type g254 = Some "Router" /\ dev_status g254 = "online")) /\
  (exists d,
     st_devices (state_after (update_or_add_device w "10.0.0.100" None) s)
       = st_devices s ++ [d] /\
     dev_ip d = "10.0.0.100" /\
     dev_name d = "Device 100" /\
     dev_type d = Some "Network Device" /\
     dev_status d = "online" /\
     dev_latency d = None).
Proof.
  intros w s. destruct sweep_creates_gateways as [Hsweep Hname]. split.
  - apply (Hsweep w s
             [ ("lo", [ {| addr_family := AF_INET;
                           addr_address := "127.0.0.1";
                           addr_netmask := Some "255.0.0.0" |} ]);
               ("eth0", [ {| addr_family := AF_OTHER;
                             addr_address := "52:54:00:12:34:56";
                             addr_netmask := None |};
                          {| addr_family := AF_INET;
                             addr_address := "10.0.0.7";
                             addr_netmask := Some "255.255.255.0" |} ]) ]
             ["10.0.0"] "10.0.0"); reflexivity.
  - apply (Hname w s "10.0.0" "100" None); reflexivity.
Defined.

(** C6, the claim as stated fails: right after the first start, on the
    subnet 192.168.1 with only the hosts 1 and 254 answering, the sweep
    creates one device, not two. The address 192.168.1.1 is in the table
    as the sample 'Main Router'; it is updated and keeps its name. *)
Lemma sweep_known_gateway_not_created :
  let w := Sample.world (Sample.gateways_os "192.168.1") Sample.dead_sockets
             (Sample.one_interface "192.168.1.50") in
  let s := state_after (init_database w) fresh_state in
  let s' := state_after (discover_network_devices w) s in
  probe_fails w "192.168.1.1" 1 = false /\
  probe_fails w "192.168.1.254" 1 = false /\
  probe_fails w "192.168.1.100" 1 = true /\
  probe_fails w "192.168.1.101" 1 = true /\
  probe_fails w "192.168.1.102" 1 = true /\
  length (st_devices s) = 3%nat /\
  length (st_devices s') = 4%nat /\
  map dev_name (rows_of_ip "192.168.1.1" (st_devices s')) = ["Main Router"] /\
  map dev_name (st_devices s')
    = ["Main Router"; "Network Switch"; "WiFi Access Point"; "Gateway 254"].
Proof. vm_compute. repeat split; reflexivity. Qed.

(** ** The tiers of the on-demand metrics *)


Lemma try_except_ok {A} (m : M A) (h : exn -> M A) s a s1 :
  m s = (Ok a, s1) -> try_except m h s = (Ok a, s1).
Proof. intros H. unfold try_except. rewrite H. reflexivity. Qed.







(** What the handler serves from the statistics of the primary
    collector. *)
Lemma primary_tier_run collector s stats s1 :
  collector s = (Ok stats, s1) ->
  primary_tier collector s =
    (Ok {| hs_cpuUsage := ss_cpu_usage stats;
           hs_memoryUsage := ss_memory_usage stats;
           hs_diskUsage := ss_disk_usage stats;
           hs_uptime := ss_uptime_hours stats;
           hs_networkInterfaces := ss_interfaces stats;
           hs_source := "primary" |}, s1).
Proof. intros H. unfold primary_tier, bind. rewrite H. reflexivity. Qed.

(** The primary collector never raises, and what it logs is its own
    psutil calls and at most its own error line. *)
Lemma get_system_stats_run w s :
  exists stats s' l,
    get_system_stats w s = (Ok stats, s') /\
    st_log s' = st_log s ++ l /\
    (forall ev, In ev l -> ~ backup_call ev) /\
    match first_psutil_error w with
    | Some _ =>
        ss_cpu_usage stats = 0%Q /\ ss_memory_usage stats = 0%Q /\
        ss_disk_usage stats = 0%Q /\ ss_uptime_hours stats = 0%Q /\
        ss_interfaces stats = []
    | None => True
    end.
Proof.
  unfold get_system_stats, first_psutil_error. unfold_m.
  destruct (w_cpu_percent w) as [cpu|e]; cbn.
  - destruct (w_virtual_memory_percent w) as [mem|e]; cbn.
    + destruct (w_disk_usage_percent w "/") as [disk|e]; cbn.
      * destruct (w_net_if_addrs w) as [ifs|e]; cbn.
        -- destruct (w_boot_time w) as [boot|e]; cbn;
             (do 3 eexists; split; [reflexivity|]; cbn;
              rewrite <- ?app_assoc; split; [reflexivity|]; split; [|auto]);
             intros ev Hin; cbn in Hin; unfold backup_call;
             intuition (subst; discriminate).
        -- do 3 eexists; split; [reflexivity|]; cbn;
             rewrite <- ?app_assoc; split; [reflexivity|]; split; [|auto].
           intros ev Hin; cbn in Hin; unfold backup_call;
             intuition (subst; discriminate).
      * do 3 eexists; split; [reflexivity|]; cbn;
          rewrite <- ?app_assoc; split; [reflexivity|]; split; [|auto].
        intros ev Hin; cbn in Hin; unfold backup_call;
          intuition (subst; discriminate).
    + do 3 eexists; split; [reflexivity|]; cbn;
        rewrite <- ?app_assoc; split; [reflexivity|]; split; [|auto].
      intros ev Hin; cbn in Hin; unfold backup_call;
        intuition (subst; discriminate).
  - do 3 eexists; split; [reflexivity|]; cbn;
      rewrite <- ?app_assoc; split; [reflexivity|]; split; [|auto].
    intros ev Hin; cbn in Hin; unfold backup_call;
      intuition (subst; discriminate).
Qed.

(** C9. The primary collector never raises: when one of its psutil calls
    fails it returns zero for CPU, memory, disk and uptime and an empty
    list of interfaces. The on-demand endpoint serves what the collector
    returned under the source 'primary', and it does nothing more than the
    collector did: no call of the backup tier is made, whatever failed
    inside the primary collection. *)
Theorem primary_collector_never_raises (w : World) (s : State) :
  exists stats s' l,
    get_system_stats w s = (Ok stats, s') /\
    get_host_stats w s =
      (Ok {| hs_cpuUsage := ss_cpu_usage stats;
             hs_memoryUsage := ss_memory_usage stats;
             hs_diskUsage := ss_disk_usage stats;
             hs_uptime := ss_uptime_hours stats;
             hs_networkInterfaces := ss_interfaces stats;
             hs_source := "primary" |}, s') /\
    st_log s' = st_log s ++ l /\
    (forall ev, In ev l -> ~ backup_call ev) /\
    match first_psutil_error w with
    | Some _ =>
        ss_cpu_usage stats = 0%Q /\ ss_memory_usage stats = 0%Q /\
        ss_disk_usage stats = 0%Q /\ ss_uptime_hours stats = 0%Q /\
        ss_interfaces stats = []
    | None => True
    end.
Proof.
  destruct (get_system_stats_run w s) as (stats & s' & l & E & Hl & Hb & Hz).
  exists stats, s', l. split; [exact E|]. split; [|auto].
  unfold get_host_stats, get_host_stats_via.
  apply try_except_ok. apply primary_tier_run. exact E.
Qed.

(** Each tier is reached: the primary on a host where psutil works, the
    backup when the collector behind [monitor] raises, the failsafe when
    the backup module cannot be imported either, the minimal snapshot
    when not even [os] can. *)
Example host_stats_reaches_every_tier :
  let source w collector :=
    match result_of (get_host_stats_via collector w) fresh_state with
    | Ok body => hs_source body
    | Raise _ => "raised"
    end in
  let w0 := Sample.world (Sample.meminfo_os 100 40) Sample.dead_sockets
              Sample.healthy_psutil in
  let w2 := Sample.world (Sample.without_modules ["backup_monitor"])
              Sample.dead_sockets Sample.no_psutil in
  let w3 := Sample.world (Sample.without_modules ["backup_monitor"; "os"])
              Sample.dead_sockets Sample.no_psutil in
  source w0 (get_system_stats w0) = "primary" /\
  source w0 Sample.failing_collector = "backup" /\
  source w2 Sample.failing_collector = "failsafe" /\
  source w3 Sample.failing_collector = "minimal".
Proof. vm_compute. repeat split; reflexivity. Qed.

(** ** Percentages *)

Lemma round_half_even_bounds q a b :
  (inject_Z a <= q)%Q -> (q <= inject_Z b)%Q -> a <= round_half_even q <= b.
Proof.
  intros Ha Hb. unfold round_half_even.
  assert (Hfa : a <= Qfloor q).
  { rewrite <- (Qfloor_Z a). apply Qfloor_resp_le. exact Ha. }
  assert (Hfb : Qfloor q <= b).
  { rewrite <- (Qfloor_Z b). apply Qfloor_resp_le. exact Hb. }
  assert (Hup : (0 < q - inject_Z (Qfloor q))%Q -> Qfloor q + 1 <= b).
  { intros Hpos. assert (Hlt : (inject_Z (Qfloor q) < inject_Z b)%Q) by lra.
    rewrite <- Zlt_Qlt in Hlt. lia. }
  destruct (Qcompare_spec (q - inject_Z (Qfloor q)) (1 # 2)) as [He|Hl|Hg].
  - destruct (Z.even (Qfloor q)); [lia|].
    split; [lia|]. apply Hup. lra.
  - lia.
  - split; [lia|]. apply Hup. lra.
Qed.







Lemma yields_raise {A} (P : A -> Prop) e : yields P (raise e).
Proof. intros s a s' E. discriminate. Qed.






















(** * Further properties of the code *)

(** ** The prober and the ping tool *)


(** X2. When the ping utility cannot be run (not installed, timed out) and
    the target accepts a TCP connection on port 80, the probe answers
    success, with the time elapsed around the connect as latency. *)
Theorem tcp_connect_is_success (w : World) (target : string) (count : Z)
    (s : State) :
  ping_raises w target count = true ->
  w_tcp_connect_ex w target 80 = Ok 0 ->
  result_of (ping_host w target count) s
    = Ok (true, Some (elapsed_ms w (st_time_reads s))).
Proof.
  intros Hp Ht. destruct (ping_host_run w target count s) as (s' & _ & E).
  unfold result_of. rewrite E. cbn [fst]. f_equal.
  unfold ping_raises in Hp. destruct (ping_run w target count); [discriminate|].
  unfold socket_methods_fail. rewrite Ht. reflexivity.
Qed.

Lemma tcp_connect_is_success_witness :
  let w := Sample.world Sample.bare_os Sample.open_port_sockets
             Sample.no_psutil in
  result_of (ping_host w "10.0.0.9" 2) fresh_state
    = Ok (true, Some (elapsed_ms w 0)).
Proof.
  intro w. apply (tcp_connect_is_success w "10.0.0.9" 2 fresh_state);
    reflexivity.
Defined.

(** X3. When the ping utility cannot be run and the socket methods fail,
    a target whose name resolves is reported as reachable on that ground
    alone, with the time the resolution took as latency. *)
Theorem name_resolution_is_success (w : World) (target : string) (count : Z)
    (s : State) (address : string) :
  ping_raises w target count = true ->
  socket_methods_fail w target = true ->
  w_gethostbyname w target = Ok address ->
  result_of (ping_host w target count) s
    = Ok (true, Some (elapsed_ms w (1 + st_time_reads s))).
Proof.
  intros Hp Hs Hd. destruct (ping_host_run w target count s) as (s' & _ & E).
  unfold result_of. rewrite E. cbn [fst]. f_equal.
  unfold ping_raises in Hp. destruct (ping_run w target count); [discriminate|].
  rewrite Hs. unfold dns_fails. rewrite Hd. reflexivity.
Qed.

Lemma name_resolution_is_success_witness :
  let w := Sample.world Sample.bare_os Sample.dns_only_sockets
             Sample.no_psutil in
  result_of (ping_host w "switch.lan" 1) fresh_state
    = Ok (true, Some (elapsed_ms w 1)).
Proof.
  intro w.
  apply (name_resolution_is_success w "switch.lan" 1 fresh_state
           "203.0.113.7"); reflexivity.
Defined.

(** ** The device store *)

Lemma filter_others_marked ip latency now rows :
  List.filter (fun d => negb (has_ip ip d))
    (map (fun d => if has_ip ip d then mark_online latency now d else d) rows)
  = List.filter (fun d => negb (has_ip ip d)) rows.
Proof.
  induction rows as [|d rows IH]; [reflexivity|].
  cbn [map List.filter]. destruct (has_ip ip d) eqn:Hd.
  - change (has_ip ip (mark_online latency now d)) with (has_ip ip d).
    rewrite Hd. exact IH.
  - rewrite Hd. cbn [negb]. f_equal. exact IH.
Qed.

(** X4. An upsert never raises: the INSERT is reached only for an address
    the table does not hold, so the UNIQUE constraint cannot fail. It
    leaves every row of another address as it was and in its place, adds
    at most one row, and does not touch the table of nodes. *)
Theorem upsert_touches_one_address (w : World) (ip : string)
    (latency : option Q) (s : State) :
  let s' := state_after (update_or_add_device w ip latency) s in
  result_of (update_or_add_device w ip latency) s = Ok tt /\
  List.filter (fun d => negb (has_ip ip d)) (st_devices s')
    = List.filter (fun d => negb (has_ip ip d)) (st_devices s) /\
  (length (st_devices s) <= length (st_devices s') <= S (length (st_devices s)))%nat /\
  st_nodes s' = st_nodes s.
Proof.
  unfold state_after, result_of. rewrite update_or_add_device_run.
  cbn [fst snd]. unfold upserted.
  destruct (existsb (has_ip ip) (st_devices s)); cbn [st_devices st_nodes
    set_devices set_sql_reads].
  - split; [reflexivity|]. split; [apply filter_others_marked|].
    rewrite List.length_map. split; [lia|reflexivity].
  - split; [reflexivity|]. split.
    + rewrite List.filter_app. cbn [List.filter].
      rewrite has_ip_new_device. cbn [negb]. apply app_nil_r.
    + rewrite List.length_app. cbn [length]. split; [lia|reflexivity].
Qed.

Lemma keeps_table_ret P {A} (a : A) : keeps_table P (ret a).
Proof. intros s H. exact H. Qed.

Lemma keeps_table_bind P {A B} (m : M A) (k : A -> M B) :
  keeps_table P m -> (forall a, keeps_table P (k a)) -> keeps_table P (bind m k).
Proof.
  intros Hm Hk s H. unfold bind. specialize (Hm s H).
  destruct (m s) as [[a|e] s1]; cbn in *; [apply Hk|]; exact Hm.
Qed.

Lemma keeps_table_try P {A} (m : M A) (h : exn -> M A) :
  keeps_table P m -> (forall e, keeps_table P (h e)) ->
  keeps_table P (try_except m h).
Proof.
  intros Hm Hh s H. unfold try_except. specialize (Hm s H).
  destruct (m s) as [[a|e] s1]; cbn in *; [|apply Hh]; exact Hm.
Qed.

Lemma keeps_table_same_store P {A} (m : M A) :
  (forall s, same_store s (snd (m s))) -> keeps_table P m.
Proof. intros Hm s H. destruct (Hm s) as (-> & -> & _). exact H. Qed.

Lemma keeps_table_for_each P {A} (xs : list A) (body : A -> M unit) :
  (forall x, keeps_table P (body x)) -> keeps_table P (for_each xs body).
Proof.
  intros Hb. induction xs as [|x xs IH]; cbn [for_each].
  - apply keeps_table_ret.
  - apply keeps_table_bind; [apply Hb|intros _; exact IH].
Qed.

Lemma keeps_table_update_or_add_device (P : list Device -> Z -> Prop) w ip
    latency :
  (forall now rows seq,
     P rows seq ->
     P (fst (upserted ip latency now rows seq))
       (snd (upserted ip latency now rows seq))) ->
  keeps_table P (update_or_add_device w ip latency).
Proof.
  intros HP s H. rewrite update_or_add_device_run. cbn [snd].
  specialize (HP (w_sql_now w (st_sql_reads s)) _ _ H).
  destruct (upserted _ _ _ _ _) as [rows seq]. exact HP.
Qed.

(** The sweep keeps every property of the table and its counter that an
    upsert keeps. *)
Lemma keeps_table_discover (P : list Device -> Z -> Prop) w :
  (forall ip latency now rows seq,
     P rows seq ->
     P (fst (upserted ip latency now rows seq))
       (snd (upserted ip latency now rows seq))) ->
  keeps_table P (discover_network_devices w).
Proof.
  intros HP. unfold discover_network_devices.
  apply keeps_table_try; [|intros e; intros s H; exact H].
  apply keeps_table_bind; [intros s H; exact H|intros ifs].
  apply keeps_table_bind.
  { apply keeps_table_same_store. intros s. rewrite nets_of_interfaces_run.
    apply same_store_refl. }
  intros nets. apply keeps_table_for_each. intros subnet.
  apply keeps_table_for_each. intros octet. unfold probe_suffix.
  apply keeps_table_bind.
  { apply keeps_table_same_store. intros s.
    destruct (ping_host_run w (subnet +:+ "." +:+ PyStr.of_int octet) 1 s)
      as (s' & Hs & E).
    rewrite E. exact Hs. }
  intros [success latency]. destruct success; [|apply keeps_table_ret].
  apply keeps_table_update_or_add_device. intros; apply HP; assumption.
Qed.

(** A row appended with the next id and an address the table does not
    hold keeps the invariant. *)
Lemma table_ok_append rows seq d :
  table_ok rows seq -> existsb (has_ip (dev_ip d)) rows = false ->
  dev_id d = seq + 1 ->
  table_ok (rows ++ [d]) (seq + 1).
Proof.
  intros (Hu & Hi & Hb & Hs) Hex Hid. unfold table_ok, unique_ips.
  rewrite !List.map_app. cbn [map]. repeat split.
  - apply NoDup_app. split; [exact Hu|]. split; [|apply NoDup_singleton].
    intros x Hx Hx'. apply list_elem_of_In in Hx.
    apply list_elem_of_singleton in Hx'. subst x.
    apply List.in_map_iff in Hx as (d' & Hd & Hin).
    assert (existsb (has_ip (dev_ip d)) rows = true); [|congruence].
    apply List.existsb_exists. exists d'. split; [exact Hin|].
    apply has_ip_true. exact Hd.
  - apply NoDup_app. split; [exact Hi|]. split; [|apply NoDup_singleton].
    intros x Hx Hx'. apply list_elem_of_In in Hx.
    apply list_elem_of_singleton in Hx'. subst x.
    apply List.in_map_iff in Hx as (d' & Hd & Hin).
    rewrite List.Forall_forall in Hb. specialize (Hb d' Hin). lia.
  - apply List.Forall_app. split.
    + eapply List.Forall_impl; [|exact Hb]. cbn. intros a Ha. lia.
    + constructor; [lia|constructor].
  - lia.
Qed.

Lemma table_ok_upserted ip latency now rows seq :
  table_ok rows seq ->
  table_ok (fst (upserted ip latency now rows seq))
    (snd (upserted ip latency now rows seq)).
Proof.
  intros H. unfold upserted.
  destruct (existsb (has_ip ip) rows) eqn:Hex; cbn [fst snd].
  - destruct H as (Hu & Hi & Hb & Hs). unfold table_ok, unique_ips.
    rewrite map_dev_ip_marked.
    assert (E : map dev_id
                  (map (fun d => if has_ip ip d then mark_online latency now d
                                 else d) rows) = map dev_id rows).
    { rewrite List.map_map. apply List.map_ext. intros d.
      destruct (has_ip ip d); reflexivity. }
    rewrite E. repeat split; try assumption.
    apply List.Forall_map. eapply List.Forall_impl; [|exact Hb].
    intros d Hd. destruct (has_ip ip d); exact Hd.
  - apply table_ok_append; [exact H|exact Hex|reflexivity].
Qed.

Lemma keeps_table_insert_or_ignore w name ip mac type status latency :
  keeps_table table_ok (insert_device w true name ip mac type status latency).
Proof.
  intros s H. rewrite insert_or_ignore_run. cbn [snd].
  destruct (existsb (has_ip ip) (st_devices s)) eqn:Hex; [exact H|].
  cbn [st_devices st_devices_seq set_devices].
  apply table_ok_append; [exact H|exact Hex|reflexivity].
Qed.

Lemma keeps_table_init_database w : keeps_table table_ok (init_database w).
Proof.
  unfold init_database, add_sample_data. apply keeps_table_for_each.
  intros [[[[[name ip] mac] type] status] latency].
  apply keeps_table_insert_or_ignore.
Qed.

(** X5. Once the program has started, and whatever initialisations,
    upserts, sweeps and heartbeats have run since, the devices table holds
    no address twice and no id twice, and every id is positive and at most
    the AUTOINCREMENT counter, so the next insert gets an id that no row
    has. *)
Theorem started_table_ok (s : State) :
  started s -> table_ok (st_devices s) (st_devices_seq s).
Proof.
  induction 1 as [w|w s _ IH|w ip latency s _ IH|w s _ IH|w node data s _ IH].
  - apply (keeps_table_init_database w fresh_state).
    unfold table_ok, unique_ips. cbn.
    repeat split; try constructor; lia.
  - apply keeps_table_init_database. exact IH.
  - unfold state_after. revert IH.
    apply (keeps_table_update_or_add_device table_ok). intros.
    apply table_ok_upserted. assumption.
  - unfold state_after. revert IH.
    apply (keeps_table_discover table_ok). intros.
    apply table_ok_upserted. assumption.
  - exact IH.
Qed.

Lemma started_table_ok_witness :
  let w := Sample.world Sample.bare_os Sample.dead_sockets Sample.no_psutil in
  let s := state_after (update_or_add_device w "10.0.0.9" None)
             (state_after (init_database w) fresh_state) in
  table_ok (st_devices s) (st_devices_seq s).
Proof.
  intros w s. apply started_table_ok.
  apply started_upsert. apply started_first.
Defined.

Lemma evolved_refl d : evolved d d.
Proof. left. reflexivity. Qed.

Lemma evolved_trans a b c : evolved a b -> evolved b c -> evolved a c.
Proof.
  intros [->|(l1 & n1 & ->)] [->|(l2 & n2 & ->)].
  - left. reflexivity.
  - right. eauto.
  - right. eauto.
  - right. exists l2, n2. reflexivity.
Qed.

Lemma evolved_all_refl rows : Forall2 evolved rows rows.
Proof. induction rows; constructor; [apply evolved_refl|assumption]. Qed.

Lemma evolved_all_trans a b c :
  Forall2 evolved a b -> Forall2 evolved b c -> Forall2 evolved a c.
Proof.
  intros Hab. revert c. induction Hab as [|x y a b Hxy _ IH]; intros c Hbc.
  - inversion Hbc. constructor.
  - inversion Hbc as [|y' z b' c' Hyz Hbc' E1 E2]; subst.
    constructor; [eapply evolved_trans; eassumption|apply IH; assumption].
Qed.

Lemma grown_refl rows : grown rows rows.
Proof.
  exists rows, []. split; [symmetry; apply app_nil_r|apply evolved_all_refl].
Qed.

Lemma grown_trans a b c : grown a b -> grown b c -> grown a c.
Proof.
  intros (k1 & a1 & -> & H1) (k2 & a2 & -> & H2).
  apply List.Forall2_app_inv_l in H2 as (k & k' & Hk & Hk' & ->).
  exists k, (k' ++ a2). split; [symmetry; apply List.app_assoc|].
  eapply evolved_all_trans; eassumption.
Qed.

Lemma grown_upserted ip latency now rows seq :
  grown rows (fst (upserted ip latency now rows seq)).
Proof.
  unfold upserted. destruct (existsb (has_ip ip) rows); cbn [fst].
  - exists (map (fun d => if has_ip ip d then mark_online latency now d else d)
              rows), [].
    split; [symmetry; apply app_nil_r|].
    induction rows as [|d rows IH]; cbn [map]; constructor; [|exact IH].
    destruct (has_ip ip d); [right; eauto|left; reflexivity].
  - exists rows, [new_device (seq + 1) ip latency now].
    split; [reflexivity|apply evolved_all_refl].
Qed.

(** X6. A sweep never deletes a device and never reorders the table:
    every row it found is still there in its place, either as it was or
    marked online with a new latency and last-seen time (name, address,
    MAC address, type, id and creation time are kept), and the rows it
    creates come after them. No device is ever set offline by a sweep. *)
Theorem sweep_only_grows_table (w : World) (s : State) :
  grown (st_devices s) (st_devices (state_after (discover_network_devices w) s)).
Proof.
  unfold state_after.
  apply (keeps_discover (grown (st_devices s)) w); [|apply grown_refl].
  intros ip latency now rows seq H.
  eapply grown_trans; [exact H|apply grown_upserted].
Qed.

(** ** The listing of the devices *)

Lemma leb_total_false a b : String.leb a b = false -> String.leb b a = true.
Proof.
  intros H. destruct (String.leb_total a b) as [E|E]; [congruence|exact E].
Qed.

Lemma hd_insert_by_name a x l :
  name_le a x -> HdRel name_le a l -> HdRel name_le a (insert_by_name x l).
Proof.
  intros Hax Hl. destruct l as [|y l]; cbn [insert_by_name].
  - constructor. exact Hax.
  - destruct (String.leb (dev_name x) (dev_name y)); constructor;
      [exact Hax|inversion Hl; assumption].
Qed.

Lemma sorted_insert_by_name x l :
  Sorted name_le l -> Sorted name_le (insert_by_name x l).
Proof.
  induction 1 as [|y l Hl IH Hy]; cbn [insert_by_name].
  - repeat constructor.
  - destruct (String.leb (dev_name x) (dev_name y)) eqn:E.
    + constructor; [constructor; assumption|constructor; exact E].
    + constructor; [exact IH|].
      apply hd_insert_by_name; [apply leb_total_false; exact E|exact Hy].
Qed.

Lemma perm_insert_by_name x l : Permutation (x :: l) (insert_by_name x l).
Proof.
  induction l as [|y l IH]; cbn [insert_by_name]; [reflexivity|].
  destruct (String.leb (dev_name x) (dev_name y)); [reflexivity|].
  rewrite perm_swap. constructor. exact IH.
Qed.

(** X7. The device listing reads the table and changes nothing; it holds
    exactly the rows of the table, each as often as the table holds it,
    in the order of their names. *)
Theorem device_listing_sorted_by_name (s : State) :
  exists l,
    get_network_devices s = (Ok l, s) /\
    Sorted name_le l /\ Permutation (st_devices s) l.
Proof.
  exists (order_by_name (st_devices s)). split; [reflexivity|].
  unfold order_by_name. induction (st_devices s) as [|x l [IH1 IH2]];
    cbn [fold_right].
  - split; constructor.
  - split; [apply sorted_insert_by_name; exact IH1|].
    rewrite <- perm_insert_by_name. constructor. exact IH2.
Qed.

(** ** Sweeps that probe nothing *)

Lemma nets_of_addrs_loopback addrs :
  (forall a, In a addrs ->
     is_inet a = true -> PyStr.startswith "127." (addr_address a) = true) ->
  result_of (nets_of_addrs addrs) fresh_state = Ok [].
Proof.
  induction addrs as [|a addrs IH]; intros H; [reflexivity|].
  unfold result_of. cbn [nets_of_addrs].
  destruct (is_inet a) eqn:Ha; cbn [andb].
  - rewrite (H a (or_introl eq_refl) Ha). cbn [negb].
    apply IH. intros b Hb. apply H. right. exact Hb.
  - apply IH. intros b Hb. apply H. right. exact Hb.
Qed.

Lemma local_nets_of_loopback ifs :
  (forall name addrs a, In (name, addrs) ifs -> In a addrs ->
     is_inet a = true -> PyStr.startswith "127." (addr_address a) = true) ->
  local_nets_of ifs = Ok [].
Proof.
  unfold local_nets_of, result_of.
  induction ifs as [|[name addrs] ifs IH]; intros H; [reflexivity|].
  cbn [nets_of_interfaces]. unfold bind at 1.
  rewrite nets_of_addrs_run, nets_of_addrs_loopback.
  - unfold bind. 
    destruct (nets_of_interfaces ifs fresh_state) as [r s1] eqn:E.
    cbn [fst] in IH. rewrite IH; [reflexivity|].
    intros n l a Hin. apply (H n l a). right. exact Hin.
  - intros a Ha. apply (H name addrs a); [left; reflexivity|exact Ha].
Qed.

(** X8. A sweep never raises. When [psutil.net_if_addrs()] raises, or an
    IPv4 address that is not loopback has fewer than three components, the
    sweep ends before its first probe: it prints one line, `Network
    discovery error: ...`, and changes nothing else. On a host all of
    whose IPv4 addresses are loopback addresses it probes nothing and
    prints nothing. *)
Theorem sweep_without_subnets (w : World) (s : State) :
  result_of (discover_network_devices w) s = Ok tt /\
  (forall e, sweep_nets w = Raise e ->
     state_after (discover_network_devices w) s
       = logged ("Network discovery error: " +:+ exn_str e)
           (called "psutil.net_if_addrs" s)) /\
  (forall ifs, w_net_if_addrs w = Ok ifs ->
     (forall name addrs a, In (name, addrs) ifs -> In a addrs ->
        is_inet a = true -> PyStr.startswith "127." (addr_address a) = true) ->
     state_after (discover_network_devices w) s
       = called "psutil.net_if_addrs" s).
Proof.
  split; [|split].
  - unfold result_of, discover_network_devices, try_except.
    match goal with
    | |- fst (match ?m with _ => _ end) = _ => destruct m as [[[]|e] s1]
    end; reflexivity.
  - intros e He. unfold sweep_nets in He.
    unfold state_after, discover_network_devices, try_except, bind at 1, extern.
    destruct (w_net_if_addrs w) as [ifs|e'].
    + unfold bind at 1. rewrite nets_of_interfaces_run, He. reflexivity.
    + injection He as ->. reflexivity.
  - intros ifs Hifs Hlo.
    unfold state_after, discover_network_devices, try_except, bind at 1, extern.
    rewrite Hifs. unfold bind at 1.
    rewrite nets_of_interfaces_run, (local_nets_of_loopback ifs Hlo).
    reflexivity.
Qed.

Lemma sweep_without_subnets_witness :
  let w := Sample.world Sample.bare_os Sample.dead_sockets Sample.no_psutil in
  state_after (discover_network_devices w) fresh_state
    = logged "Network discovery error: forced failure"
        (called "psutil.net_if_addrs" fresh_state).
Proof.
  intros w.
  destruct (sweep_without_subnets w fresh_state) as (_ & H & _).
  apply (H (Exn "RuntimeError" "forced failure")). reflexivity.
Defined.

(** ** Initialisation *)

Ltac eval_eqb :=
  repeat match goal with
         | |- context [String.eqb ?a ?b] =>
             let v := eval vm_compute in (String.eqb a b) in
             change (String.eqb a b) with v
         end.

(** X9. Initialisation never raises, never changes or removes a row, and
    adds only sample rows, each for a sample address that the table did
    not hold: a device that a sweep created, or a sample row that a sweep
    has refreshed, is never overwritten by a restart. *)
Theorem init_database_only_adds (w : World) (s : State) :
  result_of (init_database w) s = Ok tt /\
  exists added,
    st_devices (state_after (init_database w) s) = st_devices s ++ added /\
    Forall (fun d =>
              existsb (has_ip (dev_ip d)) (st_devices s) = false /\
              exists smp, In smp sample_devices /\ is_sample smp d) added.
Proof.
  split; [apply init_database_ok|].
  unfold state_after, init_database, add_sample_data, sample_devices.
  cbn [for_each]. unfold bind.
  rewrite insert_or_ignore_run.
  destruct (existsb (has_ip "192.168.1.1") (st_devices s)) eqn:H1;
    rewrite insert_or_ignore_run;
    cbn [st_devices st_devices_seq st_sql_reads set_devices set_sql_reads];
    rewrite ?List.existsb_app; cbn [existsb has_ip dev_ip]; eval_eqb;
    cbn [orb]; rewrite ?orb_false_r;
    destruct (existsb (has_ip "192.168.1.2") (st_devices s)) eqn:H2;
    rewrite insert_or_ignore_run;
    cbn [st_devices st_devices_seq st_sql_reads set_devices set_sql_reads];
    rewrite ?List.existsb_app; cbn [existsb has_ip dev_ip]; eval_eqb;
    cbn [orb]; rewrite ?orb_false_r;
    destruct (existsb (has_ip "192.168.1.3") (st_devices s)) eqn:H3;
    cbn [snd st_devices set_devices set_sql_reads];
    rewrite <- ?List.app_assoc; cbn [app];
    eexists; (split; [try reflexivity; symmetry; apply app_nil_r|]);
    repeat constructor; cbn [dev_ip]; try assumption.
  all: first
         [ eexists; split;
           [left; reflexivity|cbn; repeat split; reflexivity]
         | eexists; split;
           [right; left; reflexivity|cbn; repeat split; reflexivity]
         | eexists; split;
           [right; right; left; reflexivity|cbn; repeat split; reflexivity] ].
Qed.

(** ** Registering and removing nodes *)

Lemma raspberry_pi_nodes_post_run w data s :
  raspberry_pi_nodes_post w data s =
    let name := default EmptyString (nr_name data) in
    let ip := default EmptyString (nr_ip_address data) in
    let location := default EmptyString (nr_location data) in
    if String.eqb name EmptyString || String.eqb ip EmptyString
    then (Ok node_fields_required, s)
    else if existsb (has_node_ip ip) (st_nodes s)
    then (Ok node_exists, set_sql_reads (S (st_sql_reads s)) s)
    else (Ok node_registered,
          set_nodes
            (st_nodes s ++
             [new_node (st_nodes_seq s + 1) name ip location
                (w_sql_now w (st_sql_reads s))])
            (st_nodes_seq s + 1)
            (set_sql_reads (S (st_sql_reads s)) s)).
Proof.
  unfold raspberry_pi_nodes_post. cbv zeta.
  destruct (_ || _); [reflexivity|].
  unfold insert_node. unfold_m. cbn.
  destruct (existsb _ (st_nodes s)); reflexivity.
Qed.

Lemma remove_raspberry_pi_node_run w node s :
  remove_raspberry_pi_node w node s =
    (Ok {| ans_status := 200; ans_success := true;
           ans_text := "Node removed successfully" |},
     set_nodes (List.filter (fun n => negb (id_matches w node n)) (st_nodes s))
       (st_nodes_seq s) s).
Proof. reflexivity. Qed.

Lemma has_node_ip_true ip n : has_node_ip ip n = true <-> node_ip n = ip.
Proof. unfold has_node_ip. apply String.eqb_eq. Qed.

(** X10. Registering an address a second time is refused: whatever the
    first registration answered, a second one with the same non-empty name
    and address answers 400, `Node with this IP address already exists`,
    and leaves the table of nodes as the first left it, in which some node
    has that address. *)
Theorem register_twice_is_refused (w1 w2 : World) (data : NodeRequest)
    (name ip : string) (s : State) :
  nr_name data = Some name -> nr_ip_address data = Some ip ->
  name <> EmptyString -> ip <> EmptyString ->
  let s1 := state_after (raspberry_pi_nodes_post w1 data) s in
  result_of (raspberry_pi_nodes_post w2 data) s1 = Ok node_exists /\
  st_nodes (state_after (raspberry_pi_nodes_post w2 data) s1) = st_nodes s1 /\
  st_nodes_seq (state_after (raspberry_pi_nodes_post w2 data) s1)
    = st_nodes_seq s1 /\
  existsb (has_node_ip ip) (st_nodes s1) = true.
Proof.
  intros Hn Hi Hne Hie s1.
  assert (Hreq : String.eqb name EmptyString || String.eqb ip EmptyString
                 = false).
  { apply orb_false_iff. split; apply String.eqb_neq; assumption. }
  assert (H1 : existsb (has_node_ip ip) (st_nodes s1) = true).
  { subst s1. unfold state_after. rewrite raspberry_pi_nodes_post_run.
    rewrite Hn, Hi. cbn [from_option id]. cbv zeta. rewrite Hreq.
    destruct (existsb (has_node_ip ip) (st_nodes s)) eqn:Hex; cbn [snd].
    - exact Hex.
    - cbn [st_nodes set_nodes]. rewrite List.existsb_app, Hex.
      cbn [existsb orb]. rewrite orb_false_r.
      apply has_node_ip_true. reflexivity. }
  unfold state_after, result_of.
  rewrite (raspberry_pi_nodes_post_run w2 data s1).
  rewrite Hn, Hi. cbn [from_option id]. cbv zeta. rewrite Hreq, H1.
  cbn [fst snd]. repeat split.
Qed.

Lemma register_twice_is_refused_witness :
  let w := Sample.world Sample.bare_os Sample.dead_sockets Sample.no_psutil in
  let data := {| nr_name := Some "pi-b"; nr_ip_address := Some "10.0.0.51";
                 nr_location := None |} in
  let s1 := state_after (raspberry_pi_nodes_post w data) one_node_state in
  result_of (raspberry_pi_nodes_post w data) s1 = Ok node_exists /\
  length (st_nodes (state_after (raspberry_pi_nodes_post w data) s1)) = 2%nat.
Proof.
  intros w data s1.
  destruct (register_twice_is_refused w w data "pi-b" "10.0.0.51"
              one_node_state eq_refl eq_refl) as (H1 & H2 & _);
    [discriminate|discriminate|].
  split; [exact H1|]. subst s1. rewrite H2. reflexivity.
Defined.



Lemma filter_filter_same {A} (f : A -> bool) (l : list A) :
  List.filter f (List.filter f l) = List.filter f l.
Proof.
  induction l as [|a l IH]; [reflexivity|]. cbn [List.filter].
  destruct (f a) eqn:E; [cbn [List.filter]; rewrite E; f_equal|]; exact IH.
Qed.

(** X12. Removal answers success for every node id, also one that matches
    no node. It deletes exactly the nodes the id matches and keeps the
    others as they were and in their order, and it does not touch the
    AUTOINCREMENT counter. A heartbeat that arrives for the removed id
    afterwards is still answered with success and stores nothing. *)
Theorem remove_node_then_heartbeat (w : World) (node : string)
    (data : gmap string json) (s : State) :
  let s1 := state_after (remove_raspberry_pi_node w node) s in
  let s2 := state_after (raspberry_pi_heartbeat w node data) s1 in
  (exists a, result_of (remove_raspberry_pi_node w node) s = Ok a /\
             ans_status a = 200 /\ ans_success a = true) /\
  st_nodes s1 = List.filter (fun n => negb (id_matches w node n)) (st_nodes s) /\
  st_nodes_seq s1 = st_nodes_seq s /\
  Forall (fun n => id_matches w node n = false) (st_nodes s1) /\
  result_of (raspberry_pi_heartbeat w node data) s1 = Ok heartbeat_received /\
  st_nodes s2 = st_nodes s1.
Proof.
  intros s1 s2.
  assert (Hf : Forall (fun n => id_matches w node n = false) (st_nodes s1)).
  { subst s1. unfold state_after. rewrite remove_raspberry_pi_node_run.
    cbn [snd st_nodes set_nodes]. apply List.Forall_forall. intros n Hn.
    apply List.filter_In in Hn as [_ Hn]. apply negb_true_iff. exact Hn. }
  split; [eexists; split; [reflexivity|split; reflexivity]|].
  repeat split; try reflexivity; try exact Hf.
  subst s2. unfold state_after at 1. rewrite raspberry_pi_heartbeat_run.
  cbn [snd st_nodes set_nodes]. apply map_unmatched.
  apply List.Forall_forall. exact Hf.
Qed.

(** What the node endpoints keep, from the table of nodes [rows0] with
    counter [seq0] on: the invariant of the table, a counter that never
    falls, and that a node with an id handed out by then is a node of
    [rows0]. *)
Lemma node_step_register rows0 seq0 w data s :
  (nodes_ok (st_nodes s) (st_nodes_seq s) /\ seq0 <= st_nodes_seq s /\
   forall n', In n' (st_nodes s) -> node_id n' <= seq0 ->
              exists n, In n rows0 /\ same_node n n') ->
  let s' := state_after (raspberry_pi_nodes_post w data) s in
  nodes_ok (st_nodes s') (st_nodes_seq s') /\ seq0 <= st_nodes_seq s' /\
  forall n', In n' (st_nodes s') -> node_id n' <= seq0 ->
             exists n, In n rows0 /\ same_node n n'.
Proof.
  intros (Hok & Hseq & Hold) s'. subst s'. unfold state_after.
  rewrite raspberry_pi_nodes_post_run. cbv zeta.
  destruct (_ || _); [auto|].
  destruct (existsb _ (st_nodes s)) eqn:Hex; [auto|].
  cbn [snd st_nodes st_nodes_seq set_nodes].
  destruct Hok as (Hu & Hi & Hb & Hs).
  split; [|split; [lia|]].
  - unfold nodes_ok. rewrite !List.map_app. cbn [map new_node node_ip node_id].
    split; [|split; [|split; [|lia]]].
    + apply NoDup_app. split; [exact Hu|]. split; [|apply NoDup_singleton].
      intros x Hx Hx'. apply list_elem_of_In in Hx.
      apply list_elem_of_singleton in Hx'. subst x.
      apply List.in_map_iff in Hx as (d' & Hd & Hin).
      assert (existsb (has_node_ip
                         (default EmptyString (nr_ip_address data)))
                (st_nodes s) = true); [|congruence].
      apply List.existsb_exists. exists d'. split; [exact Hin|].
      apply has_node_ip_true. exact Hd.
    + apply NoDup_app. split; [exact Hi|]. split; [|apply NoDup_singleton].
      intros x Hx Hx'. apply list_elem_of_In in Hx.
      apply list_elem_of_singleton in Hx'. subst x.
      apply List.in_map_iff in Hx as (d' & Hd & Hin).
      rewrite List.Forall_forall in Hb. specialize (Hb d' Hin). lia.
    + apply List.Forall_app. split.
      * eapply List.Forall_impl; [|exact Hb]. cbn. intros a Ha. lia.
      * constructor; [cbn; lia|constructor].
  - intros n' Hin Hle. apply List.in_app_or in Hin as [Hin|[<-|[]]].
    + apply Hold; assumption.
    + cbn [node_id new_node] in Hle. lia.
Qed.

Lemma nodup_map_filter {A B} (f : A -> B) (p : A -> bool) (l : list A) :
  NoDup (map f l) -> NoDup (map f (List.filter p l)).
Proof.
  induction l as [|a l IH]; cbn [map List.filter]; [auto|].
  intros H. apply NoDup_cons in H as [Ha Hl].
  destruct (p a); [|apply IH; exact Hl].
  cbn [map]. apply NoDup_cons. split; [|apply IH; exact Hl].
  intros Hin. apply Ha. apply list_elem_of_In in Hin.
  apply list_elem_of_In.
  apply List.in_map_iff in Hin as (b & Hb & Hin).
  apply List.filter_In in Hin as [Hin _].
  apply List.in_map_iff. exists b. auto.
Qed.

Lemma node_step_remove rows0 seq0 w node s :
  (nodes_ok (st_nodes s) (st_nodes_seq s) /\ seq0 <= st_nodes_seq s /\
   forall n', In n' (st_nodes s) -> node_id n' <= seq0 ->
              exists n, In n rows0 /\ same_node n n') ->
  let s' := state_after (remove_raspberry_pi_node w node) s in
  nodes_ok (st_nodes s') (st_nodes_seq s') /\ seq0 <= st_nodes_seq s' /\
  forall n', In n' (st_nodes s') -> node_id n' <= seq0 ->
             exists n, In n rows0 /\ same_node n n'.
Proof.
  intros ((Hu & Hi & Hb & Hs) & Hseq & Hold) s'. subst s'.
  unfold state_after. rewrite remove_raspberry_pi_node_run.
  cbn [snd st_nodes st_nodes_seq set_nodes].
  split; [|split; [exact Hseq|]].
  - unfold nodes_ok.
    split; [apply nodup_map_filter; exact Hu|].
    split; [apply nodup_map_filter; exact Hi|].
    split; [|exact Hs].
    apply List.Forall_forall. intros n Hn.
    apply List.filter_In in Hn as [Hn _].
    rewrite List.Forall_forall in Hb. apply Hb. exact Hn.
  - intros n' Hin Hle. apply List.filter_In in Hin as [Hin _].
    apply Hold; assumption.
Qed.

Lemma node_step_heartbeat rows0 seq0 w node data s :
  (nodes_ok (st_nodes s) (st_nodes_seq s) /\ seq0 <= st_nodes_seq s /\
   forall n', In n' (st_nodes s) -> node_id n' <= seq0 ->
              exists n, In n rows0 /\ same_node n n') ->
  let s' := state_after (raspberry_pi_heartbeat w node data) s in
  nodes_ok (st_nodes s') (st_nodes_seq s') /\ seq0 <= st_nodes_seq s' /\
  forall n', In n' (st_nodes s') -> node_id n' <= seq0 ->
             exists n, In n rows0 /\ same_node n n'.
Proof.
  intros ((Hu & Hi & Hb & Hs) & Hseq & Hold) s'. subst s'.
  unfold state_after. rewrite raspberry_pi_heartbeat_run.
  cbn [snd st_nodes st_nodes_seq set_nodes].
  set (f := fun n => if id_matches w node n
                     then stamp_heartbeat (w_sql_now w (st_sql_reads s))
                            (heartbeat_stats w data) n
                     else n).
  assert (Eip : map node_ip (map f (st_nodes s)) = map node_ip (st_nodes s)).
  { rewrite List.map_map. apply List.map_ext. intros n. unfold f.
    destruct (id_matches w node n); reflexivity. }
  assert (Eid : map node_id (map f (st_nodes s)) = map node_id (st_nodes s)).
  { rewrite List.map_map. apply List.map_ext. intros n. unfold f.
    destruct (id_matches w node n); reflexivity. }
  split; [|split; [exact Hseq|]].
  - unfold nodes_ok. rewrite Eip, Eid.
    split; [exact Hu|]. split; [exact Hi|]. split; [|exact Hs].
    apply List.Forall_map. eapply List.Forall_impl; [|exact Hb].
    intros n Hn. unfold f. destruct (id_matches w node n); exact Hn.
  - intros n' Hin Hle. apply List.in_map_iff in Hin as (n0 & <- & Hin).
    assert (Hsame : same_node n0 (f n0)).
    { unfold f, same_node. destruct (id_matches w node n0); cbn; tauto. }
    destruct (Hold n0 Hin) as (n & Hn & Hnn).
    + destruct Hsame as (<- & _). exact Hle.
    + exists n. split; [exact Hn|].
      unfold same_node in *. intuition congruence.
Qed.

(** X13. Whatever registrations, removals and heartbeats are served, the
    table of nodes holds no address twice and no id twice, and an id is
    never given to a second node: a node whose id had been handed out
    before these requests is the node that was registered under that id
    then (same name, address, location and creation time), also when
    nodes have been removed in between; every node registered since has a
    greater id. *)
Theorem node_ids_never_reused (s s' : State) :
  nodes_ok (st_nodes s) (st_nodes_seq s) ->
  node_requests s s' ->
  nodes_ok (st_nodes s') (st_nodes_seq s') /\
  st_nodes_seq s <= st_nodes_seq s' /\
  forall n', In n' (st_nodes s') -> node_id n' <= st_nodes_seq s ->
             exists n, In n (st_nodes s) /\ same_node n n'.
Proof.
  intros Hok Hreq.
  induction Hreq as [|w data s1 _ IH|w node s1 _ IH|w node data s1 _ IH].
  - split; [exact Hok|]. split; [lia|].
    intros n' Hin _. exists n'. split; [exact Hin|].
    unfold same_node. tauto.
  - apply node_step_register. exact IH.
  - apply node_step_remove. exact IH.
  - apply node_step_heartbeat. exact IH.
Qed.

Lemma node_ids_never_reused_witness :
  let w := Sample.world Sample.bare_os Sample.dead_sockets Sample.no_psutil in
  let req := {| nr_name := Some "pi-b"; nr_ip_address := Some "10.0.0.50";
                nr_location := None |} in
  let s' := state_after (raspberry_pi_nodes_post w req)
              (state_after (remove_raspberry_pi_node w "1") one_node_state) in
  map node_id (st_nodes s') = [2] /\
  forall n', In n' (st_nodes s') -> node_id n' <= 1 ->
             exists n, In n (st_nodes one_node_state) /\ same_node n n'.
Proof.
  intros w req s'. split; [reflexivity|].
  assert (Hok : nodes_ok (st_nodes one_node_state)
                  (st_nodes_seq one_node_state)).
  { unfold nodes_ok. cbn.
    split; [apply NoDup_singleton|]. split; [apply NoDup_singleton|].
    split; [constructor; [cbn; lia|constructor]|lia]. }
  apply (node_ids_never_reused one_node_state s' Hok).
  apply requests_register. apply requests_remove. apply requests_none.
Defined.

(** ** The interfaces of the primary collector *)

Lemma in_list_interfaces i ifs :
  In i (list_interfaces ifs) ->
  PyStr.startswith "lo" (if_name i) = false /\
  exists addrs a,
    In (if_name i, addrs) ifs /\ List.find is_inet addrs = Some a /\
    if_ip i = addr_address a /\ if_netmask i = addr_netmask a.
Proof.
  unfold list_interfaces. intros H.
  apply List.in_flat_map in H as ([name addrs] & Hin & Hi).
  destruct (PyStr.startswith "lo" name) eqn:Hlo; [destruct Hi|].
  unfold first_inet in Hi. destruct (List.find is_inet addrs) as [a|] eqn:Hf;
    [|destruct Hi].
  destruct Hi as [<-|[]]. cbn [if_name if_ip if_netmask].
  split; [exact Hlo|]. exists addrs, a. auto.
Qed.

Lemma length_list_interfaces ifs :
  (length (list_interfaces ifs) <= length ifs)%nat.
Proof.
  unfold list_interfaces. induction ifs as [|[name addrs] ifs IH];
    cbn [flat_map length]; [lia|].
  rewrite List.length_app.
  assert (length (if PyStr.startswith "lo" name then []
                  else first_inet name addrs) <= 1)%nat; [|lia].
  destruct (PyStr.startswith "lo" name); [cbn; lia|].
  unfold first_inet. destruct (List.find is_inet addrs); cbn; lia.
Qed.

(** X14. The interfaces of a snapshot of the primary collector: none has
    a name that starts with `lo`; each is an interface that psutil
    reports, listed with the first of its IPv4 addresses and the netmask
    of that address; an interface takes at most one entry, and one without
    IPv4 address takes none. When a psutil call raises, the list is
    empty. *)
Theorem primary_interfaces_listed (w : World) (s : State) :
  exists stats s',
    get_system_stats w s = (Ok stats, s') /\
    (forall i, In i (ss_interfaces stats) ->
       PyStr.startswith "lo" (if_name i) = false /\
       exists ifs addrs a,
         w_net_if_addrs w = Ok ifs /\ In (if_name i, addrs) ifs /\
         List.find is_inet addrs = Some a /\ is_inet a = true /\
         if_ip i = addr_address a /\ if_netmask i = addr_netmask a) /\
    (forall ifs, w_net_if_addrs w = Ok ifs ->
       (length (ss_interfaces stats) <= length ifs)%nat) /\
    (first_psutil_error w <> None -> ss_interfaces stats = []).
Proof.
  assert (Hin : forall ifs i, w_net_if_addrs w = Ok ifs ->
            In i (list_interfaces ifs) ->
            PyStr.startswith "lo" (if_name i) = false /\
            exists ifs addrs a,
              w_net_if_addrs w = Ok ifs /\ In (if_name i, addrs) ifs /\
              List.find is_inet addrs = Some a /\ is_inet a = true /\
              if_ip i = addr_address a /\ if_netmask i = addr_netmask a).
  { intros ifs i Hifs Hi.
    destruct (in_list_interfaces i ifs Hi) as (Hlo & addrs & a & H1 & H2 & H3).
    split; [exact Hlo|]. exists ifs, addrs, a.
    repeat split; try tauto.
    apply List.find_some in H2. tauto. }
  unfold get_system_stats, first_psutil_error. unfold_m.
  destruct (w_cpu_percent w) as [cpu|e]; cbn.
  2: { do 2 eexists. split; [reflexivity|]. cbn.
       split; [tauto|]. split; [intros; lia|reflexivity]. }
  destruct (w_virtual_memory_percent w) as [mem|e]; cbn.
  2: { do 2 eexists. split; [reflexivity|]. cbn.
       split; [tauto|]. split; [intros; lia|reflexivity]. }
  destruct (w_disk_usage_percent w "/") as [disk|e]; cbn.
  2: { do 2 eexists. split; [reflexivity|]. cbn.
       split; [tauto|]. split; [intros; lia|reflexivity]. }
  destruct (w_net_if_addrs w) as [ifs|e] eqn:Hifs; cbn.
  2: { do 2 eexists. split; [reflexivity|]. cbn.
       split; [tauto|]. split; [intros; lia|reflexivity]. }
  destruct (w_boot_time w) as [boot|e]; cbn.
  2: { do 2 eexists. split; [reflexivity|]. cbn.
       split; [tauto|]. split; [intros; lia|reflexivity]. }
  do 2 eexists. split; [reflexivity|]. cbn [ss_interfaces].
  split; [intros i Hi; apply (Hin ifs i eq_refl Hi)|].
  split; [|congruence].
  intros ifs' E. injection E as <-. apply length_list_interfaces.
Qed.

(** ** The backup collector *)

Lemma lstrip_head s :
  PyStr.lstrip s = EmptyString \/
  exists c t, PyStr.lstrip s = String c t /\ PyStr.isspace c = false.
Proof.
  induction s as [|c s IH]; [left; reflexivity|].
  cbn [PyStr.lstrip]. destruct (PyStr.isspace c) eqn:Hc; [exact IH|].
  right. exists c, s. auto.
Qed.

Lemma lstrip_keeps_last u c :
  PyStr.isspace c = false ->
  exists v, PyStr.lstrip (u +:+ String c EmptyString) = v +:+ String c EmptyString.
Proof.
  intros Hc. induction u as [|a u IH].
  - exists EmptyString. rewrite !append_nil_l. cbn [PyStr.lstrip].
    rewrite Hc. reflexivity.
  - rewrite append_cons. cbn [PyStr.lstrip].
    destruct (PyStr.isspace a); [exact IH|].
    exists (String a u). rewrite append_cons. reflexivity.
Qed.

(** What [strip] returns is empty or starts with a character that is not
    white space. *)
Lemma strip_head s :
  PyStr.strip s = EmptyString \/
  exists c t, PyStr.strip s = String c t /\ PyStr.isspace c = false.
Proof.
  unfold PyStr.strip, PyStr.rstrip.
  destruct (lstrip_head s) as [->|(c & t & -> & Hc)]; [left; reflexivity|].
  right. rewrite rev_cons.
  destruct (lstrip_keeps_last (String.rev t) c Hc) as [v ->].
  rewrite rev_append. exists c, (String.rev v). split; [reflexivity|exact Hc].
Qed.

(** A line of [ip addr show] never adds an interface: once stripped, a
    line that is not empty does not start with a space, so it is read as
    the line of a new interface. *)
Lemma ip_addr_line_run cur ifs raw s :
  exists cur', ip_addr_line (cur, ifs) raw s = (Ok (cur', ifs), s).
Proof.
  unfold ip_addr_line.
  destruct (strip_head raw) as [->|(c & t & -> & Hc)].
  - exists cur. reflexivity.
  - assert (Hsp : PyStr.startswith " " (String c t) = false).
    { unfold PyStr.startswith. cbn [String.prefix].
      destruct (ascii_dec " " c) as [<-|_]; [discriminate Hc|reflexivity]. }
    rewrite Hsp. cbn [String.eqb negb andb].
    destruct (PyStr.split_ws (String c t)) as [|p0 [|p1 parts]];
      [exists cur; reflexivity|exists cur; reflexivity|].
    cbn [length Nat.leb]. unfold index, bind. cbn [nth_error].
    unfold ret.
    destruct (negb (PyStr.rstrip_char ":" p1 =? "lo")%string);
      eexists; reflexivity.
Qed.

Lemma ip_addr_lines_run lines cur ifs s :
  exists cur', fold_m ip_addr_line lines (cur, ifs) s = (Ok (cur', ifs), s).
Proof.
  revert cur. induction lines as [|l lines IH]; intros cur.
  - exists cur. reflexivity.
  - cbn [fold_m]. unfold bind.
    destruct (ip_addr_line_run cur ifs l s) as [cur1 ->]. apply IH.
Qed.

(** X15. The interfaces of the backup collector. Off Linux the list is
    empty and no command is run. On Linux, when `ip addr show` runs, the
    list is empty whatever the command prints: every line is stripped
    before it is looked at, so an address line is never recognised. When
    `ip` and `ifconfig` both raise, the list is the one entry eth0 with
    127.0.0.1, after one printed line. *)
Theorem backup_interfaces_by_platform (w : World) (s : State) :
  (is_linux w = false -> get_network_interfaces_basic w s = (Ok [], s)) /\
  (is_linux w = true ->
   forall result, w_subprocess_run w ["ip"; "addr"; "show"] = Ok result ->
     get_network_interfaces_basic w s = (Ok [], called "subprocess.run" s)) /\
  (is_linux w = true ->
   forall e1 e2,
     w_subprocess_run w ["ip"; "addr"; "show"] = Raise e1 ->
     w_subprocess_run w ["ifconfig"] = Raise e2 ->
     get_network_interfaces_basic w s =
       (Ok [ {| if_name := "eth0"; if_ip := "127.0.0.1";
                if_netmask := Some "255.0.0.0" |} ],
        logged ("Network interfaces error: " +:+ exn_str e2)
          (called "subprocess.run" (called "subprocess.run" s)))).
Proof.
  unfold get_network_interfaces_basic. split; [|split].
  - intros ->. reflexivity.
  - intros -> result Hrun.
    unfold try_except, bind at 1, extern. rewrite Hrun.
    unfold bind.
    destruct (ip_addr_lines_run (PyStr.split PyStr.nl (stdout result)) None []
                (set_log (st_log s ++ [Called "subprocess.run"]) s))
      as [cur ->].
    reflexivity.
  - intros -> e1 e2 H1 H2.
    unfold try_except, bind, extern, print, emit. rewrite H1, H2.
    cbn. unfold logged, called. cbn. reflexivity.
Qed.

Lemma backup_interfaces_by_platform_witness :
  let w := Sample.world Sample.ip_addr_os Sample.dead_sockets
             Sample.no_psutil in
  result_of (get_network_interfaces_basic w) fresh_state = Ok [].
Proof.
  intros w.
  destruct (backup_interfaces_by_platform w fresh_state) as (_ & H & _).
  unfold result_of. rewrite (H eq_refl _ eq_refl). reflexivity.
Defined.

Lemma never_raises_ret {A} (a : A) : never_raises (ret a).
Proof. intros s. exists a, s. reflexivity. Qed.

Lemma never_raises_bind {A B} (m : M A) (k : A -> M B) :
  never_raises m -> (forall a, never_raises (k a)) -> never_raises (bind m k).
Proof.
  intros Hm Hk s. unfold bind. destruct (Hm s) as (a & s1 & ->). apply Hk.
Qed.

Lemma never_raises_try {A} (m : M A) (h : exn -> M A) :
  (forall e, never_raises (h e)) -> never_raises (try_except m h).
Proof.
  intros Hh s. unfold try_except. destruct (m s) as [[a|e] s1].
  - exists a, s1. reflexivity.
  - apply Hh.
Qed.

Lemma never_raises_print line : never_raises (print line).
Proof. intros s. eexists _, _. reflexivity. Qed.

Lemma never_raises_now w : never_raises (datetime_now_isoformat w).
Proof. intros s. eexists _, _. reflexivity. Qed.

Lemma never_raises_collect w : never_raises (collect_system_stats w).
Proof.
  unfold collect_system_stats. apply never_raises_try. intros e.
  apply never_raises_bind; [apply never_raises_print|intros _].
  apply never_raises_bind; [apply never_raises_now|intros t].
  apply never_raises_ret.
Qed.

Lemma never_raises_store w stats : never_raises (store_backup_data w stats).
Proof.
  unfold store_backup_data. apply never_raises_try. intros e.
  apply never_raises_print.
Qed.

Lemma never_raises_cycle w : never_raises (run_monitoring_cycle w).
Proof.
  unfold run_monitoring_cycle.
  apply never_raises_bind; [apply never_raises_collect|intros stats].
  apply never_raises_bind; [apply never_raises_store|intros _].
  apply never_raises_ret.
Qed.

(** X16. No method of the backup collector raises, whatever the host
    does: each of the five readings, the collection of all of them, the
    storing of a snapshot and a whole monitoring cycle return in every
    state, also when files cannot be opened, commands are missing, their
    output does not parse or the backup database cannot be opened. *)
Theorem backup_collector_never_raises (w : World) :
  never_raises (get_cpu_usage_basic w) /\
  never_raises (get_memory_usage_basic w) /\
  never_raises (get_disk_usage_basic w) /\
  never_raises (get_network_interfaces_basic w) /\
  never_raises (get_system_uptime_basic w) /\
  never_raises (collect_system_stats w) /\
  (forall stats, never_raises (store_backup_data w stats)) /\
  never_raises (run_monitoring_cycle w).
Proof.
  repeat split.
  - unfold get_cpu_usage_basic. apply never_raises_bind.
    + apply never_raises_try. intros e.
      apply never_raises_bind; [apply never_raises_print|intros _].
      apply never_raises_ret.
    + intros [x|]; apply never_raises_ret.
  - unfold get_memory_usage_basic. apply never_raises_bind.
    + apply never_raises_try. intros e.
      apply never_raises_bind; [apply never_raises_print|intros _].
      apply never_raises_ret.
    + intros [x|]; apply never_raises_ret.
  - unfold get_disk_usage_basic. apply never_raises_bind.
    + apply never_raises_try. intros e.
      apply never_raises_bind; [apply never_raises_print|intros _].
      apply never_raises_ret.
    + intros [x|]; apply never_raises_ret.
  - unfold get_network_interfaces_basic. apply never_raises_try. intros e.
    apply never_raises_bind; [apply never_raises_print|intros _].
    apply never_raises_ret.
  - unfold get_system_uptime_basic. apply never_raises_try. intros e.
    apply never_raises_bind; [apply never_raises_print|intros _].
    apply never_raises_ret.
  - apply never_raises_collect.
  - apply never_raises_store.
  - apply never_raises_cycle.
Qed.

Lemma read_meminfo_malformed w factor lines meminfo s :
  Exists (fun line => length (PyStr.split ":" line) <> 2%nat) lines ->
  exists e, read_meminfo w factor lines meminfo s = (Raise e, s).
Proof.
  intros H. revert meminfo.
  induction lines as [|line lines IH]; intros meminfo;
    [inversion H|].
  cbn [read_meminfo].
  destruct (PyStr.split ":" line) as [|key [|value [|x l]]] eqn:E;
    try (eexists; reflexivity).
  apply List.Exists_cons in H as [H|H]; [rewrite E in H; cbn in H; lia|].
  unfold bind, index, int_.
  destruct (nth_error (PyStr.split_ws value) 0) as [field|];
    [|eexists; reflexivity].
  unfold ret at 1.
  destruct (py_int w field) as [n|]; [|eexists; reflexivity].
  unfold ret at 1. apply IH. exact H.
Qed.

(** X17. One line of /proc/meminfo that does not hold exactly one colon
    costs the whole reading: on Linux the backup collector then reports
    the memory as total 0, used 0 and 0 percent, after one printed line,
    and the failsafe tier reports its default of 50 percent, whatever the
    other lines say. The same holds when the file cannot be opened. *)
Theorem meminfo_malformed_line_discards_reading (w : World) (s : State) :
  is_linux w = true ->
  match w_open w "/proc/meminfo" with
  | Ok lines =>
      Exists (fun line => length (PyStr.split ":" line) <> 2%nat) lines
  | Raise _ => True
  end ->
  (exists e,
     get_memory_usage_basic w s =
       (Ok no_usage,
        logged ("Memory usage error: " +:+ exn_str e) (called "open" s))) /\
  result_of (failsafe_memory_usage w) s = Ok 50%Q.
Proof.
  intros Hlinux Hbad.
  unfold get_memory_usage_basic, failsafe_memory_usage, result_of.
  rewrite Hlinux. cbn [andb].
  unfold try_except, bind at 1 2, extern, print, emit.
  destruct (w_open w "/proc/meminfo") as [lines|e].
  - split.
    + unfold bind at 1.
      destruct (read_meminfo_malformed w 1024 lines ∅
                  (set_log (st_log s ++ [Called "open"]) s) Hbad) as [e ->].
      exists e. reflexivity.
    + destruct (w_path_exists w "/proc/meminfo"); [|reflexivity].
      unfold bind at 1. unfold bind at 1.
      destruct (read_meminfo_malformed w 1 lines ∅
                  (set_log (st_log s ++ [Called "open"]) s) Hbad) as [e ->].
      reflexivity.
  - split; [exists e; reflexivity|].
    destruct (w_path_exists w "/proc/meminfo"); reflexivity.
Qed.

Lemma meminfo_malformed_line_discards_reading_witness :
  let os :=
    {| os_platform_system := "Linux";
       os_subprocess_run := os_subprocess_run Sample.bare_os;
       os_open := fun _ =>
         Ok [ "MemTotal:       16384 kB"; "MemAvailable:    8192 kB";
              "Node 0, zone: DMA: 3" ];
       os_path_exists := fun _ => true;
       os_statvfs := os_statvfs Sample.bare_os;
       os_import := os_import Sample.bare_os;
       os_sqlite_connect := os_sqlite_connect Sample.bare_os;
       os_write_json := os_write_json Sample.bare_os |} in
  let w := Sample.world os Sample.dead_sockets Sample.no_psutil in
  result_of (get_memory_usage_basic w) fresh_state = Ok no_usage /\
  result_of (failsafe_memory_usage w) fresh_state = Ok 50%Q.
Proof.
  intros os w.
  destruct (meminfo_malformed_line_discards_reading w fresh_state eq_refl)
    as ((e & H1) & H2).
  - cbn. do 2 apply List.Exists_cons_tl. apply List.Exists_cons_hd.
    vm_compute. discriminate.
  - unfold result_of at 1. rewrite H1. split; [reflexivity|exact H2].
Defined.

(** ** The tiers of the host statistics *)

Lemma backup_tier_run w s :
  match w_import w "backup_monitor" with
  | Raise e => backup_tier w s = (Raise e, called "import backup_monitor" s)
  | Ok _ =>
      match w_sqlite_connect w "backup_monitor.db" with
      | Raise e =>
          backup_tier w s =
            (Raise e,
             called "sqlite3.connect" (called "import backup_monitor" s))
      | Ok _ =>
          exists hs s', backup_tier w s = (Ok hs, s') /\
                        hs_source hs = "backup"
      end
  end.
Proof.
  unfold backup_tier, BackupMonitor_init, bind at 1, extern at 1.
  destruct (w_import w "backup_monitor") as [[]|e]; [|reflexivity].
  unfold bind at 1, extern at 1.
  destruct (w_sqlite_connect w "backup_monitor.db") as [[]|e]; [|reflexivity].
  unfold bind.
  destruct (never_raises_cycle w
              (set_log
                 (st_log (set_log (st_log s ++ [Called "import backup_monitor"]) s)
                  ++ [Called "sqlite3.connect"])
                 (set_log (st_log s ++ [Called "import backup_monitor"]) s)))
    as (b & s' & ->).
  eexists _, _. split; reflexivity.
Qed.

Lemma never_raises_failsafe_memory w : never_raises (failsafe_memory_usage w).
Proof.
  unfold failsafe_memory_usage. apply never_raises_try. intros e.
  apply never_raises_ret.
Qed.

Lemma never_raises_failsafe_disk w : never_raises (failsafe_disk_usage w).
Proof.
  unfold failsafe_disk_usage. apply never_raises_try. intros e.
  apply never_raises_ret.
Qed.

Lemma failsafe_tier_run w s :
  match w_import w "os" with
  | Raise e => failsafe_tier w s = (Raise e, called "import os" s)
  | Ok _ =>
      match w_import w "platform" with
      | Raise e =>
          failsafe_tier w s =
            (Raise e, called "import platform" (called "import os" s))
      | Ok _ =>
          exists memory disk s',
            failsafe_tier w s =
              (Ok {| hs_cpuUsage := 25; hs_memoryUsage := memory;
                     hs_diskUsage := disk; hs_uptime := 1;
                     hs_networkInterfaces :=
                       [ {| if_name := "eth0"; if_ip := "127.0.0.1";
                            if_netmask := Some "255.0.0.0" |} ];
                     hs_source := "failsafe" |}, s')
      end
  end.
Proof.
  unfold failsafe_tier, bind at 1, extern at 1.
  destruct (w_import w "os") as [[]|e]; [|reflexivity].
  unfold bind at 1, extern at 1.
  destruct (w_import w "platform") as [[]|e]; [|reflexivity].
  cbv zeta. unfold bind.
  match goal with
  | |- context [failsafe_memory_usage w ?s0] =>
      destruct (never_raises_failsafe_memory w s0) as (m & s1 & ->)
  end.
  destruct (never_raises_failsafe_disk w s1) as (d & s2 & ->).
  eexists _, _, _. reflexivity.
Qed.

(** X18. For any method standing behind the primary collector, the
    answer of the host statistics is the minimal one, all zeros, exactly
    when the collector raises, the backup tier fails at its start (the
    import of the backup module or the opening of its database raises)
    and the failsafe tier fails at one of its two imports. No failure of
    a reading leads to it: a backup or failsafe tier that gets past its
    start always answers. *)
Theorem minimal_answer_iff (collector : M SystemStats) (w : World)
    (s : State) :
  result_of (get_host_stats_via collector w) s = Ok minimal_stats <->
  (exists e, result_of collector s = Raise e) /\
  (w_import w "backup_monitor" = Ok tt ->
   exists e, w_sqlite_connect w "backup_monitor.db" = Raise e) /\
  (w_import w "os" = Ok tt -> exists e, w_import w "platform" = Raise e).
Proof.
  unfold result_of, get_host_stats_via, try_except at 1, primary_tier,
    bind at 1.
  destruct (collector s) as [[stats|e0] s0]; cbn [fst].
  { split; [discriminate|]. intros ((e & H) & _). discriminate H. }
  unfold bind at 1, print at 1, emit at 1.
  set (s1 := set_log _ s0). unfold try_except at 1.
  assert (Hb := backup_tier_run w s1).
  destruct (w_import w "backup_monitor") as [[]|eb].
  - destruct (w_sqlite_connect w "backup_monitor.db") as [[]|ec].
    + destruct Hb as (hs & s' & -> & Hsrc). cbn [fst]. split.
      * intros H. injection H as ->. discriminate Hsrc.
      * intros (_ & H & _). destruct (H eq_refl) as [e He]. discriminate He.
    + rewrite Hb. clear Hb. unfold bind at 1, print at 1, emit at 1.
      set (s2 := set_log _ _). unfold try_except at 1.
      assert (Hf := failsafe_tier_run w s2).
      destruct (w_import w "os") as [[]|eo].
      * destruct (w_import w "platform") as [[]|ep].
        -- destruct Hf as (m & d & s' & ->). cbn [fst]. split.
           ++ discriminate.
           ++ intros (_ & _ & H). destruct (H eq_refl) as [e He].
              discriminate He.
        -- rewrite Hf. cbn. split; [|reflexivity]. intros _.
           split; [eauto|]. split; eauto.
      * rewrite Hf. cbn. split; [|reflexivity]. intros _.
        split; [eauto|]. split; [eauto|discriminate].
  - rewrite Hb. clear Hb. unfold bind at 1, print at 1, emit at 1.
    set (s2 := set_log _ _). unfold try_except at 1.
    assert (Hf := failsafe_tier_run w s2).
    destruct (w_import w "os") as [[]|eo].
    + destruct (w_import w "platform") as [[]|ep].
      * destruct Hf as (m & d & s' & ->). cbn [fst]. split.
        -- discriminate.
        -- intros (_ & _ & H). destruct (H eq_refl) as [e He].
           discriminate He.
      * rewrite Hf. cbn. split; [|reflexivity]. intros _.
        split; [eauto|]. split; [discriminate|eauto].
    + rewrite Hf. cbn. split; [|reflexivity]. intros _.
      split; [eauto|]. split; discriminate.
Qed.

(** ** The dashboard overview *)

Lemma keeps_for_each_in (P : list Device -> Prop) {A} (xs : list A)
    (body : A -> M unit) :
  (forall x, In x xs -> keeps P (body x)) -> keeps P (for_each xs body).
Proof.
  induction xs as [|x xs IH]; intros Hb; cbn [for_each].
  - apply keeps_ret.
  - apply keeps_bind; [apply Hb; left; reflexivity|intros _].
    apply IH. intros y Hy. apply Hb. right. exact Hy.
Qed.

Lemma keeps_insert_or_ignore (P : list Device -> Prop) w name ip mac type
    status latency :
  (forall rows d, P rows -> dev_status d = status -> P (rows ++ [d])) ->
  keeps P (insert_device w true name ip mac type status latency).
Proof.
  intros HP s H. rewrite insert_or_ignore_run. cbn [snd].
  destruct (existsb (has_ip ip) (st_devices s)); [exact H|].
  cbn [st_devices set_devices]. apply HP; [exact H|reflexivity].
Qed.

Lemma none_offline_upserted ip latency now rows seq :
  none_offline rows -> none_offline (fst (upserted ip latency now rows seq)).
Proof.
  unfold none_offline, upserted. intros H.
  destruct (existsb (has_ip ip) rows); cbn [fst].
  - apply List.Forall_map. eapply List.Forall_impl; [|exact H].
    intros d Hd. destruct (has_ip ip d); [discriminate|exact Hd].
  - apply List.Forall_app. split; [exact H|].
    constructor; [discriminate|constructor].
Qed.

Lemma keeps_none_offline_init w : keeps none_offline (init_database w).
Proof.
  unfold init_database, add_sample_data. apply keeps_for_each_in.
  intros [[[[[name ip] mac] type] status] latency] Hin.
  apply keeps_insert_or_ignore. intros rows d H Hd.
  apply List.Forall_app. split; [exact H|]. constructor; [|constructor].
  rewrite Hd. cbn in Hin.
  destruct Hin as [E|[E|[E|[]]]]; injection E as <- <- <- <- <- <-;
    discriminate.
Qed.

(** No function of the program sets a device offline. *)
Lemma started_none_offline s : started s -> none_offline (st_devices s).
Proof.
  induction 1 as [w|w s _ IH|w ip latency s _ IH|w s _ IH|w node data s _ IH].
  - apply (keeps_none_offline_init w fresh_state). constructor.
  - apply keeps_none_offline_init. exact IH.
  - unfold state_after. revert IH.
    apply (keeps_update_or_add_device none_offline). intros.
    apply none_offline_upserted. assumption.
  - unfold state_after. revert IH.
    apply (keeps_discover none_offline). intros.
    apply none_offline_upserted. assumption.
  - exact IH.
Qed.

Lemma seeded_three_rows rows : seeded rows -> (3 <= length rows)%nat.
Proof.
  intros [_ Hs].
  destruct (Hs ("Main Router", "192.168.1.1", "00:11:22:33:44:55", "Router",
                "online", (152 # 10)%Q)) as (d1 & H1 & _ & I1 & _);
    [cbn; tauto|].
  destruct (Hs ("Network Switch", "192.168.1.2", "00:11:22:33:44:56",
                "Switch", "online", (85 # 10)%Q)) as (d2 & H2 & _ & I2 & _);
    [cbn; tauto|].
  destruct (Hs ("WiFi Access Point", "192.168.1.3", "00:11:22:33:44:57",
                "Access Point", "warning", (251 # 10)%Q))
    as (d3 & H3 & _ & I3 & _); [cbn; tauto|].
  change 3%nat with (length [d1; d2; d3]).
  apply List.NoDup_incl_length.
  - repeat constructor; cbn; intuition (subst; congruence).
  - intros d [<-|[<-|[<-|[]]]]; assumption.
Qed.

Lemma count_status_disjoint a b rows :
  a <> b -> count_status a rows + count_status b rows
            <= Z.of_nat (length rows).
Proof.
  intros Hab. unfold count_status.
  induction rows as [|d rows IH]; cbn [List.filter length]; [lia|].
  destruct (String.eqb (dev_status d) a) eqn:Ea;
    destruct (String.eqb (dev_status d) b) eqn:Eb; cbn [length]; try lia.
  apply String.eqb_eq in Ea, Eb. congruence.
Qed.

Lemma count_status_none status rows :
  Forall (fun d => dev_status d <> status) rows -> count_status status rows = 0.
Proof.
  unfold count_status. induction 1 as [|d rows Hd _ IH]; [reflexivity|].
  cbn [List.filter]. apply String.eqb_neq in Hd. rewrite Hd. exact IH.
Qed.

(** X19. The overview reads the tables and changes nothing. Its total is
    the number of rows of the devices table, and the online and the
    offline devices together are at most the total: a device whose status
    is neither, as the sample access point with its status warning, is
    counted in neither. The active alerts are the unresolved rows of the
    alerts table. Once the program has started, the overview counts at
    least three devices and no offline device, whatever initialisations,
    upserts, sweeps and heartbeats have run: nothing in the program sets
    a device offline. *)
Theorem dashboard_overview_counts (alerts : list Alert) (s : State) :
  exists o,
    dashboard_overview alerts s = (Ok o, s) /\
    ov_totalDevices o = Z.of_nat (length (st_devices s)) /\
    0 <= ov_onlineDevices o /\ 0 <= ov_offlineDevices o /\
    ov_onlineDevices o + ov_offlineDevices o <= ov_totalDevices o /\
    0 <= ov_activeAlerts o <= Z.of_nat (length alerts) /\
    (Forall (fun a => al_is_resolved a = true) alerts ->
     ov_activeAlerts o = 0) /\
    (started s -> ov_offlineDevices o = 0 /\ 3 <= ov_totalDevices o).
Proof.
  eexists. split; [reflexivity|].
  cbn [ov_totalDevices ov_onlineDevices ov_offlineDevices ov_activeAlerts].
  split; [reflexivity|].
  split; [unfold count_status; lia|]. split; [unfold count_status; lia|].
  split; [apply count_status_disjoint; discriminate|].
  split; [split; [lia|]|split].
  - apply inj_le. apply List.filter_length_le.
  - intros H. induction H as [|a l Ha _ IH]; [reflexivity|].
    cbn [List.filter]. rewrite Ha. exact IH.
  - intros Hs. split.
    + apply count_status_none. apply started_none_offline. exact Hs.
    + apply started_seeded in Hs. apply seeded_three_rows in Hs. lia.
Qed.

(** ** The agent and the routes *)


Lemma run_turn_range hb c :
  0 <= c < max_failures ->
  0 <= fst (run_turn hb c) < max_failures.
Proof.
  unfold run_turn, max_failures. intros Hc.
  destruct (send_heartbeat hb) as [[|]|e]; cbn [fst].
  - cbn. lia.
  - destruct (5 <=? c + 1) eqn:E; cbn [fst]; [lia|].
    apply Z.leb_gt in E. lia.
  - lia.
Qed.

Lemma run_turn_failed hb c :
  send_heartbeat hb = Ok false -> 0 <= c < max_failures ->
  run_turn hb c = ((c + 1) mod 5, (c + 1 =? 5)).
Proof.
  unfold run_turn, max_failures. intros -> Hc.
  destruct (5 <=? c + 1) eqn:E.
  - apply Z.leb_le in E. replace (c + 1) with 5 by lia. reflexivity.
  - apply Z.leb_gt in E. rewrite Z.mod_small by lia.
    replace (c + 1 =? 5) with false; [reflexivity|].
    symmetry. apply Z.eqb_neq. lia.
Qed.

Lemma run_turns_failed hbs c :
  Forall (fun hb => send_heartbeat hb = Ok false) hbs ->
  0 <= c < max_failures ->
  run_turns hbs c =
    ((c + Z.of_nat (length hbs)) mod 5,
     Z.to_nat ((c + Z.of_nat (length hbs)) / 5)).
Proof.
  intros H. revert c. induction H as [|hb hbs Hhb _ IH]; intros c Hc.
  - cbn [run_turns length]. unfold max_failures in Hc.
    rewrite Z.add_0_r, Z.mod_small, Z.div_small by lia. reflexivity.
  - cbn [run_turns]. rewrite (run_turn_failed hb c Hhb Hc).
    assert (Hr : 0 <= (c + 1) mod 5 < max_failures).
    { unfold max_failures. apply Z.mod_pos_bound. lia. }
    rewrite (IH _ Hr). unfold max_failures in Hc.
    replace (c + Z.of_nat (length (hb :: hbs)))
      with (c + 1 + Z.of_nat (length hbs)) by (cbn [length]; lia).
    destruct (c + 1 =? 5) eqn:E.
    + apply Z.eqb_eq in E. rewrite E. change (5 mod 5) with 0.
      f_equal.
      * rewrite Z.add_0_l.
        replace (5 + Z.of_nat (length hbs))
          with (Z.of_nat (length hbs) + 1 * 5) by lia.
        rewrite Z.mod_add by lia. reflexivity.
      * rewrite Z.add_0_l.
        replace (5 + Z.of_nat (length hbs))
          with (Z.of_nat (length hbs) + 1 * 5) by lia.
        rewrite Z.div_add by lia.
        rewrite Z2Nat.inj_add; [|apply Z.div_pos; lia|lia].
        change (Z.to_nat 1) with 1%nat. lia.
    + apply Z.eqb_neq in E. rewrite (Z.mod_small (c + 1)) by lia.
      reflexivity.
Qed.

(** X21. The failure counter of the agent. Whatever the heartbeats come
    to, the counter stays within 0..4 from one turn of the loop to the
    next, and a successful heartbeat sets it to 0. While every heartbeat
    fails, as it does against this server, the agent registers again on
    every fifth turn and at no other: after n turns from a counter of 0
    the counter is n mod 5 and the node has been registered again n div 5
    times. *)
Theorem agent_registers_every_fifth_failure (hbs : list PostOutcome)
    (c : Z) :
  0 <= c < max_failures ->
  0 <= fst (run_turns hbs c) < max_failures /\
  (forall hb, send_heartbeat hb = Ok true -> run_turn hb c = (0, false)) /\
  (Forall (fun hb => send_heartbeat hb = Ok false) hbs ->
   run_turns hbs 0 =
     (Z.of_nat (length hbs) mod 5, Z.to_nat (Z.of_nat (length hbs) / 5))).
Proof.
  intros Hc. split; [|split].
  - revert c Hc. induction hbs as [|hb hbs IH]; intros c Hc; [exact Hc|].
    cbn [run_turns]. assert (H := run_turn_range hb c Hc).
    destruct (run_turn hb c) as [c1 r]. cbn [fst] in H.
    specialize (IH c1 H). destruct (run_turns hbs c1) as [c2 n].
    exact IH.
  - intros hb Hhb. unfold run_turn. rewrite Hhb. reflexivity.
  - intros H. rewrite (run_turns_failed hbs 0 H) by (unfold max_failures; lia).
    rewrite Z.add_0_l. reflexivity.
Qed.

Lemma agent_registers_every_fifth_failure_witness :
  run_turns (repeat (Answered 405) 12) 0 = (2, 2%nat).
Proof.
  destruct (agent_registers_every_fifth_failure (repeat (Answered 405) 12) 0)
    as (_ & _ & H); [unfold max_failures; lia|].
  rewrite H; [reflexivity|]. repeat constructor.
Defined.

(** ** The monitoring loop *)

Lemma keeps_get_system_stats P w : keeps P (get_system_stats w).
Proof.
  unfold get_system_stats. apply keeps_try.
  - repeat (apply keeps_bind; [apply keeps_extern|intros ?]).
    apply keeps_bind; [intros s H; exact H|intros ?].
    apply keeps_bind; [intros s H; exact H|intros ?]. apply keeps_ret.
  - intros e. apply keeps_bind; [apply keeps_print|intros _].
    apply keeps_bind; [intros s H; exact H|intros ?]. apply keeps_ret.
Qed.

Lemma discover_grows w s :
  exists s', discover_network_devices w s = (Ok tt, s') /\
             grown (st_devices s) (st_devices s').
Proof.
  assert (H := keeps_discover (grown (st_devices s)) w).
  specialize (H (fun ip latency now rows seq Hg =>
                   grown_trans _ _ _ Hg (grown_upserted ip latency now rows seq))
                s (grown_refl _)).
  revert H. unfold discover_network_devices, try_except.
  match goal with
  | |- context [match ?m with _ => _ end] => destruct m as [[[]|e] s1]
  end; cbn [snd]; intros H; eexists; (split; [reflexivity|exact H]).
Qed.

Lemma round2_bounds x a b :
  (inject_Z a <= x <= inject_Z b)%Q ->
  (inject_Z a <= round2 x <= inject_Z b)%Q.
Proof.
  intros [Ha Hb]. unfold round2.
  destruct (round_half_even_bounds (x * 100) (a * 100) (b * 100)) as [Hl Hu].
  - rewrite inject_Z_mult. change (inject_Z 100) with 100%Q. lra.
  - rewrite inject_Z_mult. change (inject_Z 100) with 100%Q. lra.
  - unfold Qle, inject_Z. cbn. lia.
Qed.

Lemma round1_bounds x a b :
  (inject_Z a <= x <= inject_Z b)%Q ->
  (inject_Z a <= round1 x <= inject_Z b)%Q.
Proof.
  intros [Ha Hb]. unfold round1.
  destruct (round_half_even_bounds (x * 10) (a * 10) (b * 10)) as [Hl Hu].
  - rewrite inject_Z_mult. change (inject_Z 10) with 10%Q. lra.
  - rewrite inject_Z_mult. change (inject_Z 10) with 10%Q. lra.
  - unfold Qle, inject_Z. cbn. lia.
Qed.

(** What the loop over the online devices leaves. *)
Lemma insert_all_network_stats w c ids t :
  let t' := fold_left (fun t id => insert_network_stats w c id t) ids t in
  tb_host_stats t' = tb_host_stats t /\
  st_devices (tb_state t') = st_devices (tb_state t) /\
  st_log (tb_state t') = st_log (tb_state t) /\
  exists added,
    tb_network_stats t' = tb_network_stats t ++ added /\
    map ns_device_id added = ids /\
    (uniform_in_bounds c -> Forall net_row_in_range added).
Proof.
  revert t. induction ids as [|id ids IH]; intros t; cbn [fold_left].
  - repeat split. exists []. rewrite app_nil_r. repeat split. constructor.
  - destruct (IH (insert_network_stats w c id t))
      as (H1 & H2 & H3 & added & H4 & H5 & H6).
    cbv zeta. rewrite H1, H2, H3, H4. repeat split.
    eexists (_ :: added). cbn [insert_network_stats tb_network_stats].
    rewrite <- List.app_assoc. split; [reflexivity|].
    cbn [map ns_device_id]. rewrite H5. split; [reflexivity|].
    intros Hc. constructor; [|apply H6; exact Hc].
    unfold net_row_in_range. cbn.
    repeat split;
      first [ apply (round2_bounds _ 10 100) | apply (round2_bounds _ 50 500)
            | apply (round1_bounds _ 5 85) | apply (round2_bounds _ 0 2)
            | apply (round1_bounds _ 1 50) ];
      apply Hc; unfold Qle; cbn; lia.
Qed.

(** One turn of the loop, step by step. *)
Lemma monitoring_cycle_run w c t :
  exists stats s1 s2 added text,
    get_system_stats w (tb_state t) = (Ok stats, s1) /\
    st_devices s1 = st_devices (tb_state t) /\
    discover_network_devices w (set_sql_reads (S (st_sql_reads s1)) s1)
      = (Ok tt, s2) /\
    grown (st_devices (tb_state t)) (st_devices s2) /\
    let t' := monitoring_cycle w c t in
    st_devices (tb_state t') = st_devices s2 /\
    tb_host_stats t' =
      tb_host_stats t ++
      [ {| hr_id := tb_host_seq t + 1;
           hr_timestamp := w_sql_now w (st_sql_reads s1);
           hr_cpu_usage := ss_cpu_usage stats;
           hr_memory_usage := ss_memory_usage stats;
           hr_disk_usage := ss_disk_usage stats;
           hr_network_interfaces :=
             py_json_dumps w (interfaces_json (ss_interfaces stats));
           hr_uptime := ss_uptime_hours stats |} ] /\
    tb_network_stats t' = tb_network_stats t ++ added /\
    map ns_device_id added = online_ids (st_devices s2) /\
    (uniform_in_bounds c -> Forall net_row_in_range added) /\
    st_log (tb_state t') =
      st_log s2 ++ [Printed ("Monitoring cycle completed at " +:+ text)].
Proof.
  destruct (get_system_stats_run w (tb_state t)) as (stats & s1 & l & E1 & _).
  assert (Hd : st_devices s1 = st_devices (tb_state t)).
  { assert (H := keeps_get_system_stats
                   (fun rows => rows = st_devices (tb_state t)) w
                   (tb_state t) eq_refl).
    rewrite E1 in H. exact H. }
  destruct (discover_grows w (set_sql_reads (S (st_sql_reads s1)) s1))
    as (s2 & E2 & Hg).
  change (st_devices (set_sql_reads _ s1)) with (st_devices s1) in Hg.
  rewrite Hd in Hg.
  assert (Hgen := insert_all_network_stats w c (online_ids (st_devices s2))
                    (set_state s2
                       (store_host_stats w stats (set_state s1 t)))).
  cbv zeta in Hgen. destruct Hgen as (H1 & H2 & H3 & added & H4 & H5 & H6).
  exists stats, s1, s2, added.
  exists (ch_str_datetime c
            (w_time w
               (st_time_reads
                  (tb_state
                     (generate_sample_network_stats w c
                        (set_state s2
                           (store_host_stats w stats (set_state s1 t)))))))).
  split; [exact E1|]. split; [exact Hd|]. split; [exact E2|].
  split; [exact Hg|].
  unfold monitoring_cycle. rewrite E1.
  cbn [store_host_stats tb_state set_state]. rewrite E2.
  unfold generate_sample_network_stats in *.
  cbn [tb_state tb_host_stats tb_network_stats set_state st_devices st_log
       logged set_log set_time_reads store_host_stats] in *.
  rewrite H1, H2, H3, H4.
  repeat split; try reflexivity; assumption.
Qed.

(** X22. One turn of the monitoring loop never ends in its error
    handler: it prints `Monitoring cycle completed at ...` as its last
    line. It adds exactly one row to the host statistics, with the next
    id and the figures of the snapshot; the devices table only grows; and
    it adds to the network statistics exactly one row for each device
    that is online after the sweep, in the order of the table and with
    the id of that device. Where every random draw lies between its
    bounds, the generated upload speed lies within 10..100, the download
    speed within 50..500, the utilisation within 5..85, the packet loss
    within 0..2 and the latency within 1..50. *)
Theorem monitoring_cycle_records (w : World) (c : Chance) (t : Tables) :
  let t' := monitoring_cycle w c t in
  (exists row,
     tb_host_stats t' = tb_host_stats t ++ [row] /\
     hr_id row = tb_host_seq t + 1) /\
  grown (st_devices (tb_state t)) (st_devices (tb_state t')) /\
  (exists added,
     tb_network_stats t' = tb_network_stats t ++ added /\
     map ns_device_id added = online_ids (st_devices (tb_state t')) /\
     (uniform_in_bounds c -> Forall net_row_in_range added)) /\
  (exists text,
     List.last (st_log (tb_state t')) (Printed EmptyString)
       = Printed ("Monitoring cycle completed at " +:+ text)).
Proof.
  destruct (monitoring_cycle_run w c t)
    as (stats & s1 & s2 & added & text & _ & _ & _ & Hg & H).
  cbv zeta in *. destruct H as (Hd & Hh & Hn & Hids & Hr & Hl).
  split; [eexists; split; [exact Hh|reflexivity]|].
  split; [rewrite Hd; exact Hg|].
  split; [exists added; rewrite Hd; auto|].
  exists text. rewrite Hl. apply List.last_last.
Qed.

Lemma evolved_ids rows kept :
  Forall2 evolved rows kept -> map dev_id kept = map dev_id rows.
Proof.
  induction 1 as [|d d' rows kept Hd _ IH]; [reflexivity|].
  cbn [map]. rewrite IH. f_equal.
  destruct Hd as [->|(l & n & ->)]; reflexivity.
Qed.

Lemma grown_ids rows rows' i :
  grown rows rows' -> In i (map dev_id rows) -> In i (map dev_id rows').
Proof.
  intros (kept & added & -> & H) Hi. rewrite List.map_app.
  apply List.in_or_app. left. rewrite (evolved_ids _ _ H). exact Hi.
Qed.

Lemma online_ids_in rows i : In i (online_ids rows) -> In i (map dev_id rows).
Proof.
  unfold online_ids. intros H. apply List.in_map_iff in H as (d & <- & Hd).
  apply List.filter_In in Hd as [Hd _]. apply List.in_map. exact Hd.
Qed.

Lemma monitoring_cycle_references w c t :
  references_devices t -> references_devices (monitoring_cycle w c t).
Proof.
  unfold references_devices. intros Hfk.
  destruct (monitoring_cycle_run w c t)
    as (stats & s1 & s2 & added & text & _ & _ & _ & Hg & H).
  cbv zeta in H. destruct H as (Hd & _ & Hn & Hids & _).
  rewrite Hn, Hd. apply List.Forall_app. split.
  - eapply List.Forall_impl; [|exact Hfk]. intros r Hr.
    eapply grown_ids; eassumption.
  - apply List.Forall_forall. intros r Hr. apply online_ids_in.
    rewrite <- Hids. apply List.in_map. exact Hr.
Qed.

(** X23. Any number of turns of the monitoring loop: the host statistics
    grow by exactly one row a turn, the devices table only grows, and the
    foreign key of the network statistics holds at the end where it held
    at the start, although the database does not enforce it: every row
    of the network statistics, old or generated, refers to a device of
    the table, because the loop generates rows for devices of the table
    only and nothing deletes a device. *)
Theorem monitoring_loop_keeps_references (w : World) (c : Chance) (n : nat)
    (t : Tables) :
  references_devices t ->
  let t' := monitoring_loop w c n t in
  references_devices t' /\
  length (tb_host_stats t') = (length (tb_host_stats t) + n)%nat /\
  grown (st_devices (tb_state t)) (st_devices (tb_state t')).
Proof.
  revert t. induction n as [|n IH]; intros t Hfk; cbn [monitoring_loop].
  - split; [exact Hfk|]. split; [lia|apply grown_refl].
  - destruct (IH (monitoring_cycle w c t)
                (monitoring_cycle_references w c t Hfk)) as (H1 & H2 & H3).
    destruct (monitoring_cycle_run w c t)
      as (stats & s1 & s2 & added & text & _ & _ & _ & Hg & H).
    cbv zeta in H. destruct H as (Hd & Hh & _).
    split; [exact H1|]. split.
    + rewrite H2, Hh, List.length_app. cbn [length]. lia.
    + eapply grown_trans; [|exact H3]. rewrite Hd. exact Hg.
Qed.

Lemma monitoring_loop_keeps_references_witness :
  let w := Sample.world Sample.bare_os Sample.dead_sockets
             (Sample.one_interface "10.0.0.7") in
  let c := {| ch_uniform := fun _ a _ => a;
              ch_str_datetime := fun _ => "2024-05-01 12:00:00" |} in
  let t := set_state (state_after (init_database w) fresh_state)
             fresh_tables in
  length (tb_host_stats (monitoring_loop w c 2 t)) = 2%nat.
Proof.
  intros w c t.
  destruct (monitoring_loop_keeps_references w c 2 t) as (_ & H & _).
  - constructor.
  - rewrite H. reflexivity.
Defined.

(** ** The CPU reading of the backup collector *)

Lemma map_m_int_run w fields ns s :
  Forall2 (fun x n => py_int w x = Some n) fields ns ->
  map_m (int_ w) fields s = (Ok ns, s).
Proof.
  induction 1 as [|x n fields ns Hx _ IH]; [reflexivity|].
  cbn [map_m]. unfold bind at 1. unfold int_ at 1. rewrite Hx. unfold ret at 1.
  cbv beta iota. unfold bind at 1. rewrite IH. reflexivity.
Qed.

(** X24. The CPU usage that the backup collector reads from /proc/stat on
    Linux, where the counters of the first line parse as integers: with
    at least four counters whose sum is not zero it is
    100 * (1 - idle / total) limited to 0..100, where idle is the fourth
    counter and total the sum of all counters of the line; with fewer
    than four counters, or counters that sum to zero, it is 0, after one
    printed line. Nothing but the log changes. *)
Theorem cpu_usage_from_proc_stat (w : World) (s : State) (f : list string)
    (cpu_times : list Z) :
  is_linux w = true ->
  w_open w "/proc/stat" = Ok f ->
  Forall2 (fun x n => py_int w x = Some n)
    (tail (PyStr.split_ws (readline f))) cpu_times ->
  get_cpu_usage_basic w s =
    match nth_error cpu_times 3 with
    | Some idle_time =>
        if sum_z cpu_times =? 0
        then (Ok 0%Q,
              logged "CPU usage error: division by zero" (called "open" s))
        else (Ok (clamp_0_100
                    (100 * (1 - inject_Z idle_time
                                / inject_Z (sum_z cpu_times)))),
              called "open" s)
    | None =>
        (Ok 0%Q,
         logged "CPU usage error: list index out of range" (called "open" s))
    end.
Proof.
  intros Hlinux Hopen Hparse. unfold get_cpu_usage_basic.
  rewrite Hlinux. unfold bind at 1, try_except, bind at 1, extern.
  rewrite Hopen. unfold bind at 1.
  rewrite (map_m_int_run _ _ _ _ Hparse).
  unfold bind at 1, index.
  destruct (nth_error cpu_times 3) as [idle|]; [|reflexivity].
  unfold ret at 1. unfold bind at 1, truediv.
  destruct (sum_z cpu_times =? 0); reflexivity.
Qed.

Lemma cpu_usage_from_proc_stat_witness :
  let w := Sample.world (Sample.meminfo_os 16384 8192) Sample.dead_sockets
             Sample.no_psutil in
  result_of (get_cpu_usage_basic w) fresh_state
    = Ok (clamp_0_100 (100 * (1 - 800 / 965))).
Proof.
  intros w. unfold result_of.
  rewrite (cpu_usage_from_proc_stat w fresh_state
             [ "cpu  100 0 50 800 10 0 5 0 0 0" +:+ PyStr.nl ]
             [100; 0; 50; 800; 10; 0; 5; 0; 0; 0] eq_refl eq_refl).
  - reflexivity.
  - vm_compute. repeat constructor.
Defined.

(** ** The listing of the alerts *)

Lemma filter_id_unique (rows : list Device) (i : Z) :
  NoDup (map dev_id rows) ->
  (length (List.filter (fun d => (dev_id d =? i)%Z) rows) <= 1)%nat.
Proof.
  induction rows as [|d rows IH]; cbn [map List.filter length]; [lia|].
  intros H. apply NoDup_cons in H as [Hd Hn].
  destruct (dev_id d =? i) eqn:E; [|apply IH; exact Hn].
  apply Z.eqb_eq in E. cbn [length].
  assert (Hnone : List.filter (fun d => dev_id d =? i) rows = []).
  { destruct (List.filter (fun d => dev_id d =? i) rows) as [|x l] eqn:F;
      [reflexivity|].
    exfalso. apply Hd. apply list_elem_of_In.
    assert (Hx : In x (List.filter (fun d => dev_id d =? i) rows)).
    { rewrite F. left. reflexivity. }
    apply List.filter_In in Hx as [Hx Hi]. apply Z.eqb_eq in Hi.
    apply List.in_map_iff. exists x. split; [congruence|exact Hx]. }
  rewrite Hnone. cbn. lia.
Qed.

(** With unique device ids the join gives one row for each alert. *)
Lemma join_device_one rows a :
  NoDup (map dev_id rows) ->
  exists name, join_device rows a = [alert_view a name].
Proof.
  intros Hn. unfold join_device.
  destruct (al_device_id a) as [i|].
  - assert (H := filter_id_unique rows i Hn).
    destruct (List.filter (fun d => dev_id d =? i) rows) as [|d [|d' l]].
    + exists None. reflexivity.
    + exists (Some (dev_name d)). reflexivity.
    + cbn in H. lia.
  - assert (E : List.filter (fun _ : Device => false) rows = []).
    { induction rows as [|d rows IH]; [reflexivity|].
      cbn [List.filter]. apply IH. cbn [map] in Hn.
      apply NoDup_cons in Hn as [_ Hn]. exact Hn. }
    rewrite E. exists None. reflexivity.
Qed.

Lemma join_ids rows alerts :
  NoDup (map dev_id rows) ->
  map av_id (flat_map (join_device rows) alerts) = map al_id alerts.
Proof.
  intros Hn. induction alerts as [|a alerts IH]; [reflexivity|].
  cbn [flat_map map]. rewrite List.map_app, IH.
  destruct (join_device_one rows a Hn) as [name ->]. reflexivity.
Qed.

Lemma hd_insert_by_time a v l :
  newer_first a v -> HdRel newer_first a l ->
  HdRel newer_first a (insert_by_time v l).
Proof.
  intros Hav Hl. destruct l as [|y l]; cbn [insert_by_time].
  - constructor. exact Hav.
  - destruct (av_createdAt y <=? av_createdAt v); constructor;
      [exact Hav|inversion Hl; assumption].
Qed.

Lemma sorted_insert_by_time v l :
  Sorted newer_first l -> Sorted newer_first (insert_by_time v l).
Proof.
  induction 1 as [|y l Hl IH Hy]; cbn [insert_by_time].
  - repeat constructor.
  - destruct (av_createdAt y <=? av_createdAt v) eqn:E.
    + constructor; [constructor; assumption|].
      constructor. unfold newer_first. apply Z.leb_le. exact E.
    + constructor; [exact IH|].
      apply hd_insert_by_time; [|exact Hy].
      unfold newer_first. apply Z.leb_gt in E. lia.
Qed.

Lemma perm_insert_by_time v l : Permutation (v :: l) (insert_by_time v l).
Proof.
  induction l as [|y l IH]; cbn [insert_by_time]; [reflexivity|].
  destruct (av_createdAt y <=? av_createdAt v); [reflexivity|].
  rewrite perm_swap. constructor. exact IH.
Qed.

Lemma perm_order_by_time_desc l : Permutation l (order_by_time_desc l).
Proof.
  unfold order_by_time_desc. induction l as [|v l IH]; cbn [fold_right].
  - constructor.
  - rewrite <- perm_insert_by_time. constructor. exact IH.
Qed.

Lemma sorted_order_by_time_desc l : Sorted newer_first (order_by_time_desc l).
Proof.
  unfold order_by_time_desc. induction l as [|v l IH]; cbn [fold_right].
  - constructor.
  - apply sorted_insert_by_time. exact IH.
Qed.

(** Once the program has started no two devices share an id. *)
Lemma started_ids_unique s : started s -> NoDup (map dev_id (st_devices s)).
Proof.
  intros Hs.
  assert (Hok : table_ok (st_devices s) (st_devices_seq s)).
  { induction Hs
      as [w|w s _ IH|w ip latency s _ IH|w s _ IH|w node data s _ IH].
    - apply (keeps_table_init_database w fresh_state).
      unfold table_ok, unique_ips. cbn.
      repeat split; try constructor; lia.
    - apply keeps_table_init_database. exact IH.
    - unfold state_after. revert IH.
      apply (keeps_table_update_or_add_device table_ok). intros.
      apply table_ok_upserted. assumption.
    - unfold state_after. revert IH.
      apply (keeps_table_discover table_ok). intros.
      apply table_ok_upserted. assumption.
    - exact IH. }
  destruct Hok as (_ & H & _). exact H.
Qed.

(** X25. The listing of the alerts reads the tables and changes nothing,
    and it is ordered newest first. With `resolved=true` it holds the
    resolved alerts and with `resolved=false` the unresolved ones; any
    other value of the parameter, `True` or `1` included, lists all
    alerts, as no parameter does. Where no two devices share an id, as
    in every state the program reaches once started, each selected alert
    is listed exactly once, also an alert without device or with the id
    of no device. *)
Theorem alerts_listing (alerts : list Alert) (resolved : option string)
    (s : State) :
  exists l,
    get_alerts alerts resolved s = (Ok l, s) /\
    Sorted newer_first l /\
    Forall (fun v =>
              match resolved with
              | Some "true" => av_isResolved v = true
              | Some "false" => av_isResolved v = false
              | _ => True
              end) l /\
    (resolved <> Some "true" -> resolved <> Some "false" ->
     get_alerts alerts resolved s = get_alerts alerts None s) /\
    (NoDup (map dev_id (st_devices s)) ->
     Permutation (map av_id l)
       (map al_id (List.filter (alert_selected resolved) alerts))) /\
    (started s ->
     length l = length (List.filter (alert_selected resolved) alerts)).
Proof.
  assert (Hperm : NoDup (map dev_id (st_devices s)) ->
            Permutation
              (map av_id
                 (order_by_time_desc
                    (flat_map (join_device (st_devices s))
                       (List.filter (alert_selected resolved) alerts))))
              (map al_id (List.filter (alert_selected resolved) alerts))).
  { intros Hn. rewrite <- perm_order_by_time_desc.
    rewrite (join_ids _ _ Hn). reflexivity. }
  eexists. split; [reflexivity|].
  split; [apply sorted_order_by_time_desc|]. split; [|split; [|split]].
  - apply List.Forall_forall. intros v Hv.
    eapply Permutation_in in Hv; [|symmetry; apply perm_order_by_time_desc].
    apply List.in_flat_map in Hv as (a & Ha & Hv).
    apply List.filter_In in Ha as [_ Hsel].
    assert (Hres : av_isResolved v = al_is_resolved a).
    { unfold join_device in Hv.
      destruct (List.filter _ (st_devices s)) as [|d l].
      - destruct Hv as [<-|[]]. reflexivity.
      - apply List.in_map_iff in Hv as (d' & <- & _). reflexivity. }
    unfold alert_selected in Hsel.
    destruct resolved as [r|]; [|exact I].
    destruct (String.eqb r "true") eqn:Et.
    + apply String.eqb_eq in Et. subst r. congruence.
    + destruct (String.eqb r "false") eqn:Ef.
      * apply String.eqb_eq in Ef. subst r.
        rewrite Hres. apply negb_true_iff. exact Hsel.
      * apply String.eqb_neq in Et, Ef.
        repeat match goal with
               | |- match ?x with _ => _ end =>
                   let E := fresh in destruct x eqn:E; try exact I
               end; exfalso; subst; auto.
  - intros Ht Hf. unfold get_alerts, bind, get_devices, ret.
    do 4 f_equal. apply List.filter_ext. intros a.
    unfold alert_selected. destruct resolved as [r|]; [|reflexivity].
    destruct (String.eqb r "true") eqn:Et;
      [apply String.eqb_eq in Et; subst; congruence|].
    destruct (String.eqb r "false") eqn:Ef;
      [apply String.eqb_eq in Ef; subst; congruence|reflexivity].
  - exact Hperm.
  - intros Hs.
    assert (Hid := started_ids_unique s Hs).
    apply Hperm in Hid. apply Permutation_length in Hid.
    rewrite !List.length_map in Hid. exact Hid.
Qed.

(** ** The metrics of the agent *)




(** ** The agent against the server *)

Lemma serve_agent_offline w name ip r s :
  all_offline (st_nodes s) ->
  all_offline (st_nodes (snd (serve_agent w name ip r s))).
Proof.
  intros H. destruct r.
  - change (serve_agent w name ip AgentRegister)
      with (a <- raspberry_pi_nodes_post w (agent_registration name ip) ;;
            ret (Some (ans_status a))).
    unfold bind. rewrite raspberry_pi_nodes_post_run. cbv zeta.
    destruct (_ || _); [exact H|].
    destruct (existsb _ (st_nodes s)); [exact H|].
    cbn [snd ret st_nodes set_nodes]. apply List.Forall_app.
    split; [exact H|]. constructor; [reflexivity|constructor].
  - exact H.
Qed.

(** X27. A node that the agent registers never comes online. Whatever
    requests the agent sends in whatever order, registrations and
    heartbeats, the server never raises, it answers every heartbeat of
    the agent with 405 and every registration with 200 or 400, and where
    no node of the table was online before, none is afterwards: the
    heartbeats of the agent do not reach the view that would mark a node
    online. *)
Theorem agent_never_comes_online (w : World) (name ip : string)
    (requests : list AgentRequest) (s : State) :
  all_offline (st_nodes s) ->
  exists statuses s',
    serve_agent_run w name ip requests s = (Ok statuses, s') /\
    all_offline (st_nodes s') /\
    Forall2 (fun r status =>
               match r with
               | AgentHeartbeat => status = Some 405
               | AgentRegister => status = Some 200 \/ status = Some 400
               end) requests statuses.
Proof.
  revert s. induction requests as [|r requests IH]; intros s H.
  - exists [], s. repeat split; [exact H|constructor].
  - cbn [serve_agent_run]. unfold bind at 1.
    assert (Hoff := serve_agent_offline w name ip r s H).
    assert (Hst : exists status s1,
               serve_agent w name ip r s = (Ok status, s1) /\
               match r with
               | AgentHeartbeat => status = Some 405
               | AgentRegister => status = Some 200 \/ status = Some 400
               end).
    { destruct r.
      - change (serve_agent w name ip AgentRegister)
          with (a <- raspberry_pi_nodes_post w (agent_registration name ip) ;;
                ret (Some (ans_status a))).
        unfold bind. rewrite raspberry_pi_nodes_post_run. cbv zeta.
        destruct (_ || _); [eexists _, _; split; [reflexivity|auto]|].
        destruct (existsb _ (st_nodes s));
          eexists _, _; (split; [reflexivity|auto]).
      - eexists _, _. split; reflexivity. }
    destruct Hst as (status & s1 & E & Hstatus). rewrite E in *.
    cbn [snd] in Hoff. destruct (IH s1 Hoff) as (statuses & s' & E' & H' & F).
    unfold bind. rewrite E'. exists (status :: statuses), s'.
    split; [reflexivity|]. split; [exact H'|].
    constructor; assumption.
Qed.

Lemma agent_never_comes_online_witness :
  let w := Sample.world Sample.bare_os Sample.dead_sockets Sample.no_psutil in
  result_of
    (serve_agent_run w "pi-b" "10.0.0.51"
       [AgentRegister; AgentHeartbeat; AgentRegister])
    one_node_state
  = Ok [Some 200; Some 405; Some 400].
Proof.
  intros w.
  destruct (agent_never_comes_online w "pi-b" "10.0.0.51"
              [AgentRegister; AgentHeartbeat; AgentRegister] one_node_state)
    as (statuses & s' & E & _ & _).
  - repeat constructor.
  - unfold result_of. rewrite E.
    assert (E2 := f_equal fst E). cbn [fst] in E2. rewrite <- E2.
    reflexivity.
Defined.

(** ** The uptime of the backup collector off Linux *)

Lemma span_digits h rest :
  all_digits h = true -> starts_with_digit rest = false ->
  PyStr.span PyStr.isdigit (h +:+ rest) = (h, rest).
Proof.
  intros Hh Hr. induction h as [|c h IH].
  - rewrite append_nil_l. destruct rest as [|c rest]; [reflexivity|].
    cbn [starts_with_digit] in Hr. cbn [PyStr.span]. rewrite Hr. reflexivity.
  - cbn [all_digits] in Hh. apply andb_true_iff in Hh as [Hc Hh].
    rewrite append_cons. cbn [PyStr.span]. rewrite Hc, (IH Hh). reflexivity.
Qed.

Lemma match_clock_at h m rest :
  all_digits h = true -> h <> EmptyString ->
  all_digits m = true -> m <> EmptyString ->
  starts_with_digit rest = false ->
  PyStr.match_clock_here (h +:+ ":" +:+ m +:+ rest) = Some (h, m).
Proof.
  intros Hh Hhe Hm Hme Hr. unfold PyStr.match_clock_here.
  rewrite (span_digits h _ Hh) by reflexivity.
  rewrite append_cons, append_nil_l.
  rewrite (span_digits m rest Hm Hr).
  apply String.eqb_neq in Hhe, Hme. rewrite Hhe, Hme. reflexivity.
Qed.

Lemma match_clock_not_at c s :
  PyStr.isdigit c = false -> PyStr.match_clock_here (String c s) = None.
Proof.
  intros Hc. unfold PyStr.match_clock_here. cbn [PyStr.span]. rewrite Hc.
  destruct (Ascii.eqb c ":") eqn:E.
  - apply Ascii.eqb_eq in E. subst c.
    destruct (PyStr.span PyStr.isdigit s). reflexivity.
  - destruct c as [[] [] [] [] [] [] [] []]; try reflexivity;
      discriminate E.
Qed.

(** The clock that [re.search] finds is the leftmost one. *)
Lemma search_clock_leftmost pre h m rest :
  no_digit pre = true ->
  all_digits h = true -> h <> EmptyString ->
  all_digits m = true -> m <> EmptyString ->
  starts_with_digit rest = false ->
  PyStr.search_clock (pre +:+ h +:+ ":" +:+ m +:+ rest) = Some (h, m).
Proof.
  intros Hpre Hh Hhe Hm Hme Hr. induction pre as [|c pre IH].
  - rewrite append_nil_l.
    destruct (h +:+ ":" +:+ m +:+ rest) eqn:E; cbn [PyStr.search_clock];
      rewrite <- E, (match_clock_at h m rest) by assumption; reflexivity.
  - cbn [no_digit] in Hpre. apply andb_true_iff in Hpre as [Hc Hpre].
    apply negb_true_iff in Hc.
    rewrite append_cons. cbn [PyStr.search_clock].
    rewrite (match_clock_not_at c _ Hc). apply IH. exact Hpre.
Qed.

(** X28. Off Linux the backup collector takes the uptime from the output
    of `uptime`, and where that output mentions days it takes the hours
    and minutes from the leftmost `h:m` of the output. The output of
    `uptime` starts with the time of day, so this is the time of day and
    not the hours and minutes the host has been up: the result is the
    days of the uptime times 86400 plus the time of day in seconds. *)
Theorem uptime_takes_leftmost_clock (w : World) (s : State)
    (result : Completed) (pre h m rest d : string) (days hours minutes : Z) :
  is_linux w = false ->
  w_subprocess_run w ["uptime"] = Ok result ->
  stdout result = pre +:+ h +:+ ":" +:+ m +:+ rest ->
  no_digit pre = true ->
  all_digits h = true -> h <> EmptyString ->
  all_digits m = true -> m <> EmptyString ->
  starts_with_digit rest = false ->
  PyStr.contains "day" (stdout result) = true ->
  PyStr.search_days (stdout result) = Some d ->
  py_int w d = Some days ->
  py_int w h = Some hours ->
  py_int w m = Some minutes ->
  get_system_uptime_basic w s =
    (Ok (inject_Z (days * 86400 + hours * 3600 + minutes * 60)),
     called "subprocess.run" s).
Proof.
  intros Hlinux Hrun Hout Hpre Hh Hhe Hm Hme Hr Hday Hd Hdays Hhours Hmin.
  assert (Hclock : PyStr.search_clock (stdout result) = Some (h, m)).
  { rewrite Hout. apply search_clock_leftmost; assumption. }
  unfold get_system_uptime_basic. rewrite Hlinux.
  unfold try_except, bind at 1, extern. rewrite Hrun. cbv beta iota.
  rewrite Hday, Hd, Hclock.
  unfold bind, int_. rewrite Hdays, Hhours, Hmin. reflexivity.
Qed.

Lemma uptime_takes_leftmost_clock_witness :
  let os :=
    {| os_platform_system := "Darwin";
       os_subprocess_run := fun _ =>
         Ok {| returncode := 0;
               stdout := " 10:15:32 up 3 days,  2:15,  1 user" |};
       os_open := os_open Sample.bare_os;
       os_path_exists := os_path_exists Sample.bare_os;
       os_statvfs := os_statvfs Sample.bare_os;
       os_import := os_import Sample.bare_os;
       os_sqlite_connect := os_sqlite_connect Sample.bare_os;
       os_write_json := os_write_json Sample.bare_os |} in
  let w := Sample.world os Sample.dead_sockets Sample.no_psutil in
  result_of (get_system_uptime_basic w) fresh_state
    = Ok (inject_Z (3 * 86400 + 10 * 3600 + 15 * 60)).
Proof.
  intros os w. unfold result_of.
  rewrite (uptime_takes_leftmost_clock w fresh_state
             {| returncode := 0;
                stdout := " 10:15:32 up 3 days,  2:15,  1 user" |}
             " " "10" "15" ":32 up 3 days,  2:15,  1 user" "3" 3 10 15);
    try reflexivity; discriminate.
Defined.
